(* ===== verification/_CoqProject ===== *)
-Q . S2P
Prelude.v
PyJson.v
Selector.v
Spec.v
World.v
Trace.v
FakeServices.v
VkDownloader.v
YaUploader.v
Manifest.v
JsonRead.v
Program.v
Confinement.v
