(* ===== verification/Prelude.v ===== *)
(** * A verification development for AvdeevOleg/Backup (src/program.py)

    ** The program

    src/program.py copies the profile photos of a VK user to a folder of
    Yandex.Disk.  [main] reads four answers on standard input (VK user
    id, VK token, Yandex token, folder name); a [VkDownloader] sends one
    [photos.get] request, picks for each photo the size variant of
    largest [height * width], downloads it to [images_vk/<likes>.jpg]
    and returns the list [{'file_name', 'size'}]; when that list is
    empty [main] stops; otherwise a [YaUploader] creates the folder,
    uploads each staged file through an upload URL, and [main] writes
    the list to [photos.json] with [json.dump(..., indent=4)].

    ** Files, in dependency order

    - Prelude.v (this file): the outcome type [result] (a value or a
      raised exception), the state-and-exception monad [prog] with its
      notations in [py_scope], [returns P c] (every value [c] returns
      satisfies [P]) with its rules, the hint databases [backup] and
      [backup_rw], and the monad and list lemmas.
    - PyJson.v: the Python values a JSON response decodes to ([json]),
      the exceptions ([exc]), and the Python operations the program
      applies to them: [d[k]] ([subscript]), [d.get(k)] ([get]), truth
      ([truthy]), iteration ([py_iter]), [*] ([py_mul]), [==] ([py_eq]),
      [>] ([py_gt]), [str()]/[repr()] ([py_str], [py_repr]).
    - Selector.v: the builtin [max] with a key ([py_max], [max_loop],
      after CPython's [min_max]), the key lambda ([size_key]) and line 42
      ([max_size_photo]); the reference [select_best] and [first_max].
    - Spec.v: the typed records of the spec (photo record, size variant,
      transfer record), the pure stages it describes ([select_variant],
      [materialize], [manifest_of], [staged]) and the JSON encoding of a
      catalog ([enc_photo]).
    - World.v: the state a run acts on, [world]: directories ([gset]),
      files ([gmap] path -> bytes), the remote services' state, standard
      input and the trace of events (requests, printed lines, inputs) in
      order.  Its operations model [requests.get/put] ([http]),
      [os.path.exists], [os.makedirs], [open] for writing and reading,
      [print] and [input]; a path is resolved component by component as
      the kernel does ([resolve_path], [walk]: [..] goes up, every named
      component must be a directory), and [open] returns the file it
      opened, which the later [write] uses.  The remote services are the interface
      [HttpServer] (a class): a state and the answer to one request.
    - FakeServices.v: concrete [HttpServer] instances on which the
      concrete runs (the witnesses) are evaluated: a working service with
      a disk, one that refuses, one that is offline, and one that fails in
      the middle of the uploads.
    - VkDownloader.v: [get_photos], [download_one] (the loop body),
      [download_loop], [download_photos] (lines 6-49).
    - YaUploader.v: [create_folder], [upload_one], [upload_photos]
      (lines 51-77).
    - Manifest.v: [json.dumps] with [indent=4] and [ensure_ascii]
      ([json_dumps]); code points as [N], surrogate pairs above U+FFFF.
    - JsonRead.v: a JSON reader ([json_loads], the [json.load] of a
      consumer of [photos.json]; library code, not code of the
      repository) with the round trip, the ASCII bound of the writer, and
      the adequacy of its fuel.
    - Program.v: [main] (lines 79-97), the module guard
      [if __name__ == '__main__'] ([module_run], lines 99-100), the
      end-to-end theorems, and the reading of the manifest back into
      transfer records.
    - Trace.v: [emits E c] and [emits_then E1 E2 c], what a computation
      appends to the trace, with their composition along [bind] and the
      lemmas for each primitive of World.v (hint database [emits]);
      [precedes e1 e2 t], the finite-trace form of "[e1] leads to [e2]".
    - Confinement.v: where the two tokens are sent, and the order of the
      download and upload phases, for every behaviour of the services.

    ** What the theorems show

    - Selection (Selector.v): on integer dimensions [max] with the area
      key is equivalent to the reference [first_max]: the first variant
      of maximal area; it raises the key's exception on a malformed
      variant, and [ValueError] only on an empty argument, which the
      guard [if not sizes] rules out.
    - Refinement (VkDownloader.v, Program.v): [download_photos] returns
      the manifest of the spec for the catalog, leaves the staging
      directory as [staged] says, and sends the catalog request and one
      image GET per photo with a variant, in order; a complete [main] writes the manifest
      text to [photos.json], ends with two upload requests per entry,
      naming the same [file_name] locally and remotely, and leaves on the
      Yandex.Disk of the service the staged bytes of every entry.
    - Round trips (JsonRead.v, Program.v): [json_loads (json_dumps v) =
      Some v] for every value with valid UTF-8 strings (escapes, surrogate
      pairs and integers invert), and [photos.json] reads back as the
      transfer records of the spec; the text [json_dumps] writes is
      ASCII for every value.
    - Liveness on the finite trace (Program.v): in a complete run the
      GET of every downloaded photo is followed by the PUT of its file.
    - Safety for every behaviour of the services (Confinement.v,
      VkDownloader.v): the VK token goes only to [photos.get], the Yandex
      token only to the two Yandex.Disk API endpoints; every request of
      the download phase precedes every request of the upload phase; the
      list [download_photos] returns holds only dicts with the keys
      ['file_name'] (a [<stem>.jpg]) and ['size']; the download loop only
      appends to the list it builds.
    - Error paths: a catalog answer without [response.items] ends the run
      with two messages, no upload and no file; a catalog without a
      usable photo ends it with one message per photo, no upload and no
      file, but with [images_vk] created; a non-dict [response]
      raises [TypeError] uncaught; a failed image download leaves an
      empty staged file; an upload answer without [href] raises
      [MissingSchema]; folder creation continues on every status, but
      not on a connection error; a failed upload stops the run with no
      rollback: earlier uploads stay, no manifest is written; a directory
      named [photos.json] makes the run raise after every upload, since
      the manifest is written last; standard input that ends before the
      four answers raises [EOFError] before any request; a regular file
      named [images_vk] passes [os.path.exists] and makes the first
      [open] of a staged file raise [NotADirectoryError].
    - Findings: two photos with the same like count overwrite each
      other's file while both stay in the manifest; the file name is
      taken from the catalog unchecked, and a like count ["../<n>"]
      makes the run write the image to [<n>.jpg] outside [images_vk]
      (VkDownloader.v).

    The theorems about services take what a service must do as
    hypotheses on [http_handle] (every image URL served, upload URLs
    given, uploads stored); each theorem with hypotheses has a witness
    evaluated on a service of FakeServices.v.  No fuel is needed for the
    program: every loop of it runs over a finite list and is a
    structural [Fixpoint].  The reader of JsonRead.v takes fuel: the
    length of its input, which [jsize_le_dumps] shows is at least the
    number of nested calls the written value needs ([jsize]), and which
    [json_loads_at_adequate] shows no larger fuel improves on.

    ** Not modelled

    The VK API and Yandex.Disk themselves (external services: the
    [HttpServer] interface stands for them); the JSON parser of
    [requests] (library code: a response carries the value
    [response.json()] decodes to); floats in JSON; the imports (lines
    1-4); absolute paths and symbolic links; the [tqdm] progress bar
    (terminal drawing only); [os.makedirs] of nested paths (the program
    creates one plain directory); the prompt [input] writes before it
    raises [EOFError] is not recorded in the trace.

    ** Liveness and termination

    The program has no loop that is not over a finite list and no
    retry: every run of the model ends, by construction of its
    structural [Fixpoint]s, for every behaviour of the services.  The
    liveness property that remains is the one on the finite trace above:
    what is downloaded is uploaded later in the same run. *)

From stdpp Require Import base list strings.
From Stdlib Require Import ZArith.

(** ** Outcomes of Python code: a value or a raised exception *)

Inductive result (E A : Type) : Type :=
| Ok (a : A)
| Raise (e : E).
Arguments Ok {E A} a.
Arguments Raise {E A} e.

(** A computation of the program: explicit state passing with
    exceptions.  The state reached when an exception is raised is kept:
    Python undoes nothing that was already done. *)
Definition prog (S E A : Type) : Type := S -> result E A * S.

Definition pure {S E A} (a : A) : prog S E A := fun s => (Ok a, s).
Definition throw {S E A} (e : E) : prog S E A := fun s => (Raise e, s).

Definition bind {S E A B} (c : prog S E A) (k : A -> prog S E B) : prog S E B :=
  fun s => match c s with
           | (Ok a, s') => k a s'
           | (Raise e, s') => (Raise e, s')
           end.

(** Lifting a pure fallible step (an [Ok]/[Raise] value) into [prog]. *)
Definition lift {S E A} (r : result E A) : prog S E A :=
  fun s => (r, s).

Definition rbind {E A B} (r : result E A) (k : A -> result E B) : result E B :=
  match r with Ok a => k a | Raise e => Raise e end.

(** [returns P c]: every value [c] returns, from any state, satisfies
    [P] (an exception is no value). *)
Definition returns {S E A} (P : A -> Prop) (c : prog S E A) : Prop :=
  forall s, match fst (c s) with Ok a => P a | Raise _ => True end.

Declare Scope py_scope.
Delimit Scope py_scope with py.
Notation "x <- c ;; k" := (bind c (fun x => k))
  (at level 100, c at next level, right associativity) : py_scope.
Notation "c ;; k" := (bind c (fun _ : unit => k))
  (at level 100, right associativity) : py_scope.
Notation "x <-? r ;; k" := (rbind r (fun x => k))
  (at level 100, r at next level, right associativity) : py_scope.

(** ** Generic lemmas on the monad *)

Create HintDb backup discriminated.
Create Rewrite HintDb backup_rw.

Lemma bind_pure {S E A B} (a : A) (k : A -> prog S E B) s :
  bind (pure a) k s = k a s.
Proof. reflexivity. Qed.

Lemma bind_throw {S E A B} (e : E) (k : A -> prog S E B) s :
  bind (throw e) k s = (Raise e, s).
Proof. reflexivity. Qed.

Lemma bind_ok {S E A B} (c : prog S E A) (k : A -> prog S E B) s a s' :
  c s = (Ok a, s') -> bind c k s = k a s'.
Proof. intros H. unfold bind. by rewrite H. Qed.

Lemma bind_raise {S E A B} (c : prog S E A) (k : A -> prog S E B) s e s' :
  c s = (Raise e, s') -> bind c k s = (Raise e, s').
Proof. intros H. unfold bind. by rewrite H. Qed.

Lemma bind_cong {S E A B} (c c' : prog S E A) (k : A -> prog S E B) s :
  c s = c' s -> bind c k s = bind c' k s.
Proof. intros H. unfold bind. by rewrite H. Qed.

Lemma bind_ext {S E A B} (c : prog S E A) (k k' : A -> prog S E B) s :
  (forall a s', k a s' = k' a s') -> bind c k s = bind c k' s.
Proof. intros H. unfold bind. destruct (c s) as [[a|e] s']; [apply H|reflexivity]. Qed.

Lemma bind_assoc {S E A B C} (c : prog S E A) (f : A -> prog S E B)
  (g : B -> prog S E C) s :
  bind (bind c f) g s = bind c (fun a => bind (f a) g) s.
Proof. unfold bind. destruct (c s) as [[a|e] s']; reflexivity. Qed.

Lemma rbind_ok {E A B} (a : A) (k : A -> result E B) :
  rbind (Ok a) k = k a.
Proof. reflexivity. Qed.

#[export] Hint Rewrite @bind_pure @bind_throw @rbind_ok : backup_rw.


(** [destruct_bind] steps through one [bind] whose head computation has
    a known outcome, leaving the continuation. *)
Ltac destruct_bind :=
  match goal with
  | |- context [bind ?c ?k ?s] =>
      let r := fresh "r" in let s' := fresh "s" in let E := fresh "Ec" in
      destruct (c s) as [r s'] eqn:E;
      first [ rewrite (bind_ok c k s _ _ E)
            | rewrite (bind_raise c k s _ _ E) ]
  end.

(** ** Lists *)

Lemma forallb_Forall {A} (f : A -> bool) l : forallb f l = true -> Forall (fun x => f x = true) l.
Proof. induction l as [|x l IH]; simpl; [constructor|]. rewrite andb_true_iff. intros [? ?]; auto. Qed.

Lemma Forall_forallb_impl {A} (Q P : A -> Prop) (ok : A -> bool) (l : list A) :
  Forall Q l -> forallb ok l = true -> (forall x, Q x -> ok x = true -> P x) -> Forall P l.
Proof. intros H1 H2%forallb_Forall HP. induction H1; inversion H2; constructor; auto. Qed.

Lemma sum_list_le {A} (f g : A -> nat) l :
  Forall (fun x => f x <= g x) l -> (sum_list (map f l) <= sum_list (map g l)).
Proof. induction 1; simpl; lia. Qed.

(** ** Values returned *)

Lemma returns_pure {S E A} (P : A -> Prop) a : P a -> returns P (pure (S:=S) (E:=E) a).
Proof. intros H s. exact H. Qed.

Lemma returns_throw {S E A} (P : A -> Prop) e : returns P (throw (S:=S) (E:=E) e).
Proof. intros s. exact I. Qed.

Lemma returns_lift {S E A} (P : A -> Prop) (r : result E A) :
  (forall a, r = Ok a -> P a) -> returns P (lift (S:=S) r).
Proof. intros H s. unfold lift. simpl. destruct r; auto. Qed.

(** The value of [c] satisfies [Q], and [k] keeps [P] on every such value. *)
Lemma returns_bind {S E A B} (Q : A -> Prop) (P : B -> Prop) (c : prog S E A) (k : A -> prog S E B) :
  returns Q c -> (forall a, Q a -> returns P (k a)) -> returns P (bind c k).
Proof.
  intros Hc Hk s. unfold bind. specialize (Hc s).
  destruct (c s) as [[a|e] s']; simpl in *; [by apply Hk|done].
Qed.

Lemma returns_any {S E A} (c : prog S E A) : returns (fun _ => True) c.
Proof. intros s. by destruct (fst (c s)). Qed.

(** [returns_steps] walks along [bind]s whose intermediate values do not
    matter, down to the [pure] of the result. *)
Ltac returns_steps :=
  repeat match goal with
  | |- returns _ (bind _ _) => apply (returns_bind (fun _ => True)); [apply returns_any|intros ? _]
  | |- returns _ (pure _) => apply returns_pure
  | |- returns _ (throw _) => apply returns_throw
  end.
