(* ===== verification/PyJson.v ===== *)
(** * Python values decoded from JSON, and the Python operations on them
      that src/program.py applies to API responses

    A JSON document returned by [res.json()] or [response.json()] is a
    Python value built from [None], [bool], [int], [str], [list] and
    [dict].  The program reads it with subscripts [d['k']], [d.get('k')],
    truth tests [if not v], iteration [for x in v], multiplication
    [x['height'] * x['width']], the comparison made by [max] and
    formatting [f"{v}"].  This file models each of them with the
    exceptions CPython raises. *)

From stdpp Require Import base list strings.
From Stdlib Require Import ZArith Ascii.
From Stdlib Require DecimalString.
From S2P Require Import Prelude.

#[local] Set Warnings "-register-all".

(** ** Values *)

(** A [dict] is an association list in insertion order: iteration over a
    dict visits its keys in that order.  Floats are not modelled. *)
Inductive json : Type :=
| JNull
| JBool (b : bool)
| JInt (z : Z)
| JStr (s : string)
| JList (l : list json)
| JObj (fields : list (string * json)).

(** Induction on JSON values with a hypothesis on every element of a
    list and every field of an object. *)
Definition json_nested_ind (P : json -> Prop) (fnull : P JNull) (fbool : forall b, P (JBool b))
    (fint : forall z, P (JInt z)) (fstr : forall s, P (JStr s))
    (flist : forall l, Forall P l -> P (JList l))
    (fobj : forall fs, Forall (fun kv => P kv.2) fs -> P (JObj fs)) : forall v, P v :=
  fix F v :=
    match v with
    | JNull => fnull
    | JBool b => fbool b
    | JInt z => fint z
    | JStr s => fstr s
    | JList l =>
        flist l ((fix G l : Forall P l :=
                    match l with [] => List.Forall_nil _ | x :: l' => List.Forall_cons _ _ _ (F x) (G l') end) l)
    | JObj fs =>
        fobj fs ((fix G fs : Forall (fun kv => P kv.2) fs :=
                    match fs with
                    | [] => List.Forall_nil _
                    | kv :: fs' => List.Forall_cons _ _ _ (F kv.2) (G fs')
                    end) fs)
    end.

(** The exceptions the program can raise. *)
Inductive exc : Type :=
| KeyError (key : string)
| TypeError
| AttributeError
| ValueError
| JSONDecodeError
| FileNotFoundError (path : string)
| IsADirectoryError (path : string)
| NotADirectoryError (path : string)
| FileExistsError (path : string)
| EOFError
| ConnectionError
| MissingSchema.

Abbreviation pyres := (result exc).

(** ** Dictionary lookup, [d[k]] and [d.get(k)] *)

Fixpoint dict_lookup (k : string) (fs : list (string * json)) : option json :=
  match fs with
  | [] => None
  | (k', v) :: fs' => if String.eqb k k' then Some v else dict_lookup k fs'
  end.

(** [v[k]] for a string key [k]: a [KeyError] on a dict without [k], a
    [TypeError] on a list or a string (their indices are integers) and
    on the scalars, which are not subscriptable. *)
Definition subscript (v : json) (k : string) : pyres json :=
  match v with
  | JObj fs => match dict_lookup k fs with
               | Some x => Ok x
               | None => Raise (KeyError k)
               end
  | _ => Raise TypeError
  end.

(** [v.get(k)]: [None] for a missing key; only dicts have [get]. *)
Definition get (v : json) (k : string) : pyres json :=
  match v with
  | JObj fs => Ok (default JNull (dict_lookup k fs))
  | _ => Raise AttributeError
  end.

(** ** Truth value, [if not v] *)

Definition truthy (v : json) : bool :=
  match v with
  | JNull => false
  | JBool b => b
  | JInt z => negb (Z.eqb z 0)
  | JStr s => negb (String.eqb s EmptyString)
  | JList l => negb (bool_decide (l = []))
  | JObj fs => negb (bool_decide (fs = []))
  end.

(** ** Iteration, [for x in v] and the argument of [max] *)

(** A list yields its items, a dict its keys, a string its characters;
    the scalars are not iterable. *)
Definition py_iter (v : json) : pyres (list json) :=
  match v with
  | JList l => Ok l
  | JObj fs => Ok (map (fun kv => JStr kv.1) fs)
  | JStr s => Ok (map (fun c => JStr (String c EmptyString)) (String.list_ascii_of_string s))
  | _ => Raise TypeError
  end.

(** ** Arithmetic on the numbers: [bool] is a subclass of [int] *)

Definition as_int (v : json) : option Z :=
  match v with
  | JInt z => Some z
  | JBool b => Some (Z.b2z b)
  | _ => None
  end.

Fixpoint str_repeat (n : nat) (s : string) : string :=
  match n with
  | O => EmptyString
  | S n' => s +:+ str_repeat n' s
  end.

Definition list_repeat {A} (n : nat) (l : list A) : list A :=
  mjoin (replicate n l).

(** [a * b]: the product of two numbers; a string or a list times a
    number repeats it (no copy for a count [<= 0]); anything else is a
    [TypeError]. *)
Definition py_mul (a b : json) : pyres json :=
  match as_int a, as_int b with
  | Some x, Some y => Ok (JInt (x * y))
  | None, Some n =>
      match a with
      | JStr s => Ok (JStr (str_repeat (Z.to_nat n) s))
      | JList l => Ok (JList (list_repeat (Z.to_nat n) l))
      | _ => Raise TypeError
      end
  | Some n, None =>
      match b with
      | JStr s => Ok (JStr (str_repeat (Z.to_nat n) s))
      | JList l => Ok (JList (list_repeat (Z.to_nat n) l))
      | _ => Raise TypeError
      end
  | None, None => Raise TypeError
  end.

(** ** Equality [==] and the order [>] used by [max] *)

(** [a == b] never raises: numbers compare by value ([True == 1]), lists
    item by item, dicts by their key sets and the values under each key;
    values of different types are unequal. *)
Fixpoint py_eq (a b : json) {struct a} : bool :=
  let fix list_eq (l1 l2 : list json) : bool :=
    match l1, l2 with
    | [], [] => true
    | x :: xs, y :: ys => py_eq x y && list_eq xs ys
    | _, _ => false
    end in
  let fix fields_in (f1 : list (string * json)) (f2 : list (string * json)) : bool :=
    match f1 with
    | [] => true
    | (k, v) :: f1' =>
        match dict_lookup k f2 with
        | Some w => py_eq v w && fields_in f1' f2
        | None => false
        end
    end in
  match a, b with
  | JNull, JNull => true
  | JStr s, JStr t => String.eqb s t
  | JList l1, JList l2 => list_eq l1 l2
  | JObj f1, JObj f2 => Nat.eqb (length f1) (length f2) && fields_in f1 f2
  | _, _ =>
      match as_int a, as_int b with
      | Some x, Some y => Z.eqb x y
      | _, _ => false
      end
  end.

(** Strings compare by code point, which is the byte order of their
    UTF-8 encoding. *)
Definition str_gt (s t : string) : bool :=
  match String.compare s t with Gt => true | _ => false end.

(** [a > b]: numbers by value, strings lexicographically, lists at the
    first index where the items differ ([>] of those items) or, when one
    is a prefix of the other, by length; every other pair of types is a
    [TypeError]. *)
Fixpoint py_gt (a b : json) {struct a} : pyres bool :=
  let fix list_gt (l1 l2 : list json) : pyres bool :=
    match l1, l2 with
    | [], _ => Ok false
    | _ :: _, [] => Ok true
    | x :: xs, y :: ys => if py_eq x y then list_gt xs ys else py_gt x y
    end in
  match a, b with
  | JStr s, JStr t => Ok (str_gt s t)
  | JList l1, JList l2 => list_gt l1 l2
  | _, _ =>
      match as_int a, as_int b with
      | Some x, Some y => Ok (Z.gtb x y)
      | _, _ => Raise TypeError
      end
  end.

(** ** Formatting: [str(v)], as an f-string renders [v] *)

Definition hex_digit (n : nat) : ascii :=
  match String.get n "0123456789abcdef" with Some c => c | None => "0"%char end.

(** One byte of a string literal written by [repr] with quote [q]: the
    escapes of the ASCII range; a byte of a multi-byte UTF-8 character is
    kept, as [repr] keeps printable non-ASCII characters (the rare
    non-printable ones, which [repr] escapes, are not distinguished). *)
Definition repr_char (q : ascii) (c : ascii) : string :=
  let n := nat_of_ascii c in
  if Ascii.eqb c "\"%char then "\\"
  else if Ascii.eqb c q then String "\"%char (String c EmptyString)
  else if Ascii.eqb c (ascii_of_nat 9) then "\t"
  else if Ascii.eqb c (ascii_of_nat 10) then "\n"
  else if Ascii.eqb c (ascii_of_nat 13) then "\r"
  else if (n <? 32) || (n =? 127) then
    String "\"%char (String "x"%char
      (String (hex_digit (n / 16)) (String (hex_digit (n mod 16)) EmptyString)))
  else String c EmptyString.

Definition has_char (c : ascii) (s : string) : bool :=
  existsb (Ascii.eqb c) (String.list_ascii_of_string s).

Definition dquote : ascii := ascii_of_nat 34.

(** [repr(s)] uses single quotes unless [s] holds a single quote and no
    double quote. *)
Definition repr_str (s : string) : string :=
  let q := if has_char "'"%char s && negb (has_char dquote s) then dquote else "'"%char in
  String q (String.concat EmptyString (map (repr_char q) (String.list_ascii_of_string s))
            +:+ String q EmptyString).

Definition int_str (z : Z) : string := DecimalString.NilZero.string_of_int (Z.to_int z).

Fixpoint py_repr (v : json) : string :=
  match v with
  | JNull => "None"
  | JBool true => "True"
  | JBool false => "False"
  | JInt z => int_str z
  | JStr s => repr_str s
  | JList l => "[" +:+ String.concat ", " (map py_repr l) +:+ "]"
  | JObj fs =>
      "{" +:+ String.concat ", " (map (fun kv => repr_str kv.1 +:+ ": " +:+ py_repr kv.2) fs)
      +:+ "}"
  end.

(** [str(v)] is [repr(v)] except on a string, which is itself. *)
Definition py_str (v : json) : string :=
  match v with JStr s => s | _ => py_repr v end.

(** The bytes of a concatenation. *)
Lemma list_ascii_of_string_app (s t : string) :
  String.list_ascii_of_string (s +:+ t) =
  String.list_ascii_of_string s ++ String.list_ascii_of_string t.
Proof. induction s as [|c s IH]; simpl; [done|]. by rewrite IH. Qed.
