(* ===== verification/Selector.v ===== *)
(** * The size selector: [max(sizes, key=lambda x: x['height'] * x['width'])]

    Line 42 of src/program.py picks the variant of a photo to download
    with the builtin [max] and a key function.  [py_max] follows CPython's
    [min_max] loop: it iterates its argument, computes the key of each
    item as it goes, keeps the first item and replaces it only when a
    later key is strictly greater ([>]); an empty iterable raises
    [ValueError].  [size_key] is the lambda.

    The reference [select_best] is the selection the spec describes: the
    first variant of maximal area.  The theorems show that on variants
    with integer dimensions [py_max size_key] computes it, and that it is
    the unique first maximum. *)

From stdpp Require Import base list strings.
From Stdlib Require Import ZArith Lia.
From S2P Require Import Prelude PyJson.

Local Open Scope Z_scope.
Local Open Scope py_scope.

(** ** The code *)

Section MaxKey.
Context (key : json -> pyres json).

(** The loop of [min_max]: [maxitem] and [maxval] are the item kept so
    far and its key. *)
Fixpoint max_loop (maxitem maxval : json) (l : list json) : pyres json :=
  match l with
  | [] => Ok maxitem
  | item :: l' =>
      match key item with
      | Raise e => Raise e
      | Ok val =>
          match py_gt val maxval with
          | Raise e => Raise e
          | Ok true => max_loop item val l'
          | Ok false => max_loop maxitem maxval l'
          end
      end
  end.

(** [max(v, key=key)] *)
Definition py_max (v : json) : pyres json :=
  match py_iter v with
  | Raise e => Raise e
  | Ok [] => Raise ValueError
  | Ok (item :: l) =>
      match key item with
      | Raise e => Raise e
      | Ok val => max_loop item val l
      end
  end.
End MaxKey.

(** [lambda x: x['height'] * x['width']] *)
Definition size_key (x : json) : pyres json :=
  h <-? subscript x "height" ;;
  w <-? subscript x "width" ;;
  py_mul h w.

(** [max_size_photo = max(sizes, key=...)] *)
Definition max_size_photo (sizes : json) : pyres json := py_max size_key sizes.

(** ** The reference selection *)

(** The dimensions of a variant, when both are integers. *)
Definition dims (x : json) : option (Z * Z) :=
  match subscript x "height", subscript x "width" with
  | Ok h, Ok w =>
      match as_int h, as_int w with
      | Some a, Some b => Some (a, b)
      | _, _ => None
      end
  | _, _ => None
  end.

Definition area (x : json) : Z :=
  match dims x with Some (h, w) => h * w | None => 0 end.

Definition well_sized (x : json) : Prop := is_Some (dims x).

#[export] Instance well_sized_dec x : Decision (well_sized x).
Proof. unfold well_sized. apply _. Defined.

(** The first element of maximal [f] in a list: it is preceded only by
    elements of smaller [f] and followed by elements of no greater [f]. *)
Definition first_max {A} (f : A -> Z) (l : list A) (v : A) : Prop :=
  exists l1 l2, l = l1 ++ v :: l2 /\
    Forall (fun y => f y < f v) l1 /\ Forall (fun y => f y <= f v) l2.

Fixpoint best_from {A} (f : A -> Z) (cur : A) (l : list A) : A :=
  match l with
  | [] => cur
  | y :: l' => if f y >? f cur then best_from f y l' else best_from f cur l'
  end.

(** The selection of the spec: the first variant of largest area. *)
Definition select_best (l : list json) : option json :=
  match l with
  | [] => None
  | x :: l' => Some (best_from area x l')
  end.

(** ** Lemmas *)

Lemma py_mul_int a b x y :
  as_int a = Some x -> as_int b = Some y -> py_mul a b = Ok (JInt (x * y)).
Proof. intros Ha Hb. unfold py_mul. by rewrite Ha, Hb. Qed.

Lemma py_gt_int x y : py_gt (JInt x) (JInt y) = Ok (x >? y).
Proof. reflexivity. Qed.

Lemma size_key_dims x h w :
  dims x = Some (h, w) -> size_key x = Ok (JInt (h * w)).
Proof.
  unfold dims, size_key.
  destruct (subscript x "height") as [hv|]; [|discriminate].
  destruct (subscript x "width") as [wv|]; [|discriminate].
  destruct (as_int hv) eqn:Hh; [|discriminate].
  destruct (as_int wv) eqn:Hw; [|discriminate].
  intros [= <- <-]. by apply py_mul_int.
Qed.

Lemma size_key_area x : well_sized x -> size_key x = Ok (JInt (area x)).
Proof.
  intros [[h w] Hd]. unfold area. rewrite Hd. by apply size_key_dims.
Qed.

#[export] Hint Resolve size_key_area : backup.

Section MaxLoopInt.
Context (key : json -> pyres json) (f : json -> Z).

(** When every key is the integer [f x], the loop of [max] is the pure
    [best_from f]. *)
Lemma max_loop_int (l : list json) m :
  Forall (fun x => key x = Ok (JInt (f x))) l ->
  max_loop key m (JInt (f m)) l = Ok (best_from f m l).
Proof.
  revert m. induction l as [|y l IH]; intros m Hl; [done|].
  apply Forall_cons in Hl as [Hy Hl]. simpl. rewrite Hy, py_gt_int.
  destruct (f y >? f m); by apply IH.
Qed.
End MaxLoopInt.

Lemma first_max_le {A} (f : A -> Z) l v :
  first_max f l v -> Forall (fun y => f y <= f v) l.
Proof.
  intros (l1 & l2 & -> & H1 & H2). apply Forall_app; split.
  - eapply Forall_impl; [exact H1|]. simpl; lia.
  - constructor; [lia|done].
Qed.

(** The loop invariant of [best_from]: the element kept is the first
    maximum of what has been seen. *)
Lemma best_from_first_max {A} (f : A -> Z) seen cur l :
  first_max f seen cur -> first_max f (seen ++ l) (best_from f cur l).
Proof.
  revert seen cur. induction l as [|y l IH]; intros seen cur Hfm; simpl.
  { by rewrite app_nil_r. }
  replace (seen ++ y :: l) with ((seen ++ [y]) ++ l)
    by by rewrite <-app_assoc.
  destruct (Z.gtb_spec (f y) (f cur)) as [Hgt|Hle]; apply IH.
  - exists seen, []. split; [done|]. split; [|constructor].
    eapply Forall_impl; [by apply first_max_le|]. simpl; lia.
  - destruct Hfm as (l1 & l2 & -> & H1 & H2).
    exists l1, (l2 ++ [y]). split; [by rewrite <-app_assoc|].
    split; [done|]. apply Forall_app; split; [done|]. constructor; [lia|done].
Qed.

Lemma first_max_unique_aux {A} (f : A -> Z) l1 l2 l1' l2' v v' :
  l1 ++ v :: l2 = l1' ++ v' :: l2' ->
  Forall (fun y => f y < f v) l1 -> Forall (fun y => f y <= f v) l2 ->
  Forall (fun y => f y < f v') l1' -> Forall (fun y => f y <= f v') l2' ->
  v = v'.
Proof.
  revert l1'. induction l1 as [|x l1 IH]; intros [|x' l1'] Heq H1 H2 H1' H2';
    simplify_eq/=; try done.
  - rewrite Forall_app in H2. apply Forall_cons in H1' as [? _].
    destruct H2 as [_ H2]. apply Forall_cons in H2 as [? _]. lia.
  - rewrite Forall_app in H2'. apply Forall_cons in H1 as [? _].
    destruct H2' as [_ H2']. apply Forall_cons in H2' as [? _]. lia.
  - apply Forall_cons in H1 as [_ H1]. apply Forall_cons in H1' as [_ H1'].
    by eapply IH.
Qed.

(** There is at most one first maximum. *)
Lemma first_max_unique {A} (f : A -> Z) l v v' :
  first_max f l v -> first_max f l v' -> v = v'.
Proof.
  intros (l1 & l2 & -> & H1 & H2) (l1' & l2' & Heq & H1' & H2').
  by eapply first_max_unique_aux.
Qed.

Section MaxLoopRaise.
Context (key : json -> pyres json) (f : json -> Z).

Lemma max_loop_raise pre x post m e :
  Forall (fun y => key y = Ok (JInt (f y))) pre -> key x = Raise e ->
  max_loop key m (JInt (f m)) (pre ++ x :: post) = Raise e.
Proof.
  revert m. induction pre as [|y pre IH]; intros m Hpre Hx; simpl.
  - by rewrite Hx.
  - apply Forall_cons in Hpre as [Hy Hpre]. rewrite Hy, py_gt_int.
    destruct (f y >? f m); by apply IH.
Qed.
End MaxLoopRaise.

Lemma well_sized_keys xs :
  Forall well_sized xs -> Forall (fun y => size_key y = Ok (JInt (area y))) xs.
Proof. intros H. eapply Forall_impl; [exact H|]. eauto with backup. Qed.

(** The comparison [>] raises only [TypeError], [size_key] never
    [ValueError]; so a key of that kind leaves [ValueError] to the
    empty iterable. *)
Lemma py_gt_raise a c e : py_gt a c = Raise e -> e = TypeError.
Proof.
  revert c. induction a as [|b0|z0|s0|l IH|fs IH] using json_nested_ind; intros c H.
  all: try (destruct c; simpl in H; repeat case_match; congruence).
  destruct c as [| | | |l2|]; simpl in H; try (repeat case_match; congruence).
  revert l2 H. induction IH as [|x l Hx _ IHl]; intros [|y l2] H; simpl in H; try congruence.
  destruct (py_eq x y); [exact (IHl l2 H)|exact (Hx y H)].
Qed.
Lemma size_key_raise x e : size_key x = Raise e -> e <> ValueError.
Proof.
  unfold size_key, rbind, subscript, py_mul. intros H.
  repeat (case_match; simplify_eq; try discriminate); discriminate.
Qed.
Section NoValueError.
Context (key : json -> pyres json).
Hypothesis key_nv : forall x e, key x = Raise e -> e <> ValueError.
Lemma max_loop_nv m mv l e : max_loop key m mv l = Raise e -> e <> ValueError.
Proof.
  revert m mv. induction l as [|x l IH]; intros m mv H; simpl in H; [discriminate|].
  destruct (key x) as [v|e'] eqn:Hk; [|injection H as <-; by apply (key_nv x)].
  destruct (py_gt v mv) as [[]|e'] eqn:Hg; [by apply IH in H|by apply IH in H|].
  injection H as <-. apply py_gt_raise in Hg. by subst.
Qed.
Lemma py_max_value_error v : py_max key v = Raise ValueError -> py_iter v = Ok [].
Proof.
  unfold py_max. destruct (py_iter v) as [[|x l]|e] eqn:Hi; intros H; try done.
  - destruct (key x) eqn:Hk; [by destruct (max_loop_nv _ _ _ _ H)|injection H as ->; by destruct (key_nv x _ Hk)].
  - injection H as ->. by destruct v.
Qed.
End NoValueError.
Lemma py_iter_truthy v : truthy v = true -> py_iter v <> Ok [].
Proof.
  destruct v as [| | |[|c s]|[|x l]|[|kv fs]]; simpl; done.
Qed.
(** ** Theorems *)

(** On variants with integer dimensions, the builtin [max] with the
    area key computes the reference selection; on an empty list it
    raises [ValueError]. *)
Lemma max_size_photo_select_best (xs : list json) :
  Forall well_sized xs ->
  max_size_photo (JList xs) =
    match select_best xs with Some v => Ok v | None => Raise ValueError end.
Proof.
  intros Hxs. destruct xs as [|x xs]; [done|].
  apply well_sized_keys, Forall_cons in Hxs as [Hx Hxs].
  unfold max_size_photo, py_max. simpl. rewrite Hx. by apply max_loop_int.
Qed.

(** [select_best] is exactly the first variant of maximal area. *)
Lemma select_best_first_max (xs : list json) v :
  select_best xs = Some v <-> first_max area xs v.
Proof.
  assert (Hsel : forall x l, first_max area (x :: l) (best_from area x l)).
  { intros x l. apply (best_from_first_max area [x] x l).
    exists [], []. repeat split; constructor. }
  split.
  - destruct xs as [|x l]; [done|]. intros [= <-]. apply Hsel.
  - intros Hfm. destruct xs as [|x l].
    + destruct Hfm as (l1 & l2 & Heq & _). by destruct l1.
    + simpl. f_equal. eapply first_max_unique; [apply Hsel|exact Hfm].
Qed.

(** C3: on a list of variants whose [height] and [width] are integers,
    [max(sizes, key=lambda x: x['height'] * x['width'])] returns [v]
    exactly when [v] is the first variant of maximal area: every earlier
    variant has a strictly smaller area, every later one no larger. *)
Theorem max_size_photo_first_max (xs : list json) (v : json) :
  Forall well_sized xs ->
  max_size_photo (JList xs) = Ok v <-> first_max area xs v.
Proof.
  intros Hxs. rewrite max_size_photo_select_best by done.
  rewrite <-select_best_first_max.
  destruct (select_best xs); split; congruence.
Qed.

(** C10: a variant whose key cannot be computed (no [height] or [width],
    or values that cannot be multiplied) makes [max] raise that
    exception, once every variant before it is well sized: the error is
    not caught, the photo is not skipped. *)
Theorem max_size_photo_raise (pre post : list json) (x : json) (e : exc) :
  Forall well_sized pre -> size_key x = Raise e ->
  max_size_photo (JList (pre ++ x :: post)) = Raise e.
Proof.
  intros Hpre Hx. destruct pre as [|p pre]; unfold max_size_photo, py_max; simpl.
  - by rewrite Hx.
  - apply well_sized_keys, Forall_cons in Hpre as [Hp Hpre].
    rewrite Hp. by apply max_loop_raise.
Qed.

(** C25: the guard [if not sizes] of line 39 is what keeps [max] from
    raising: [max] of the empty list raises [ValueError], and on every
    truthy [sizes] (a non-empty list, dict or string, or any other truthy
    value) it never raises [ValueError]: whatever goes wrong there is a
    [TypeError] or [KeyError] of the key or of the comparison. *)
Theorem max_size_photo_guard :
  max_size_photo (JList []) = Raise ValueError /\
  forall v, truthy v = true -> max_size_photo v <> Raise ValueError.
Proof.
  split; [reflexivity|]. intros v Hv H.
  apply (py_iter_truthy v Hv), (py_max_value_error size_key size_key_raise v H).
Qed.

(** ** Concrete runs *)

Definition variant (url : string) (w h : Z) (t : string) : json :=
  JObj [("height", JInt h); ("type", JStr t); ("url", JStr url); ("width", JInt w)].

Definition spec_sizes : list json :=
  [variant "https://vk.example/m.jpg" 100 100 "m";
   variant "https://vk.example/x.jpg" 400 300 "x"].

Lemma max_size_photo_first_max_witness :
  Forall well_sized spec_sizes /\
  (max_size_photo (JList spec_sizes) = Ok (variant "https://vk.example/x.jpg" 400 300 "x")
   <-> first_max area spec_sizes (variant "https://vk.example/x.jpg" 400 300 "x")).
Proof.
  assert (H : Forall well_sized spec_sizes) by (vm_compute; repeat constructor; eauto).
  split; [exact H|]. apply max_size_photo_first_max. exact H.
Defined.

Lemma max_size_photo_raise_witness :
  Forall well_sized [variant "u" 1 1 "s"] /\
  size_key (JObj [("width", JInt 2)]) = Raise (KeyError "height") /\
  max_size_photo (JList ([variant "u" 1 1 "s"] ++ JObj [("width", JInt 2)] :: []))
    = Raise (KeyError "height").
Proof.
  assert (H1 : Forall well_sized [variant "u" 1 1 "s"]) by (vm_compute; repeat constructor; eauto).
  assert (H2 : size_key (JObj [("width", JInt 2)]) = Raise (KeyError "height")) by reflexivity.
  split; [exact H1|]. split; [exact H2|]. apply max_size_photo_raise; [exact H1|exact H2].
Defined.
