(* ===== verification/Spec.v ===== *)
(** * The transfer pipeline as the specification describes it

    The spec (spec.md, sections 3 and 4) describes typed records: a photo
    record with its like count and its size variants, a transfer record
    [{file_name, size_label}], and the pure stages the code performs on
    them: select the first variant of largest area, materialize a photo
    into a transfer record (or skip it when it has no variant), and the
    manifest, the transfer records of the photos in order.  This file
    states them over typed data, with the JSON encodings through which
    the code sees them; VkDownloader.v and Program.v prove that the code
    refines them. *)

From stdpp Require Import base list strings gmap.
From Stdlib Require Import ZArith Lia.
From S2P Require Import Prelude PyJson Selector.

Local Open Scope Z_scope.

Record size_variant : Type := SizeVariant {
  sv_url : string;
  sv_width : Z;
  sv_height : Z;
  sv_type : string
}.

Record photo_record : Type := PhotoRecord {
  pr_likes : Z;
  pr_sizes : list size_variant
}.

Record transfer_record : Type := TransferRecord {
  tr_file_name : string;
  tr_size : string
}.

Definition sv_area (v : size_variant) : Z := sv_height v * sv_width v.

(** The selector of section 4.2: the first variant of maximal area. *)
Definition select_variant (vs : list size_variant) : option size_variant :=
  match vs with
  | [] => None
  | v :: vs' => Some (best_from sv_area v vs')
  end.

(** The file name derived from the naming key, with the [.jpg] suffix. *)
Definition spec_file_name (p : photo_record) : string := int_str (pr_likes p) +:+ ".jpg".

(** The materializer of section 4.3, on its pure side. *)
Definition materialize (p : photo_record) : option transfer_record :=
  match select_variant (pr_sizes p) with
  | None => None
  | Some v => Some (TransferRecord (spec_file_name p) (sv_type v))
  end.

(** The manifest: the transfer records of the photos that have a
    variant, in the order of the catalog. *)
Definition manifest_of (ps : list photo_record) : list transfer_record :=
  omap materialize ps.

(** The staging area after materializing [ps]: each materialized photo's
    file holds the content of the URL of its selected variant; a later
    photo with the same file name overwrites an earlier one. *)
Fixpoint staged (fetch : string -> string) (ps : list photo_record)
    (files : gmap string string) : gmap string string :=
  match ps with
  | [] => files
  | p :: ps' =>
      match select_variant (pr_sizes p) with
      | None => staged fetch ps' files
      | Some v =>
          staged fetch ps' (<["images_vk/" +:+ spec_file_name p := fetch (sv_url v)]> files)
      end
  end.

(** ** The JSON the catalog API returns for these records *)

Definition enc_variant (v : size_variant) : json :=
  variant (sv_url v) (sv_width v) (sv_height v) (sv_type v).

Definition enc_photo (p : photo_record) : json :=
  JObj [("sizes", JList (map enc_variant (pr_sizes p)));
        ("likes", JObj [("count", JInt (pr_likes p))])].

(** ** Lemmas *)

Lemma dims_enc_variant v : dims (enc_variant v) = Some (sv_height v, sv_width v).
Proof. reflexivity. Qed.

Lemma area_enc_variant v : area (enc_variant v) = sv_area v.
Proof. reflexivity. Qed.

Lemma well_sized_enc_variants vs : Forall well_sized (map enc_variant vs).
Proof.
  induction vs as [|v vs IH]; constructor; [|done].
  unfold well_sized. rewrite dims_enc_variant. by eexists.
Qed.

Lemma best_from_map {A B} (f : B -> Z) (g : A -> B) x l :
  best_from f (g x) (map g l) = g (best_from (fun a => f (g a)) x l).
Proof.
  revert x. induction l as [|y l IH]; intros x; simpl; [done|].
  destruct (f (g y) >? f (g x)); apply IH.
Qed.

(** The code's selection on the encoded variants is the encoding of the
    typed selection. *)
Lemma select_best_enc vs :
  select_best (map enc_variant vs) = enc_variant <$> select_variant vs.
Proof.
  destruct vs as [|v vs]; [done|]. simpl. by rewrite best_from_map.
Qed.

#[export] Hint Resolve well_sized_enc_variants : backup.
#[export] Hint Rewrite dims_enc_variant area_enc_variant select_best_enc : backup_rw.

Lemma staged_mono fetch ps (files : gmap string string) k :
  is_Some (files !! k) -> is_Some (staged fetch ps files !! k).
Proof.
  revert files. induction ps as [|p ps IH]; intros files Hk; simpl; [done|].
  destruct (select_variant (pr_sizes p)); apply IH; [|done].
  destruct (decide (("images_vk/" +:+ spec_file_name p) = k)) as [<-|Hne].
  - by rewrite lookup_insert_eq.
  - by rewrite lookup_insert_ne.
Qed.

(** Every transfer record of the manifest has its file in the staging
    area. *)
Lemma staged_manifest_files fetch ps (files : gmap string string) :
  Forall (fun t => is_Some (staged fetch ps files !! ("images_vk/" +:+ tr_file_name t)))
    (manifest_of ps).
Proof.
  revert files. induction ps as [|p ps IH]; intros files; simpl; [constructor|].
  unfold manifest_of, materialize in *. simpl.
  destruct (select_variant (pr_sizes p)); [|apply IH].
  constructor; [|apply IH]. apply staged_mono. simpl. by rewrite lookup_insert_eq.
Qed.
