(* ===== verification/World.v ===== *)
(** * The world the program runs in: local files, the network, the console

    src/program.py acts on three things outside itself: the local file
    system ([os.path.exists], [os.makedirs], [open]), two HTTP services
    reached through [requests] (the VK API and Yandex.Disk), and the
    console ([input], [print]).  A [world] holds the state of each, and
    [pym] is the program's monad over it: explicit state passing in
    which an uncaught exception stops the computation and keeps every
    effect already made.  Files are keyed by their resolved path: [open]
    walks the components of a path as the kernel does, so a name with
    [..] in it reaches outside the directory it starts in.

    The services are not code of this repository: they are reached
    through the [HttpServer] interface, a server state and a function
    answering one request.  Theorems that depend on what a service does
    state it as a hypothesis on [http_handle]. *)

From stdpp Require Import base list strings gmap.
From Stdlib Require Import ZArith Ascii.
From Stdlib Require DecimalString DecimalZ.
From S2P Require Import Prelude PyJson.

Local Open Scope py_scope.

(** ** Requests and responses *)

Inductive method : Type := GET | PUT.

(** [requests.get/put(url, headers=..., params=..., data=...)]: the
    query parameters and headers after [str()] of their values. *)
Record request : Type := Request {
  req_method : method;
  req_url : string;
  req_params : list (string * string);
  req_headers : list (string * string);
  req_body : option string
}.

(** A [requests.Response]: its status, its body ([.content], [.text])
    and the value [.json()] decodes from the body ([None]: the body is
    not JSON, and [.json()] raises). *)
Record response : Type := Response {
  status_code : Z;
  content : string;
  resp_json : option json
}.

(** What a remote service offers: its state and its answer to one
    request, an exception when the connection fails. *)
Class HttpServer (Srv : Type) := http_handle : Srv -> request -> Srv * pyres response.

(** ** Console events, in the order they happen *)

Inductive event : Type :=
| EvRequest (r : request)
| EvPrint (line : string)
| EvInput (prompt answer : string).

(** ** The world *)

Record world (Srv : Type) : Type := World {
  w_dirs : gset string;
  w_files : gmap string string;
  w_net : Srv;
  w_stdin : list string;
  w_trace : list event
}.
Arguments World {Srv}.
Arguments w_dirs {Srv}. Arguments w_files {Srv}. Arguments w_net {Srv}.
Arguments w_stdin {Srv}. Arguments w_trace {Srv}.

(** The program's computations over a world whose services are [Srv]. *)
Abbreviation pym Srv := (prog (world Srv) exc).

Section Ops.
Context {Srv : Type} `{!HttpServer Srv}.

Definition set_files (f : gmap string string) (w : world Srv) : world Srv :=
  World (w_dirs w) f (w_net w) (w_stdin w) (w_trace w).
Definition set_dirs (d : gset string) (w : world Srv) : world Srv :=
  World d (w_files w) (w_net w) (w_stdin w) (w_trace w).
Definition emit (ev : event) (w : world Srv) : world Srv :=
  World (w_dirs w) (w_files w) (w_net w) (w_stdin w) (w_trace w ++ [ev]).

(** [print(...)] of one rendered line. *)
Definition print (line : string) : pym Srv unit := fun w => (Ok tt, emit (EvPrint line) w).

(** [input(prompt)]: the next line of standard input, [EOFError] when
    there is none. *)
Definition input (prompt : string) : pym Srv string := fun w =>
  match w_stdin w with
  | [] => (Raise EOFError, w)
  | a :: rest =>
      (Ok a, World (w_dirs w) (w_files w) (w_net w) rest
               (w_trace w ++ [EvInput prompt a]))
  end.

(** A request goes out only with an [http://] or [https://] URL;
    [requests] raises [MissingSchema] before sending anything else. *)
Definition url_ok (url : string) : bool :=
  String.prefix "http://" url || String.prefix "https://" url.

Definition http (r : request) : pym Srv response := fun w =>
  if url_ok (req_url r) then
    let '(srv', res) := http_handle (w_net w) r in
    (res, World (w_dirs w) (w_files w) srv' (w_stdin w) (w_trace w ++ [EvRequest r]))
  else (Raise MissingSchema, w).

(** [response.json()] *)
Definition resp_json_of (r : response) : pyres json :=
  match resp_json r with Some v => Ok v | None => Raise JSONDecodeError end.

(** What a photo host promises for the downloads: from a state
    satisfying [Inv], a GET of an [http(s)] URL succeeds with the body
    [fetch url] and leads to a state satisfying [Inv]. *)
Definition serves_images (Inv : Srv -> Prop) (fetch : string -> string) : Prop :=
  forall srv u, Inv srv -> url_ok u = true ->
    exists srv' r, http_handle srv (Request GET u [] [] None) = (srv', Ok r) /\
                   content r = fetch u /\ Inv srv'.

(** ** Files *)

(** [os.path.dirname]: the part of a path before its last [/]. *)
Definition dirname (p : string) : string :=
  let cs := String.list_ascii_of_string p in
  match list_find (fun c => c = "/"%char) (reverse cs) with
  | Some (i, _) => String.string_of_list_ascii (take (length cs - S i) cs)
  | None => EmptyString
  end.

(** The components of a path, split at every [/]: ["a//b"] has the
    components ["a"], [""], ["b"]. *)
Fixpoint path_parts (p : string) : list string :=
  match p with
  | EmptyString => [EmptyString]
  | String c r =>
      let parts := path_parts r in
      if Ascii.eqb c "/" then EmptyString :: parts
      else match parts with
           | x :: xs => String c x :: xs
           | [] => [String c EmptyString]
           end
  end.

(** A resolved path: its components joined with [/]; the working
    directory is the empty path, its ancestors are the leading [..]. *)
Definition join_path (q : list string) : string := String.concat "/" q.

(** The names that denote a directory by themselves. *)
Definition special_name (c : string) : bool :=
  String.eqb c EmptyString || String.eqb c "." || String.eqb c "..".

(** The directory one level up. *)
Definition parent_of (cur : list string) : list string :=
  match last cur with
  | Some x => if String.eqb x ".." then cur ++ [".."] else removelast cur
  | None => [".."]
  end.

(** The working directory and its ancestors exist; any other directory
    exists when the world holds it. *)
Definition dir_at (q : list string) (w : world Srv) : bool :=
  forallb (String.eqb "..") q || bool_decide (join_path q ∈ w_dirs w).

(** The kernel's walk over the directory components of the path [p]
    from [cur]: [""] and ["."] stay, [".."] goes up, a name must be an
    existing directory ([NotADirectoryError] on a file,
    [FileNotFoundError] when missing). *)
Fixpoint walk (w : world Srv) (p : string) (cur : list string) (comps : list string)
    : pyres (list string) :=
  match comps with
  | [] => Ok cur
  | c :: cs =>
      if String.eqb c EmptyString || String.eqb c "." then walk w p cur cs
      else if String.eqb c ".." then walk w p (parent_of cur) cs
      else if dir_at (cur ++ [c]) w then walk w p (cur ++ [c]) cs
      else if bool_decide (is_Some (w_files w !! join_path (cur ++ [c])))
      then Raise (NotADirectoryError p)
      else Raise (FileNotFoundError p)
  end.

(** The path [p] names, relative to the working directory: every
    component but the last is walked; a last component that names a
    directory by itself ([""], ["."], [".."]) is walked too. *)
Definition resolve_path (p : string) (w : world Srv) : pyres (list string) :=
  let parts := path_parts p in
  let name := default EmptyString (last parts) in
  if special_name name then walk w p [] parts
  else match walk w p [] (removelast parts) with
       | Ok cur => Ok (cur ++ [name])
       | Raise e => Raise e
       end.

(** [os.path.exists(p)]: [p] resolves to a file or a directory. *)
Definition path_exists (p : string) (w : world Srv) : bool :=
  match resolve_path p w with
  | Ok q => dir_at q w || bool_decide (is_Some (w_files w !! join_path q))
  | Raise _ => false
  end.

Definition exists_ (p : string) : pym Srv bool := fun w => (Ok (path_exists p w), w).

(** [os.makedirs(p)] for a name without [/], the program's only call:
    it makes the directory, or raises [FileExistsError]. *)
Definition makedirs (p : string) : pym Srv unit := fun w =>
  if path_exists p w then (Raise (FileExistsError p), w)
  else (Ok tt, set_dirs ({[p]} ∪ w_dirs w) w).

(** [open(p, 'wb')] or [open(p, 'w')]: resolves [p], creates the file
    or truncates it, and returns the open file: its resolved path. *)
Definition open_write (p : string) : pym Srv string := fun w =>
  match resolve_path p w with
  | Raise e => (Raise e, w)
  | Ok q =>
      if dir_at q w then (Raise (IsADirectoryError p), w)
      else (Ok (join_path q), set_files (<[join_path q := EmptyString]> (w_files w)) w)
  end.

(** [file.write(data)] on the file [f] just opened for writing. *)
Definition write_file (f : string) (data : string) : pym Srv unit := fun w =>
  (Ok tt, set_files (<[f := data]> (w_files w)) w).

(** [open(p, 'rb')], and the bytes read from it. *)
Definition open_read (p : string) : pym Srv string := fun w =>
  match resolve_path p w with
  | Raise e => (Raise e, w)
  | Ok q =>
      match w_files w !! join_path q with
      | Some data => (Ok data, w)
      | None =>
          if dir_at q w then (Raise (IsADirectoryError p), w)
          else (Raise (FileNotFoundError p), w)
      end
  end.
End Ops.

(** ** Lemmas on paths *)

Definition no_slash (s : string) : Prop :=
  Forall (fun c => c <> "/"%char) (String.list_ascii_of_string s).

(** The directory of [d/s] is [d] when [s] is a plain name. *)
Lemma dirname_join (d s : string) :
  no_slash s -> dirname (d +:+ "/" +:+ s) = d.
Proof.
  intros Hs. unfold dirname.
  rewrite !list_ascii_of_string_app. simpl.
  rewrite reverse_app, reverse_cons, <-app_assoc.
  rewrite list_find_app_r.
  2:{ apply list_find_None. rewrite Forall_reverse. exact Hs. }
  simpl. rewrite length_app, length_reverse. simpl.
  replace (length (String.list_ascii_of_string d) + S (length (String.list_ascii_of_string s))
           - S (length (String.list_ascii_of_string s)))
    with (length (String.list_ascii_of_string d)) by lia.
  rewrite take_app_length. apply String.string_of_list_ascii_of_string.
Qed.

Lemma no_slash_app s t : no_slash s -> no_slash t -> no_slash (s +:+ t).
Proof. unfold no_slash. rewrite list_ascii_of_string_app. apply Forall_app_2. Qed.

Lemma no_slash_uint u : no_slash (DecimalString.NilEmpty.string_of_uint u).
Proof. induction u; simpl; constructor; try done; discriminate. Qed.

(** A decimal number is a plain name. *)
Lemma no_slash_int_str z : no_slash (int_str z).
Proof.
  unfold int_str, DecimalString.NilZero.string_of_int, DecimalString.NilZero.string_of_uint.
  destruct (Z.to_int z) as [u|u]; [|constructor; [discriminate|]];
    destruct u; try apply no_slash_uint; repeat constructor; discriminate.
Qed.

#[export] Hint Resolve no_slash_app no_slash_int_str : backup.

(** A plain name: one component that is not [""], ["."] or [".."]. *)
Definition plain (s : string) : Prop := no_slash s /\ special_name s = false.

Lemma path_parts_plain s : no_slash s -> path_parts s = [s].
Proof.
  induction s as [|c s IH]; intros Hs; [done|]. inversion Hs as [|? ? Hc Hs']; subst.
  simpl. rewrite IH by done. destruct (Ascii.eqb_spec c "/"); [done|]. reflexivity.
Qed.

Lemma path_parts_join d s : no_slash d -> path_parts (d +:+ "/" +:+ s) = d :: path_parts s.
Proof.
  induction d as [|c d IH]; intros Hd; [done|]. inversion Hd as [|? ? Hc Hd']; subst.
  simpl. rewrite IH by done. destruct (Ascii.eqb_spec c "/"); [done|]. reflexivity.
Qed.

Lemma string_length_app s t : String.length (s +:+ t) = String.length s + String.length t.
Proof. induction s as [|c s IH]; simpl; [reflexivity|lia]. Qed.

Lemma special_name_length s : special_name s = true -> String.length s <= 2.
Proof.
  unfold special_name. intros H. repeat apply orb_prop in H as [H|H];
    apply String.eqb_eq in H; subst; simpl; lia.
Qed.

(** A name with the suffix [.jpg] is not special. *)
Lemma special_name_jpg s : special_name (s +:+ ".jpg") = false.
Proof.
  destruct (special_name _) eqn:E; [|done]. apply special_name_length in E.
  rewrite string_length_app in E. simpl in E. lia.
Qed.

Lemma plain_jpg s : no_slash s -> plain (s +:+ ".jpg").
Proof. intros Hs. split; [apply no_slash_app; [done|repeat constructor; discriminate]|apply special_name_jpg]. Qed.

Lemma plain_not_dotdot s : plain s -> String.eqb ".." s = false.
Proof.
  intros [_ Hs]. unfold special_name in Hs. apply orb_false_iff in Hs as [_ Hs].
  apply String.eqb_neq. intros <-. by rewrite String.eqb_refl in Hs.
Qed.

#[export] Hint Resolve plain_jpg : backup.

(** ** Steps of the operations on a world *)

Section OpLemmas.
Context {Srv : Type} `{!HttpServer Srv}.
Implicit Types (w : world Srv).

Lemma http_step w r srv' res :
  url_ok (req_url r) = true -> http_handle (w_net w) r = (srv', res) ->
  http r w = (res, World (w_dirs w) (w_files w) srv' (w_stdin w) (w_trace w ++ [EvRequest r])).
Proof. intros Hu Hh. unfold http. by rewrite Hu, Hh. Qed.

Lemma http_bad_url w r :
  url_ok (req_url r) = false -> http r w = (Raise MissingSchema, w).
Proof. intros Hu. unfold http. by rewrite Hu. Qed.

Lemma dir_at_plain q s w : plain s -> dir_at (q ++ [s]) w = bool_decide (join_path (q ++ [s]) ∈ w_dirs w).
Proof.
  intros Hs. unfold dir_at. rewrite forallb_app. cbn [forallb].
  by rewrite (plain_not_dotdot s Hs), !andb_false_r.
Qed.

Lemma dir_at_single d w : plain d -> dir_at [d] w = bool_decide (d ∈ w_dirs w).
Proof. apply (dir_at_plain []). Qed.

Lemma dir_at_pair d s w : plain s -> dir_at [d; s] w = bool_decide (d +:+ "/" +:+ s ∈ w_dirs w).
Proof. apply (dir_at_plain [d]). Qed.

(** A plain name resolves to itself. *)
Lemma resolve_plain w s : plain s -> resolve_path s w = Ok [s].
Proof.
  intros [Hs Hsp]. unfold resolve_path. rewrite path_parts_plain by done. simpl.
  by rewrite Hsp.
Qed.

Lemma walk_plain_dir w p cur d rest :
  plain d -> join_path (cur ++ [d]) ∈ w_dirs w ->
  walk w p cur (d :: rest) = walk w p (cur ++ [d]) rest.
Proof.
  intros Hd Hin. pose proof Hd as [_ Hsp]. unfold special_name in Hsp.
  apply orb_false_iff in Hsp as [Hsp H3]. apply orb_false_iff in Hsp as [H1 H2].
  simpl. rewrite H1, H2, H3. simpl.
  rewrite dir_at_plain by done. by rewrite bool_decide_true.
Qed.

(** A plain name inside an existing directory with a plain name. *)
Lemma resolve_join w d s :
  plain d -> plain s -> d ∈ w_dirs w -> resolve_path (d +:+ "/" +:+ s) w = Ok [d; s].
Proof.
  intros Hd Hs Hin. pose proof Hs as [Hs1 Hsp]. unfold resolve_path.
  rewrite path_parts_join, path_parts_plain by (apply Hd || done).
  change (default EmptyString (last [d; s])) with s. change (removelast [d; s]) with [d].
  rewrite Hsp, (walk_plain_dir w _ [] d []); [done..|]. done.
Qed.

(** [d/../s] names [s] in the working directory, once [d] is a
    directory. *)
Lemma resolve_dotdot w d s :
  plain d -> plain s -> d ∈ w_dirs w ->
  resolve_path (d +:+ "/" +:+ (".." +:+ "/" +:+ s)) w = Ok [s].
Proof.
  intros Hd Hs Hin. pose proof Hs as [Hs1 Hsp]. unfold resolve_path.
  rewrite path_parts_join, path_parts_join, path_parts_plain
    by (apply Hd || done || (repeat constructor; discriminate)).
  change (default EmptyString (last [d; ".."; s])) with s. change (removelast [d; ".."; s]) with [d; ".."].
  rewrite Hsp, (walk_plain_dir w _ [] d); [|done|done]. simpl.
  unfold parent_of. cbn [last]. rewrite String.eqb_sym, plain_not_dotdot by done. done.
Qed.

Lemma walk_plain_file w p d rest :
  plain d -> d ∉ w_dirs w -> is_Some (w_files w !! d) ->
  walk w p [] (d :: rest) = Raise (NotADirectoryError p).
Proof.
  intros Hd Hn Hf. pose proof Hd as [_ Hsp]. unfold special_name in Hsp.
  apply orb_false_iff in Hsp as [Hsp H3]. apply orb_false_iff in Hsp as [H1 H2].
  cbn [walk]. rewrite H1, H2, H3. cbn [orb].
  rewrite (dir_at_single d) by done. rewrite bool_decide_false by done.
  by rewrite bool_decide_true.
Qed.

(** A name inside a regular file: [NotADirectoryError]. *)
Lemma resolve_join_file w d s :
  plain d -> no_slash s -> d ∉ w_dirs w -> is_Some (w_files w !! d) ->
  resolve_path (d +:+ "/" +:+ s) w = Raise (NotADirectoryError (d +:+ "/" +:+ s)).
Proof.
  intros Hd Hs Hn Hf. unfold resolve_path.
  rewrite path_parts_join, path_parts_plain by (apply Hd || done).
  change (default EmptyString (last [d; s])) with s. change (removelast [d; s]) with [d].
  by destruct (special_name s); rewrite walk_plain_file.
Qed.

Lemma open_write_raise w p e : resolve_path p w = Raise e -> open_write p w = (Raise e, w).
Proof. intros H. unfold open_write. by rewrite H. Qed.

Lemma open_write_step w p q :
  resolve_path p w = Ok q -> dir_at q w = false ->
  open_write p w = (Ok (join_path q), set_files (<[join_path q := EmptyString]> (w_files w)) w).
Proof. intros H Hd. unfold open_write. by rewrite H, Hd. Qed.

Lemma open_write_isdir w p q :
  resolve_path p w = Ok q -> dir_at q w = true -> open_write p w = (Raise (IsADirectoryError p), w).
Proof. intros H Hd. unfold open_write. by rewrite H, Hd. Qed.

Lemma open_read_step w p q d :
  resolve_path p w = Ok q -> w_files w !! join_path q = Some d -> open_read p w = (Ok d, w).
Proof. intros H Hd. unfold open_read. by rewrite H, Hd. Qed.

Lemma path_exists_plain w s :
  plain s -> path_exists s w = bool_decide (s ∈ w_dirs w) || bool_decide (is_Some (w_files w !! s)).
Proof.
  intros Hs. unfold path_exists. rewrite resolve_plain by done.
  rewrite dir_at_single by done. reflexivity.
Qed.

Lemma input_step w p a rest :
  w_stdin w = a :: rest ->
  input p w = (Ok a, World (w_dirs w) (w_files w) (w_net w) rest (w_trace w ++ [EvInput p a])).
Proof. intros H. unfold input. by rewrite H. Qed.
End OpLemmas.

(** ** Decimal names *)

Lemma to_int_not_nil z :
  Z.to_int z <> Decimal.Pos Decimal.Nil /\ Z.to_int z <> Decimal.Neg Decimal.Nil.
Proof.
  destruct (Z.eq_dec z 0) as [->|Hz]; [split; discriminate|].
  split; intros H; apply Hz; rewrite <-(DecimalZ.of_to z), H; reflexivity.
Qed.

(** [str()] of an integer is injective: the decimal text determines the
    number. *)
Lemma int_str_inj z z' : int_str z = int_str z' -> z = z'.
Proof.
  intros H. apply DecimalZ.to_int_inj. unfold int_str in H.
  destruct (to_int_not_nil z) as [Hp Hn]. destruct (to_int_not_nil z') as [Hp' Hn'].
  pose proof (DecimalString.NilZero.isi _ Hp Hn) as E.
  pose proof (DecimalString.NilZero.isi _ Hp' Hn') as E'.
  rewrite H in E. congruence.
Qed.

Lemma append_inj_l (s t u : string) : s +:+ t = s +:+ u -> t = u.
Proof. induction s as [|c s IH]; simpl; [done|]. intros [= H]. by apply IH. Qed.

Lemma append_inj_r (s t u : string) : s +:+ u = t +:+ u -> s = t.
Proof.
  intros H. apply (f_equal String.list_ascii_of_string) in H.
  rewrite !list_ascii_of_string_app in H. apply app_inv_tail in H.
  rewrite <-(String.string_of_list_ascii_of_string s), <-(String.string_of_list_ascii_of_string t).
  by rewrite H.
Qed.
