(* ===== verification/Trace.v ===== *)
(** * What a computation adds to the console trace

    The world records every request, printed line and answered prompt in
    [w_trace], in order.  [emits E c] says that [c], run from any world,
    only appends events satisfying [E]; [emits_then E1 E2 c] that it
    appends events of [E1] followed by events of [E2].  Both compose
    along [bind], so the properties of [main]'s trace (Confinement.v)
    follow from those of each primitive of World.v. *)

From stdpp Require Import base list strings gmap.
From S2P Require Import Prelude PyJson World.

Local Open Scope py_scope.

(** [e1] occurs in [t] and [e2] occurs after it: the finite-trace form
    of "[e1] leads to [e2]". *)
Definition precedes (e1 e2 : event) (t : list event) : Prop :=
  exists t1 t2 t3, t = t1 ++ e1 :: t2 ++ e2 :: t3.

Section Emits.
Context {Srv : Type} `{!HttpServer Srv}.
Implicit Types (E : event -> Prop).

Definition emits {A} (E : event -> Prop) (c : pym Srv A) : Prop :=
  forall w, exists t, w_trace (snd (c w)) = w_trace w ++ t /\ Forall E t.

Definition emits_then {A} (E1 E2 : event -> Prop) (c : pym Srv A) : Prop :=
  forall w, exists t1 t2, w_trace (snd (c w)) = w_trace w ++ t1 ++ t2 /\ Forall E1 t1 /\ Forall E2 t2.

(** ** Composition *)

Lemma emits_pure {A} E (a : A) : emits E (pure a).
Proof. intros w. exists []. by rewrite app_nil_r. Qed.

Lemma emits_throw {A} E e : emits E (throw (A:=A) e).
Proof. intros w. exists []. by rewrite app_nil_r. Qed.

Lemma emits_lift {A} E (r : pyres A) : emits E (lift r).
Proof. intros w. exists []. by rewrite app_nil_r. Qed.

Lemma emits_bind {A B} E (c : pym Srv A) (k : A -> pym Srv B) :
  emits E c -> (forall a, emits E (k a)) -> emits E (bind c k).
Proof.
  intros Hc Hk w. unfold bind. destruct (Hc w) as (t1 & Ht1 & HE1).
  destruct (c w) as [[a|e] w1]; simpl in *.
  - destruct (Hk a w1) as (t2 & Ht2 & HE2). exists (t1 ++ t2).
    rewrite Ht2, Ht1, app_assoc. split; [done|]. by apply Forall_app.
  - by exists t1.
Qed.

Lemma emits_mono {A} E E' (c : pym Srv A) : (forall e, E e -> E' e) -> emits E c -> emits E' c.
Proof. intros HE Hc w. destruct (Hc w) as (t & Ht & Hf). exists t. split; [done|]. by eapply Forall_impl. Qed.

Lemma emits_then_bind {A B} E1 E2 (c : pym Srv A) (k : A -> pym Srv B) :
  emits E1 c -> (forall a, emits_then E1 E2 (k a)) -> emits_then E1 E2 (bind c k).
Proof.
  intros Hc Hk w. unfold bind. destruct (Hc w) as (t1 & Ht1 & HE1).
  destruct (c w) as [[a|e] w1]; simpl in *.
  - destruct (Hk a w1) as (t2 & t3 & Ht2 & HE2 & HE3). exists (t1 ++ t2), t3.
    rewrite Ht2, Ht1, <-!app_assoc. split; [done|]. split; [by apply Forall_app|done].
  - exists t1, []. rewrite app_nil_r. auto.
Qed.

Lemma emits_then_first {A} E1 E2 (c : pym Srv A) : emits E1 c -> emits_then E1 E2 c.
Proof. intros Hc w. destruct (Hc w) as (t & Ht & Hf). exists t, []. rewrite app_nil_r. auto. Qed.

Lemma emits_then_second {A} E1 E2 (c : pym Srv A) : emits E2 c -> emits_then E1 E2 c.
Proof. intros Hc w. destruct (Hc w) as (t & Ht & Hf). exists [], t. auto. Qed.

(** ** The primitives *)

Lemma emits_print E line : E (EvPrint line) -> emits E (print line).
Proof. intros HE w. exists [EvPrint line]. split; [done|]. by constructor. Qed.

Lemma emits_input E prompt : (forall a, E (EvInput prompt a)) -> emits E (input prompt).
Proof.
  intros HE w. unfold input. destruct (w_stdin w) as [|a rest].
  - exists []. by rewrite app_nil_r.
  - exists [EvInput prompt a]. split; [done|]. by constructor.
Qed.

Lemma emits_http E r : E (EvRequest r) -> emits E (http r).
Proof.
  intros HE w. unfold http. destruct (url_ok (req_url r)).
  - destruct (http_handle (w_net w) r). exists [EvRequest r]. split; [done|]. by constructor.
  - exists []. by rewrite app_nil_r.
Qed.

(** File operations leave the trace alone. *)
Lemma emits_silent {A} E (c : pym Srv A) : (forall w, w_trace (snd (c w)) = w_trace w) -> emits E c.
Proof. intros Hc w. exists []. by rewrite app_nil_r, Hc. Qed.

Lemma emits_exists E p : emits E (exists_ p).
Proof. by apply emits_silent. Qed.

Lemma emits_makedirs E p : emits E (makedirs p).
Proof. apply emits_silent. intros w. unfold makedirs. by destruct (path_exists p w). Qed.

Lemma emits_open_write E p : emits E (open_write p).
Proof.
  apply emits_silent. intros w. unfold open_write.
  destruct (resolve_path p w); [|done]. by destruct (dir_at _ w).
Qed.

Lemma emits_write_file E p data : emits E (write_file p data).
Proof. by apply emits_silent. Qed.

Lemma emits_open_read E p : emits E (open_read p).
Proof.
  apply emits_silent. intros w. unfold open_read.
  destruct (resolve_path p w); [|done]. destruct (w_files w !! _); [done|]. by destruct (dir_at _ w).
Qed.
End Emits.

Create HintDb emits discriminated.
#[export] Hint Resolve emits_pure emits_throw emits_lift emits_exists emits_makedirs
  emits_open_write emits_write_file emits_open_read : emits.

(** [emits_steps] walks a computation along its [bind]s, leaving the
    side conditions of prints, prompts and requests. *)
Ltac emits_steps :=
  repeat match goal with
  | |- emits _ (bind _ _) => apply emits_bind; [|intros ?]
  | |- emits _ (print _) => apply emits_print
  | |- emits _ (input _) => apply emits_input; intros ?
  | |- emits _ (http _) => apply emits_http
  | |- emits _ _ => solve [eauto with emits]
  end.

(** An event of the first part of a trace precedes every event of the
    second part. *)
Lemma precedes_app e1 e2 t1 t2 : e1 ∈ t1 -> e2 ∈ t2 -> precedes e1 e2 (t1 ++ t2).
Proof.
  intros (a & b & ->)%list_elem_of_split (c & d & ->)%list_elem_of_split.
  exists a, (b ++ c), d. by rewrite <-!app_assoc.
Qed.
