(* ===== verification/FakeServices.v ===== *)
(** * Concrete services for the concrete runs

    The theorems of the development hold for every [HttpServer] that
    keeps the promises they state as hypotheses.  This file gives one
    such server, a stateless stand-in for both the photo host and
    Yandex.Disk, on which the concrete runs of the other files are
    evaluated: the catalog request is answered with a fixed JSON value,
    every GET has the body [fake_fetch url], an upload-URL request for a
    path answers [{"href": fake_link path}], the folder request answers a
    fixed status and every other PUT answers 201.  The other instances
    refuse every request, cannot be reached, or fail on one upload. *)

From stdpp Require Import base list strings gmap.
From Stdlib Require Import ZArith Ascii.
From S2P Require Import Prelude PyJson World.

Record fake_srv : Type := FakeSrv {
  fk_catalog : json;
  fk_folder_status : Z;
  fk_disk : gmap string string
}.

Definition fake_fetch (u : string) : string := "bytes of " +:+ u.
Definition fake_link (p : string) : string := "https://uploader.example/" +:+ p.

Fixpoint param (k : string) (ps : list (string * string)) : option string :=
  match ps with
  | [] => None
  | (k', v) :: ps' => if String.eqb k k' then Some v else param k ps'
  end.

Fixpoint strip_prefix (pre u : string) : option string :=
  match pre, u with
  | EmptyString, _ => Some u
  | String c pre', String c' u' => if Ascii.eqb c c' then strip_prefix pre' u' else None
  | String _ _, EmptyString => None
  end.

Definition fake_handle (s : fake_srv) (r : request) : fake_srv * pyres response :=
  let u := req_url r in
  match req_method r with
  | GET =>
      if String.eqb u "https://api.vk.com/method/photos.get" then
        (s, Ok (Response 200 (fake_fetch u) (Some (fk_catalog s))))
      else if String.eqb u "https://cloud-api.yandex.net/v1/disk/resources/upload" then
        (s, Ok (Response 200 (fake_fetch u)
                  (Some (JObj [("href", JStr (fake_link (default EmptyString
                                                    (param "path" (req_params r)))))]))))
      else (s, Ok (Response 200 (fake_fetch u) None))
  | PUT =>
      if String.eqb u "https://cloud-api.yandex.net/v1/disk/resources" then
        (s, Ok (Response (fk_folder_status s) EmptyString None))
      else match strip_prefix "https://uploader.example/" u with
           | Some p =>
               (FakeSrv (fk_catalog s) (fk_folder_status s)
                  (<[p := default EmptyString (req_body r)]> (fk_disk s)),
                Ok (Response 201 EmptyString None))
           | None => (s, Ok (Response 201 EmptyString None))
           end
  end.

#[export] Instance fake_http : HttpServer fake_srv := fake_handle.

(** Every state serves every image; the state never changes. *)
Lemma fake_serves_images (Inv : fake_srv -> Prop) : serves_images Inv fake_fetch.
Proof.
  intros srv u HI _. unfold http_handle, fake_http, fake_handle. simpl.
  destruct (String.eqb _ _); [eauto|]. destruct (String.eqb _ _); eauto.
Qed.

(** An upload to [fake_link p] stores the data at [p] on the disk. *)
Lemma fake_accepts_put (srv : fake_srv) (p data : string) :
  url_ok (fake_link p) = true ->
  exists srv' r, http_handle srv (Request PUT (fake_link p) [] [] (Some data)) = (srv', Ok r) /\
                 fk_disk srv' = <[p := data]> (fk_disk srv).
Proof. intros _. do 2 eexists. split; reflexivity. Qed.

(** The world of a concrete run: nothing on disk, the four answers of
    the operator on standard input. *)
Definition fake_world (catalog : json) (status : Z) (stdin : list string) : world fake_srv :=
  World ∅ ∅ (FakeSrv catalog status ∅) stdin [].

(** A service that refuses every request with status 401 and a JSON
    error body, as Yandex.Disk does for a bad token. *)
Inductive refusing_srv : Type := Refusing.

Definition refusal : response :=
  Response 401 EmptyString (Some (JObj [("error", JStr "UnauthorizedError")])).

#[export] Instance refusing_http : HttpServer refusing_srv := fun s _ => (s, Ok refusal).

(** A service that cannot be reached: every request raises
    [ConnectionError]. *)
Inductive offline_srv : Type := Offline.

#[export] Instance offline_http : HttpServer offline_srv := fun s _ => (s, Raise ConnectionError).

(** A service that fails in the middle of the uploads: the upload-URL
    request for [backup/5.jpg] raises [ConnectionError]; every other
    request is answered as by [fake_srv]. *)
Record flaky_srv : Type := Flaky { fl_inner : fake_srv }.

Definition broken_path : string := "backup/5.jpg".

Definition flaky_handle (s : flaky_srv) (r : request) : flaky_srv * pyres response :=
  let delegate := let '(i', res) := fake_handle (fl_inner s) r in (Flaky i', res) in
  match req_method r, param "path" (req_params r) with
  | GET, Some p => if String.eqb p broken_path then (s, Raise ConnectionError) else delegate
  | _, _ => delegate
  end.

#[export] Instance flaky_http : HttpServer flaky_srv := flaky_handle.
