(* ===== verification/VkDownloader.v ===== *)
(** * [class VkDownloader] (src/program.py, lines 6-49)

    The downloader lists the photos of the profile album of one VK user
    with one [photos.get] request ([get_photos]), then for each photo
    that has size variants picks the largest one ([max_size_photo] of
    Selector.v), downloads it into [images_vk/<likes>.jpg] and appends
    [{'file_name': ..., 'size': <type>}] to the list it returns
    ([download_photos]).  A response without [response.items] is
    reported on the console and gives the empty list. *)

From stdpp Require Import base list strings gmap.
From Stdlib Require Import ZArith Ascii.
From S2P Require Import Prelude PyJson Selector Spec World FakeServices.

Local Open Scope py_scope.

(** [VkDownloader(user_id, vk_token)] *)
Record VkDownloader : Type := MkVkDownloader {
  user_id : string;
  vk_token : string
}.

Definition photos_get_url : string := "https://api.vk.com/method/photos.get".
Definition staging_dir : string := "images_vk".

(** The dict [{'file_name': file_name, 'size': max_size_photo['type']}]. *)
Definition photo_entry (file_name : string) (size : json) : json :=
  JObj [("file_name", JStr file_name); ("size", size)].

(** The shape of an entry of [photos] that [upload_photos] and
    [json.dump] consume: a dict with exactly the keys ["file_name"] and
    ["size"], in that order, the first holding a string [<stem>.jpg]. *)
Definition entry_typed (e : json) : Prop :=
  match e with
  | JObj [(k1, JStr n); (k2, _)] =>
      k1 = "file_name" /\ k2 = "size" /\ exists stem, n = stem +:+ ".jpg"
  | _ => False
  end.

(** The console lines of the two messages. *)
Definition msg_fetch_error (data : json) : string :=
  "Ошибка при получении фотографий:" +:+ " " +:+ py_str data.
Definition msg_no_sizes (likes : json) : string :=
  "Фото " +:+ py_str likes +:+ " не содержит информации о размерах".

(** [photo['likes']['count']] *)
Definition likes_count (photo : json) : pyres json :=
  l <-? subscript photo "likes" ;; subscript l "count".

(** [f"{photo['likes']['count']}.jpg"] *)
Definition file_name_of (likes : json) : string := py_str likes +:+ ".jpg".

Section Downloader.
Context {Srv : Type} `{!HttpServer Srv}.

(** The request [get_photos] sends: [requests.get(url=url, params=params)]. *)
Definition photos_request (self : VkDownloader) (offset count : Z) : request :=
  let params := [("owner_id", user_id self); ("album_id", "profile");
                 ("access_token", vk_token self); ("v", "5.131");
                 ("extended", "1"); ("photo_sizes", "1");
                 ("count", int_str count); ("offset", int_str offset)] in
  Request GET photos_get_url params [] None.

(** [get_photos(self, offset=0, count=5)] *)
Definition get_photos (self : VkDownloader) (offset count : Z) : pym Srv json :=
  res <- http (photos_request self offset count) ;;
  lift (resp_json_of res).

(** The body of [for photo in items:], returning the entry appended
    to [photos], or [None] at [continue]. *)
Definition download_one (photo : json) : pym Srv (option json) :=
  sizes <- lift (get photo "sizes") ;;
  if negb (truthy sizes) then
    likes <- lift (likes_count photo) ;;
    print (msg_no_sizes likes) ;;
    pure None
  else
    max_size <- lift (max_size_photo sizes) ;;
    photo_url <- lift (subscript max_size "url") ;;
    likes <- lift (likes_count photo) ;;
    let file_name := file_name_of likes in
    let path := staging_dir +:+ "/" +:+ file_name in
    file <- open_write path ;;
    img <- http (Request GET (py_str photo_url) [] [] None) ;;
    write_file file (content img) ;;
    size <- lift (subscript max_size "type") ;;
    pure (Some (photo_entry file_name size)).

(** The loop over [items], with the list [photos] built so far. *)
Fixpoint download_loop (photos : list json) (items : list json) : pym Srv (list json) :=
  match items with
  | [] => pure photos
  | photo :: rest =>
      r <- download_one photo ;;
      match r with
      | None => download_loop photos rest
      | Some entry => download_loop (photos ++ [entry]) rest
      end
  end.

(** [items = data['response']['items']] *)
Definition response_items (data : json) : pyres json :=
  r <-? subscript data "response" ;; subscript r "items".

(** [download_photos(self)] *)
Definition download_photos (self : VkDownloader) : pym Srv (list json) :=
  data <- get_photos self 0 5 ;;
  match response_items data with
  | Raise (KeyError _) => print (msg_fetch_error data) ;; pure []
  | Raise e => throw e
  | Ok items =>
      ex <- exists_ staging_dir ;;
      (if negb ex then makedirs staging_dir else pure tt) ;;
      l <- lift (py_iter items) ;;
      download_loop [] l
  end.
End Downloader.

(** ** The refinement of the materializer *)

(** The entry the code appends for a transfer record. *)
Definition enc_transfer (t : transfer_record) : json :=
  photo_entry (tr_file_name t) (JStr (tr_size t)).

Definition staging_path (p : photo_record) : string :=
  staging_dir +:+ "/" +:+ spec_file_name p.

(** The events of one iteration of the loop on [p]: the GET of the
    selected variant, or the message for a photo without sizes. *)
Definition download_events (p : photo_record) : list event :=
  match select_variant (pr_sizes p) with
  | Some v => [EvRequest (Request GET (sv_url v) [] [] None)]
  | None => [EvPrint (msg_no_sizes (JInt (pr_likes p)))]
  end.

Lemma best_from_elem {A} (f : A -> Z) x l : best_from f x l ∈ x :: l.
Proof.
  revert x. induction l as [|y l IH]; intros x; simpl; [by left|].
  destruct (f y >? f x)%Z; [right; apply IH|].
  destruct (proj1 (elem_of_cons _ _ _) (IH x)) as [->|Hin]; [by left|by right; right].
Qed.

Lemma select_variant_elem vs v : select_variant vs = Some v -> v ∈ vs.
Proof. destruct vs; simpl; [done|]. intros [= <-]. apply best_from_elem. Qed.

(** The name of a file is a plain name: no [/] in a decimal number. *)
Lemma no_slash_file_name z : no_slash (file_name_of (JInt z)).
Proof.
  apply no_slash_app; [apply no_slash_int_str|].
  repeat constructor; discriminate.
Qed.

Lemma plain_spec_file_name p : plain (spec_file_name p).
Proof. apply plain_jpg, no_slash_int_str. Qed.

Lemma plain_staging_dir : plain staging_dir.
Proof. split; [repeat constructor; discriminate|reflexivity]. Qed.

#[export] Hint Resolve plain_spec_file_name plain_staging_dir : backup.

(** ** The loop as a sequence *)

(** The loop over [l1 ++ l2] runs the loop over [l1] and continues
    with the list it built. *)
Lemma download_loop_app_run {Srv} `{!HttpServer Srv} photos l1 l2 (w : world Srv) :
  download_loop photos (l1 ++ l2) w = (acc <- download_loop photos l1 ;; download_loop acc l2)%py w.
Proof.
  revert photos w. induction l1 as [|p l1 IH]; intros photos w; simpl; [by rewrite bind_pure|].
  rewrite bind_assoc. apply bind_ext. intros [e|] w'; apply IH.
Qed.

Lemma download_loop_acc_run {Srv} `{!HttpServer Srv} photos l (w : world Srv) :
  download_loop photos l w = (r <- download_loop [] l ;; pure (photos ++ r))%py w.
Proof.
  revert photos w. induction l as [|x l IH]; intros photos w; simpl.
  - unfold bind, pure. by rewrite app_nil_r.
  - rewrite bind_assoc. apply bind_ext. intros [e|] w'; [|apply IH].
    rewrite (IH (photos ++ [e])), (bind_cong (download_loop [e] l) _ _ _ (IH [e] w')), bind_assoc.
    apply bind_ext. intros r w''. unfold bind, pure. by rewrite <-app_assoc.
Qed.

(** C24: the list [photos] the loop starts from is only ever extended:
    the loop from [photos] returns [photos] followed by what the loop
    from the empty list returns, with the same effects.  The entries
    of a run are appended, never reset or reordered. *)
Theorem download_loop_extends {Srv} `{!HttpServer Srv} photos l (w : world Srv) :
  download_loop photos l w = (r <- download_loop [] l ;; pure (photos ++ r))%py w.
Proof. apply download_loop_acc_run. Qed.

(** ** Photos without sizes *)

Section NoSizes.
Context {Srv : Type} `{!HttpServer Srv}.
Implicit Types (w : world Srv).

(** A photo without variants: the message, and [continue]. *)
Lemma download_one_nosizes p w : pr_sizes p = [] ->
  download_one (enc_photo p) w = (Ok None, emit (EvPrint (msg_no_sizes (JInt (pr_likes p)))) w).
Proof. intros Hs. unfold download_one, enc_photo. by rewrite Hs. Qed.

Lemma download_loop_nosizes acc ps w : Forall (fun p => pr_sizes p = []) ps ->
  download_loop acc (map enc_photo ps) w =
    (Ok acc, World (w_dirs w) (w_files w) (w_net w) (w_stdin w)
               (w_trace w ++ mjoin (map download_events ps))).
Proof.
  intros Hps. revert w. induction Hps as [|p ps Hp _ IH]; intros w; simpl.
  - destruct w. by rewrite app_nil_r.
  - unfold bind at 1. rewrite download_one_nosizes by done. rewrite IH. simpl.
    unfold download_events. rewrite Hp. by rewrite <-app_assoc.
Qed.
End NoSizes.

Section Refinement.
Context {Srv : Type} `{!HttpServer Srv}.
Implicit Types (w : world Srv).

(** What the photo host promises: the image downloads succeed, with
    the contents [fetch url], and keep the invariant [Inv] of its state. *)
Context (fetch : string -> string) (Inv : Srv -> Prop).
Hypothesis Hserve : serves_images Inv fetch.

(** The staging directory exists and holds no subdirectory. *)
Definition staging_ready w : Prop :=
  staging_dir ∈ w_dirs w /\ forall d, d ∈ w_dirs w -> dirname d <> staging_dir.

Definition urls_ok (p : photo_record) : Prop :=
  Forall (fun v => url_ok (sv_url v) = true) (pr_sizes p).

(** The steps of [download_one] on a photo with variants, up to the
    opening of its file: the largest variant is chosen and what remains
    is the [open], the GET of its URL and the write. *)
Lemma download_one_prefix p w v0 vs :
  pr_sizes p = v0 :: vs ->
  download_one (enc_photo p) w =
    (file <- open_write (staging_path p) ;;
     img <- http (Request GET (sv_url (best_from sv_area v0 vs)) [] [] None) ;;
     write_file file (content img) ;;
     pure (Some (photo_entry (spec_file_name p) (JStr (sv_type (best_from sv_area v0 vs))))))%py w.
Proof.
  intros Hs.
  assert (Hmax : max_size_photo (JList (enc_variant v0 :: map enc_variant vs))
                 = Ok (enc_variant (best_from sv_area v0 vs))).
  { change (enc_variant v0 :: map enc_variant vs) with (map enc_variant (v0 :: vs)).
    rewrite max_size_photo_select_best by auto with backup.
    by rewrite select_best_enc. }
  unfold download_one, enc_photo. rewrite Hs.
  unfold bind at 1 2 3 4, lift. cbn -[max_size_photo http open_write write_file staging_dir].
  rewrite Hmax. cbn -[http open_write write_file staging_dir]. reflexivity.
Qed.
(** With the staging directory ready, the file is created empty. *)
Lemma download_one_opened p w v0 vs :
  staging_ready w -> pr_sizes p = v0 :: vs -> urls_ok p ->
  url_ok (sv_url (best_from sv_area v0 vs)) = true /\
  download_one (enc_photo p) w =
    (img <- http (Request GET (sv_url (best_from sv_area v0 vs)) [] [] None) ;;
     write_file (staging_path p) (content img) ;;
     pure (Some (photo_entry (spec_file_name p) (JStr (sv_type (best_from sv_area v0 vs))))))%py
    (set_files (<[staging_path p := EmptyString]> (w_files w)) w).
Proof.
  intros [Hst Hsub] Hs Hurl. unfold urls_ok in Hurl. rewrite Hs in Hurl.
  split.
  { eapply (Forall_forall (fun v => url_ok (sv_url v) = true)); [exact Hurl|].
    apply best_from_elem. }
  rewrite (download_one_prefix p w v0 vs Hs). unfold bind at 1.
  rewrite (open_write_step _ _ [staging_dir; spec_file_name p]); [reflexivity|..].
  - apply resolve_join; [|apply plain_spec_file_name|done]. apply plain_staging_dir.
  - rewrite dir_at_pair by apply plain_spec_file_name.
    apply bool_decide_false. intros Hin. apply (Hsub _ Hin). apply dirname_join, no_slash_file_name.
Qed.

Lemma download_one_enc p w :
  staging_ready w -> Inv (w_net w) -> urls_ok p ->
  exists w', download_one (enc_photo p) w = (Ok (enc_transfer <$> materialize p), w') /\
    Inv (w_net w') /\ w_dirs w' = w_dirs w /\
    w_files w' = match select_variant (pr_sizes p) with
                 | None => w_files w
                 | Some v => <[staging_path p := fetch (sv_url v)]> (w_files w)
                 end /\
    w_trace w' = w_trace w ++ download_events p.
Proof.
  intros [Hst Hsub] HI Hurl. unfold materialize, download_events.
  destruct (pr_sizes p) as [|v0 vs] eqn:Hs.
  - eexists. unfold download_one, enc_photo. rewrite Hs.
    unfold bind, lift, pure, print. simpl. by split.
  - destruct (download_one_opened p w v0 vs (conj Hst Hsub) Hs
                Hurl) as (Hurl' & ->).
    set (best := best_from sv_area v0 vs) in *.
    destruct (Hserve (w_net w) (sv_url best) HI Hurl') as (srv' & r & Hh & Hc & HI').
    unfold bind at 1.
    erewrite (http_step (set_files _ w) (Request GET (sv_url best) [] [] None) _ _ Hurl' Hh).
    simpl. rewrite Hc.
    eexists. split; [reflexivity|]. split; [done|]. split; [done|].
    simpl. by rewrite insert_insert_eq.
Qed.

Lemma staging_ready_dirs w w' :
  w_dirs w' = w_dirs w -> staging_ready w -> staging_ready w'.
Proof. intros Hd. unfold staging_ready. by rewrite Hd. Qed.

(** The loop downloads the photos one after the other: it appends the
    entries of the photos that have a variant, in order, and leaves the
    staging area as [staged] describes it. *)
Lemma download_loop_enc ps photos w :
  staging_ready w -> Inv (w_net w) -> Forall urls_ok ps ->
  exists w', download_loop photos (map enc_photo ps) w =
               (Ok (photos ++ map enc_transfer (manifest_of ps)), w') /\
    Inv (w_net w') /\ w_dirs w' = w_dirs w /\ w_files w' = staged fetch ps (w_files w) /\
    w_trace w' = w_trace w ++ mjoin (map download_events ps).
Proof.
  revert photos w. induction ps as [|p ps IH]; intros photos w Hw HI Hps.
  { exists w. by rewrite !app_nil_r. }
  apply Forall_cons in Hps as [Hp Hps].
  destruct (download_one_enc p w Hw HI Hp) as (w1 & H1 & HI1 & Hd1 & Hf1 & Ht1).
  simpl. unfold bind at 1. rewrite H1.
  unfold manifest_of, materialize in *. simpl.
  destruct (select_variant (pr_sizes p)) as [v|] eqn:Hsel; simpl.
  - destruct (IH (photos ++ [enc_transfer (TransferRecord (spec_file_name p) (sv_type v))]) w1)
      as (w2 & H2 & HI2 & Hd2 & Hf2 & Ht2); [by eapply staging_ready_dirs|done|done|].
    exists w2. rewrite H2, <-app_assoc. split; [done|]. split; [done|].
    split; [congruence|]. split; [by rewrite Hf2, Hf1|]. by rewrite Ht2, Ht1, <-app_assoc.
  - destruct (IH photos w1) as (w2 & H2 & HI2 & Hd2 & Hf2 & Ht2);
      [by eapply staging_ready_dirs|done|done|].
    exists w2. split; [done|]. split; [done|]. split; [congruence|].
    split; [by rewrite Hf2, Hf1|]. by rewrite Ht2, Ht1, <-app_assoc.
Qed.
End Refinement.

(** ** Partial work and collisions *)

Section Partial.
Context {Srv : Type} `{!HttpServer Srv}.
Implicit Types (w : world Srv).

(** C9: the staged file is opened, hence created empty, before the
    image is requested: when the download raises (a connection error),
    the exception propagates out of the loop and an empty
    [images_vk/<likes>.jpg] is left behind. *)
Theorem download_one_fetch_fails p w v0 vs srv' e :
  staging_ready w -> pr_sizes p = v0 :: vs -> urls_ok p ->
  http_handle (w_net w) (Request GET (sv_url (best_from sv_area v0 vs)) [] [] None)
    = (srv', Raise e) ->
  exists w', download_one (enc_photo p) w = (Raise e, w') /\
    w_files w' !! staging_path p = Some EmptyString.
Proof.
  intros Hw Hs Hurl Hh.
  destruct (download_one_opened p w v0 vs Hw Hs Hurl) as (Hu & ->).
  unfold bind at 1.
  erewrite (http_step (set_files _ w) (Request GET (sv_url (best_from sv_area v0 vs)) [] [] None)
              _ _ Hu Hh).
  eexists. split; [reflexivity|]. simpl. by rewrite lookup_insert_eq.
Qed.
(** A regular file named [images_vk]: the [open] of the first photo
    with sizes raises before its image is requested. *)
Lemma download_one_staging_file p w v0 vs :
  pr_sizes p = v0 :: vs -> staging_dir ∉ w_dirs w -> is_Some (w_files w !! staging_dir) ->
  (forall d, d ∈ w_dirs w -> dirname d <> staging_dir) ->
  download_one (enc_photo p) w = (Raise (NotADirectoryError (staging_path p)), w).
Proof.
  intros Hs Hd Hf Hsub. rewrite (download_one_prefix p w v0 vs Hs).
  apply bind_raise, open_write_raise, resolve_join_file; try done.
  - apply plain_staging_dir.
  - apply no_slash_file_name.
Qed.
(** A catalog item whose like count is the string [s]. *)
Definition photo_named (s : string) (vs : list size_variant) : json :=
  JObj [("sizes", JList (map enc_variant vs)); ("likes", JObj [("count", JStr s)])].

(** C20: the file name is taken from the catalog unchecked, and [open]
    resolves it: a like count ["../<n>"] makes [download_one] write the
    image to [<n>.jpg] in the working directory, outside [images_vk],
    and return the entry ["../<n>.jpg"], which the uploader later reads
    from the same place and sends to [<folder>/../<n>.jpg]. *)
Theorem download_one_traversal w n v0 vs srv' r :
  staging_ready w -> plain (n +:+ ".jpg") -> n +:+ ".jpg" ∉ w_dirs w ->
  url_ok (sv_url (best_from sv_area v0 vs)) = true ->
  http_handle (w_net w) (Request GET (sv_url (best_from sv_area v0 vs)) [] [] None) = (srv', Ok r) ->
  download_one (photo_named (".." +:+ "/" +:+ n) (v0 :: vs)) w =
    (Ok (Some (photo_entry (".." +:+ "/" +:+ n +:+ ".jpg") (JStr (sv_type (best_from sv_area v0 vs))))),
     World (w_dirs w) (<[n +:+ ".jpg" := content r]> (w_files w)) srv' (w_stdin w)
       (w_trace w ++ [EvRequest (Request GET (sv_url (best_from sv_area v0 vs)) [] [] None)])).
Proof.
  intros [Hst _] Hn Hnd Hu Hh.
  assert (Hmax : max_size_photo (JList (enc_variant v0 :: map enc_variant vs))
                 = Ok (enc_variant (best_from sv_area v0 vs))).
  { change (enc_variant v0 :: map enc_variant vs) with (map enc_variant (v0 :: vs)).
    rewrite max_size_photo_select_best by auto with backup.
    by rewrite select_best_enc. }
  unfold download_one, photo_named. unfold bind at 1 2 3 4, lift.
  cbn -[max_size_photo http open_write write_file staging_dir].
  rewrite Hmax. cbn -[http open_write write_file staging_dir].
  unfold bind at 1.
  rewrite (open_write_step _ _ [n +:+ ".jpg"]).
  - unfold bind at 1. erewrite (http_step (set_files _ w) (Request GET (sv_url (best_from sv_area v0 vs)) [] [] None) _ _ Hu Hh). simpl.
    unfold bind, write_file, set_files, pure. simpl. by rewrite insert_insert_eq.
  - apply (resolve_dotdot w staging_dir (n +:+ ".jpg")); [apply plain_staging_dir|done|done].
  - rewrite dir_at_single by done. by apply bool_decide_false.
Qed.

End Partial.

(** C13: the file name [f"{likes}.jpg"] determines the like count:
    two photos share a staged file exactly when their like counts are
    equal, so the overwriting of C8 happens for equal counts and only
    for them. *)
Theorem file_name_of_inj (a b : Z) : file_name_of (JInt a) = file_name_of (JInt b) <-> a = b.
Proof.
  split; [|by intros ->]. intros H.
  apply int_str_inj, (append_inj_r _ _ ".jpg"). exact H.
Qed.

Section Collision.
Context {Srv : Type} `{!HttpServer Srv}.
Implicit Types (w : world Srv).
Context (fetch : string -> string).
Hypothesis Hserve : serves_images (fun _ => True) fetch.

(** C8: two photos with the same number of likes get the same file
    name: both entries are returned with that name, but the staged
    file holds only the second photo's image; the first download is
    overwritten and lost. *)
Theorem download_same_likes_overwrites p1 p2 v1 v2 w :
  staging_ready w -> urls_ok p1 -> urls_ok p2 ->
  pr_likes p1 = pr_likes p2 ->
  select_variant (pr_sizes p1) = Some v1 -> select_variant (pr_sizes p2) = Some v2 ->
  exists w', download_loop [] [enc_photo p1; enc_photo p2] w =
    (Ok [photo_entry (spec_file_name p1) (JStr (sv_type v1));
         photo_entry (spec_file_name p1) (JStr (sv_type v2))], w') /\
    w_files w' !! staging_path p1 = Some (fetch (sv_url v2)).
Proof.
  intros Hw H1 H2 Hl Hs1 Hs2.
  destruct (download_loop_enc fetch _ Hserve [p1; p2] [] w Hw I)
    as (w' & Hrun & _ & _ & Hf & _); [by repeat constructor|].
  exists w'. unfold manifest_of, materialize in Hrun. simpl in Hrun.
  rewrite Hs1, Hs2 in Hrun. unfold spec_file_name in *. rewrite Hl in Hrun |- *.
  split; [exact Hrun|]. rewrite Hf. simpl. rewrite Hs1, Hs2.
  unfold staging_path, spec_file_name. rewrite Hl. simpl. by rewrite lookup_insert_eq.
Qed.
End Collision.

(** ** The whole downloader *)

Section DownloadPhotos.
Context {Srv : Type} `{!HttpServer Srv}.
Implicit Types (w : world Srv).

(** The catalog answered the [photos.get] request of [self] with the
    JSON [data]. *)
Definition catalog_answers (self : VkDownloader) w (srv' : Srv) (data : json) : Prop :=
  exists r, http_handle (w_net w) (photos_request self 0 5) = (srv', Ok r) /\
            resp_json r = Some data.

Lemma get_photos_step self w srv' data :
  catalog_answers self w srv' data ->
  get_photos self 0 5 w =
    (Ok data, World (w_dirs w) (w_files w) srv' (w_stdin w)
                (w_trace w ++ [EvRequest (photos_request self 0 5)])).
Proof.
  intros (r & Hh & Hj). unfold get_photos, bind.
  rewrite (http_step _ (photos_request self 0 5) _ _ eq_refl Hh). simpl.
  unfold lift, resp_json_of. by rewrite Hj.
Qed.

(** The run of [download_photos] when [response.items] is missing. *)
Lemma download_photos_keyerror self w srv' data k :
  catalog_answers self w srv' data ->
  response_items data = Raise (KeyError k) ->
  download_photos self w =
    (Ok [], World (w_dirs w) (w_files w) srv' (w_stdin w)
              (w_trace w ++ [EvRequest (photos_request self 0 5);
                             EvPrint (msg_fetch_error data)])).
Proof.
  intros Hc Hk. unfold download_photos. unfold bind at 1.
  rewrite (get_photos_step _ _ _ _ Hc), Hk. unfold bind, print, pure, emit. simpl.
  by rewrite <-app_assoc.
Qed.

(** C7: when the catalog's answer has no [response] or no [items] key,
    [download_photos] catches the [KeyError], prints the answer and
    returns the empty list: it sent the one catalog request and
    touched no file and no directory. *)
Theorem download_photos_catalog_error self w srv' data k :
  catalog_answers self w srv' data ->
  response_items data = Raise (KeyError k) ->
  download_photos self w =
    (Ok [], World (w_dirs w) (w_files w) srv' (w_stdin w)
              (w_trace w ++ [EvRequest (photos_request self 0 5);
                             EvPrint (msg_fetch_error data)])).
Proof. apply download_photos_keyerror. Qed.

(** C11: only a [KeyError] is caught: an answer whose [response] is not
    a dict (a list, a string, [null]) makes [data['response']['items']]
    raise [TypeError], which stops the run after the catalog request
    without the message of the [except] branch. *)
Theorem download_photos_malformed self w srv' data e :
  catalog_answers self w srv' data ->
  response_items data = Raise e -> (forall k, e <> KeyError k) ->
  download_photos self w =
    (Raise e, World (w_dirs w) (w_files w) srv' (w_stdin w)
                (w_trace w ++ [EvRequest (photos_request self 0 5)])).
Proof.
  intros Hc He Hk. unfold download_photos. unfold bind at 1.
  rewrite (get_photos_step _ _ _ _ Hc), He.
  destruct e; try reflexivity. by destruct (Hk key).
Qed.

(** C28: the code tests [os.path.exists('images_vk')], not that it is
    a directory.  When a regular file named [images_vk] is there, no
    directory is made; the photos without sizes before the first usable
    photo [p] get their message, and the [open] of [p]'s file raises
    [NotADirectoryError], uncaught, before [p]'s image is requested: the
    run stops with no file and no directory changed. *)
Theorem download_photos_staging_file self w srv1 data ps0 p v0 vs ps :
  catalog_answers self w srv1 data ->
  response_items data = Ok (JList (map enc_photo (ps0 ++ p :: ps))) ->
  Forall (fun q => pr_sizes q = []) ps0 -> pr_sizes p = v0 :: vs ->
  is_Some (w_files w !! staging_dir) -> staging_dir ∉ w_dirs w ->
  (forall d, d ∈ w_dirs w -> dirname d <> staging_dir) ->
  download_photos self w =
    (Raise (NotADirectoryError (staging_path p)),
     World (w_dirs w) (w_files w) srv1 (w_stdin w)
       (w_trace w ++ EvRequest (photos_request self 0 5) :: mjoin (map download_events ps0))).
Proof.
  intros Hc Hi Hps0 Hs Hf Hd Hsub. unfold download_photos. unfold bind at 1.
  rewrite (get_photos_step _ _ _ _ Hc), Hi.
  unfold bind at 1, exists_. rewrite path_exists_plain by apply plain_staging_dir. simpl.
  rewrite (bool_decide_true (is_Some _)) by done.
  rewrite orb_true_r. unfold bind at 1 2, pure, lift. simpl.
  rewrite map_app, download_loop_app_run. unfold bind at 1.
  rewrite download_loop_nosizes by done. simpl.
  unfold bind at 1. rewrite (download_one_staging_file p _ v0 vs Hs); try done.
  simpl. by rewrite <-app_assoc.
Qed.

(** [os.path.exists] then [os.makedirs]: afterwards the staging
    directory exists, whether or not it did before. *)
Lemma ensure_staging_dir {A} w (k : pym Srv A) :
  w_files w !! staging_dir = None ->
  (ex <- exists_ staging_dir ;;
   (if negb ex then makedirs staging_dir else pure tt) ;; k)%py w =
  k (set_dirs ({[staging_dir]} ∪ w_dirs w) w).
Proof.
  intros Hf. unfold bind, exists_. rewrite path_exists_plain by apply plain_staging_dir.
  rewrite Hf. simpl.
  destruct (decide (staging_dir ∈ w_dirs w)) as [Hin|Hin].
  - rewrite bool_decide_true by done. simpl. f_equal.
    destruct w; unfold set_dirs; simpl in *. f_equal. set_solver.
  - rewrite bool_decide_false by done. simpl. unfold makedirs.
    rewrite path_exists_plain by apply plain_staging_dir. by rewrite bool_decide_false, Hf.
Qed.

(** A catalog whose photos all lack size variants (an empty one
    included): the staging directory is created, a message is printed
    per photo, and the empty list is returned. *)
Lemma download_photos_nosizes self w srv1 data ps :
  catalog_answers self w srv1 data ->
  response_items data = Ok (JList (map enc_photo ps)) ->
  Forall (fun p => pr_sizes p = []) ps ->
  w_files w !! staging_dir = None ->
  download_photos self w =
    (Ok [], World ({[staging_dir]} ∪ w_dirs w) (w_files w) srv1 (w_stdin w)
              (w_trace w ++ EvRequest (photos_request self 0 5) :: mjoin (map download_events ps))).
Proof.
  intros Hc Hi Hps Hf. unfold download_photos. unfold bind at 1.
  rewrite (get_photos_step _ _ _ _ Hc), Hi. rewrite ensure_staging_dir by done.
  unfold bind at 1. simpl. rewrite download_loop_nosizes by done. simpl. by rewrite <-app_assoc.
Qed.

Context (fetch : string -> string) (Inv : Srv -> Prop).
Hypothesis Hserve : serves_images Inv fetch.

(** The run of [download_photos] on a catalog of typed records. *)
Lemma download_photos_enc self w srv1 data ps :
  catalog_answers self w srv1 data -> Inv srv1 ->
  response_items data = Ok (JList (map enc_photo ps)) ->
  Forall urls_ok ps ->
  w_files w !! staging_dir = None ->
  (forall d, d ∈ w_dirs w -> dirname d <> staging_dir) ->
  exists w', download_photos self w = (Ok (map enc_transfer (manifest_of ps)), w') /\
    Inv (w_net w') /\ w_dirs w' = {[staging_dir]} ∪ w_dirs w /\
    w_files w' = staged fetch ps (w_files w) /\
    w_trace w' = w_trace w ++ EvRequest (photos_request self 0 5) :: mjoin (map download_events ps).
Proof.
  intros Hc HI Hi Hps Hf Hsub. unfold download_photos. unfold bind at 1.
  rewrite (get_photos_step _ _ _ _ Hc), Hi.
  set (w1 := World (w_dirs w) (w_files w) srv1 (w_stdin w)
                   (w_trace w ++ [EvRequest (photos_request self 0 5)])).
  rewrite ensure_staging_dir by done. unfold bind at 1. simpl.
  destruct (download_loop_enc fetch Inv Hserve ps [] (set_dirs ({[staging_dir]} ∪ w_dirs w) w1))
    as (w3 & H3 & HI3 & Hd3 & Hf3 & Ht3).
  - split; simpl; [set_solver|]. intros d [->%elem_of_singleton|Hd]%elem_of_union.
    + vm_compute. discriminate.
    + by apply Hsub.
  - done.
  - done.
  - exists w3. split; [exact H3|]. split; [done|]. rewrite Hd3, Hf3, Ht3. simpl.
    by rewrite <-app_assoc.
Qed.

(** C2: the downloader refines the materializer of the spec.  When the
    catalog lists the photos [ps] and every image URL is served, the
    list [download_photos] returns is the manifest of [ps]: one entry
    [{'file_name': '<likes>.jpg', 'size': <type of the largest
    variant>}] per photo that has a variant, in catalog order; the
    staging directory exists and holds the content of each selected
    variant under its file name; the requests and messages are the
    catalog request, then photo by photo the GET of the selected
    variant's URL or the message for a photo without sizes. *)
Theorem download_photos_refines self w srv1 data ps :
  catalog_answers self w srv1 data -> Inv srv1 ->
  response_items data = Ok (JList (map enc_photo ps)) ->
  Forall urls_ok ps ->
  w_files w !! staging_dir = None ->
  (forall d, d ∈ w_dirs w -> dirname d <> staging_dir) ->
  exists w', download_photos self w = (Ok (map enc_transfer (manifest_of ps)), w') /\
    Inv (w_net w') /\ w_dirs w' = {[staging_dir]} ∪ w_dirs w /\
    w_files w' = staged fetch ps (w_files w) /\
    w_trace w' = w_trace w ++ EvRequest (photos_request self 0 5) :: mjoin (map download_events ps).
Proof. apply download_photos_enc. Qed.
End DownloadPhotos.

(** ** The type of the returned list *)

Section Types.
Context {Srv : Type} `{!HttpServer Srv}.

Lemma download_one_typed photo :
  returns (fun o => forall e, o = Some e -> entry_typed e) (download_one (Srv:=Srv) photo).
Proof.
  unfold download_one. returns_steps.
  destruct (negb _); returns_steps; intros e [= <-]; simpl; split_and!; [done|done|by eexists].
Qed.

Lemma download_loop_typed acc items : Forall entry_typed acc ->
  returns (Forall entry_typed) (download_loop (Srv:=Srv) acc items).
Proof.
  revert acc. induction items as [|p items IH]; intros acc Hacc; simpl; [by apply returns_pure|].
  apply (returns_bind _ _ _ _ (download_one_typed p)). intros [e|] He; apply IH; [|done].
  apply Forall_app. split; [done|]. constructor; [by apply He|constructor].
Qed.

(** C21: whatever the services answer, every list [download_photos]
    returns holds only dicts [{'file_name': <str>, 'size': ...}], the
    shape [upload_photos] and [json.dump] consume. *)
Theorem download_photos_typed self : returns (Forall entry_typed) (download_photos (Srv:=Srv) self).
Proof.
  unfold download_photos. returns_steps.
  destruct (response_items _) as [items|[]]; returns_steps; try constructor.
  apply download_loop_typed. constructor.
Qed.
End Types.

(** ** Concrete runs *)

(** The catalog of the spec's scenarios: the photo with 42 likes has the
    variants [m] (100x100) and [x] (400x300), the photo with 7 likes has
    none, the photo with 5 likes has one. *)
Definition sample_photos : list photo_record :=
  [PhotoRecord 42 [SizeVariant "https://vk.example/m.jpg" 100 100 "m";
                   SizeVariant "https://vk.example/x.jpg" 400 300 "x"];
   PhotoRecord 7 [];
   PhotoRecord 5 [SizeVariant "https://vk.example/s.jpg" 75 56 "s"]].

Definition sample_catalog : json :=
  JObj [("response", JObj [("count", JInt 3); ("items", JList (map enc_photo sample_photos))])].

Definition sample_self : VkDownloader := MkVkDownloader "1" "vk-token".

Definition sample_world : world fake_srv := fake_world sample_catalog 201 [].

Example sample_manifest :
  map enc_transfer (manifest_of sample_photos) =
  [photo_entry "42.jpg" (JStr "x"); photo_entry "5.jpg" (JStr "s")].
Proof. reflexivity. Qed.

Lemma download_photos_refines_witness :
  exists w', download_photos sample_self sample_world =
               (Ok (map enc_transfer (manifest_of sample_photos)), w') /\
    True /\ w_dirs w' = {[staging_dir]} ∪ w_dirs sample_world /\
    w_files w' = staged fake_fetch sample_photos (w_files sample_world) /\
    w_trace w' = w_trace sample_world ++
                 EvRequest (photos_request sample_self 0 5) :: mjoin (map download_events sample_photos).
Proof.
  apply (download_photos_refines fake_fetch (fun _ => True) (fake_serves_images _)
           sample_self sample_world (FakeSrv sample_catalog 201 ∅) sample_catalog sample_photos).
  - eexists. split; reflexivity.
  - exact I.
  - reflexivity.
  - vm_compute. repeat constructor.
  - reflexivity.
  - intros d Hd. by apply elem_of_empty in Hd.
Defined.

(** The answer of the VK API to a request it refuses. *)
Definition error_catalog : json := JObj [("error", JObj [("error_code", JInt 5)])].

Lemma download_photos_catalog_error_witness :
  download_photos sample_self (fake_world error_catalog 201 []) =
    (Ok [], World ∅ ∅ (FakeSrv error_catalog 201 ∅) []
              ([] ++ [EvRequest (photos_request sample_self 0 5);
                      EvPrint (msg_fetch_error error_catalog)])).
Proof.
  apply (download_photos_catalog_error sample_self (fake_world error_catalog 201 [])
           (FakeSrv error_catalog 201 ∅) error_catalog "response").
  - eexists. split; reflexivity.
  - reflexivity.
Defined.

Lemma download_photos_malformed_witness :
  download_photos sample_self (fake_world (JObj [("response", JList [])]) 201 []) =
    (Raise TypeError, World ∅ ∅ (FakeSrv (JObj [("response", JList [])]) 201 ∅) []
                        ([] ++ [EvRequest (photos_request sample_self 0 5)])).
Proof.
  apply (download_photos_malformed sample_self (fake_world (JObj [("response", JList [])]) 201 [])
           (FakeSrv (JObj [("response", JList [])]) 201 ∅) (JObj [("response", JList [])]) TypeError).
  - eexists. split; reflexivity.
  - reflexivity.
  - discriminate.
Defined.

(** A world in which the staging directory already exists. *)
Definition staged_world {Srv} (srv : Srv) : world Srv := World {[staging_dir]} ∅ srv [] [].

Lemma staged_world_ready {Srv} (srv : Srv) : staging_ready (staged_world srv).
Proof.
  split; [set_solver|]. intros d Hd. simpl in Hd. apply elem_of_singleton in Hd as ->.
  vm_compute. discriminate.
Qed.

Definition photo_x : photo_record :=
  PhotoRecord 42 [SizeVariant "https://vk.example/x.jpg" 400 300 "x"].
Definition photo_m : photo_record :=
  PhotoRecord 42 [SizeVariant "https://vk.example/m.jpg" 100 100 "m"].

Lemma download_one_fetch_fails_witness :
  exists w', download_one (enc_photo photo_x) (staged_world Offline) = (Raise ConnectionError, w') /\
    w_files w' !! staging_path photo_x = Some EmptyString.
Proof.
  apply (download_one_fetch_fails photo_x (staged_world Offline)
           (SizeVariant "https://vk.example/x.jpg" 400 300 "x") [] Offline ConnectionError).
  - apply staged_world_ready.
  - reflexivity.
  - repeat constructor.
  - reflexivity.
Defined.

Lemma download_same_likes_overwrites_witness :
  exists w', download_loop [] [enc_photo photo_m; enc_photo photo_x] (staged_world (FakeSrv JNull 201 ∅)) =
    (Ok [photo_entry (spec_file_name photo_m) (JStr "m");
         photo_entry (spec_file_name photo_m) (JStr "x")], w') /\
    w_files w' !! staging_path photo_m = Some (fake_fetch "https://vk.example/x.jpg").
Proof.
  apply (download_same_likes_overwrites fake_fetch (fake_serves_images _) photo_m photo_x
           (SizeVariant "https://vk.example/m.jpg" 100 100 "m")
           (SizeVariant "https://vk.example/x.jpg" 400 300 "x")).
  - apply staged_world_ready.
  - repeat constructor.
  - repeat constructor.
  - reflexivity.
  - reflexivity.
  - reflexivity.
Defined.

(** A run in which [images_vk] is a regular file left over. *)
Definition stale_world : world fake_srv :=
  World ∅ {[staging_dir := "old"]} (FakeSrv sample_catalog 201 ∅) [] [].

Lemma download_photos_staging_file_witness :
  download_photos sample_self stale_world =
    (Raise (NotADirectoryError (staging_path (PhotoRecord 42 [SizeVariant "https://vk.example/m.jpg" 100 100 "m";
                   SizeVariant "https://vk.example/x.jpg" 400 300 "x"]))),
     World ∅ {[staging_dir := "old"]} (FakeSrv sample_catalog 201 ∅) []
       ([] ++ EvRequest (photos_request sample_self 0 5) :: mjoin (map download_events []))).
Proof.
  apply (download_photos_staging_file sample_self stale_world (FakeSrv sample_catalog 201 ∅)
           sample_catalog [] _ (SizeVariant "https://vk.example/m.jpg" 100 100 "m")
           [SizeVariant "https://vk.example/x.jpg" 400 300 "x"] (drop 1 sample_photos)).
  - eexists. split; reflexivity.
  - reflexivity.
  - constructor.
  - reflexivity.
  - eexists. vm_compute. reflexivity.
  - simpl. set_solver.
  - intros d Hd. by apply elem_of_empty in Hd.
Defined.

Lemma download_one_traversal_witness :
  exists srv' r,
    http_handle (FakeSrv JNull 201 ∅) (Request GET "https://vk.example/x.jpg" [] [] None) = (srv', Ok r) /\
    download_one (photo_named (".." +:+ "/" +:+ "evil") [SizeVariant "https://vk.example/x.jpg" 400 300 "x"])
      (staged_world (FakeSrv JNull 201 ∅)) =
    (Ok (Some (photo_entry (".." +:+ "/" +:+ "evil" +:+ ".jpg") (JStr "x"))),
     World {[staging_dir]} (<["evil" +:+ ".jpg" := content r]> ∅) srv' []
       ([] ++ [EvRequest (Request GET "https://vk.example/x.jpg" [] [] None)])).
Proof.
  eexists _, _. split; [reflexivity|].
  apply (download_one_traversal (staged_world (FakeSrv JNull 201 ∅)) "evil"
           (SizeVariant "https://vk.example/x.jpg" 400 300 "x") []).
  - apply staged_world_ready.
  - apply plain_jpg. repeat constructor; discriminate.
  - simpl. intros ?%elem_of_singleton. discriminate.
  - reflexivity.
  - reflexivity.
Defined.
