(* ===== verification/YaUploader.v ===== *)
(** * [class YaUploader] (src/program.py, lines 51-77)

    The uploader creates the destination folder on Yandex.Disk with one
    [PUT .../v1/disk/resources?path=<folder>] ([create_folder]); the
    status decides which message is printed (201 created, 409 exists,
    anything else an error with the body), and the run goes on in every
    case.  Then, for each entry of the list, in order, it opens the
    staged file [images_vk/<file_name>], asks for an upload URL with a
    [GET .../resources/upload?path=<folder>/<file_name>&overwrite=true]
    and sends the file to the [href] of the answer with a [PUT]
    ([upload_photos]).  Neither request's status is checked.  The
    progress bar [tqdm] only draws on the terminal and is not modelled. *)

From stdpp Require Import base list strings gmap.
From Stdlib Require Import ZArith Ascii.
From S2P Require Import Prelude PyJson World FakeServices VkDownloader.

Local Open Scope py_scope.

(** [YaUploader(ya_token, folder_name)] *)
Record YaUploader : Type := MkYaUploader {
  ya_token : string;
  folder_name : string
}.

Definition resources_url : string := "https://cloud-api.yandex.net/v1/disk/resources".
Definition upload_url : string := "https://cloud-api.yandex.net/v1/disk/resources/upload".

Definition auth_headers (self : YaUploader) : list (string * string) :=
  [("Authorization", "OAuth " +:+ ya_token self)].

(** What [create_folder] reports, by the status of the answer. *)
Inductive folder_status : Type :=
| FolderCreated
| FolderExists
| FolderFailed (text : string).

Definition folder_status_of (r : response) : folder_status :=
  if Z.eqb (status_code r) 201 then FolderCreated
  else if Z.eqb (status_code r) 409 then FolderExists
  else FolderFailed (content r).

Definition folder_message (self : YaUploader) (st : folder_status) : string :=
  match st with
  | FolderCreated => "Папка " +:+ String (ascii_of_nat 34) (folder_name self)
                     +:+ String (ascii_of_nat 34) " успешно создана на Яндекс.Диске"
  | FolderExists => "Папка " +:+ String (ascii_of_nat 34) (folder_name self)
                    +:+ String (ascii_of_nat 34) " уже существует на Яндекс.Диске"
  | FolderFailed text => "Ошибка при создании папки:" +:+ " " +:+ text
  end.

Section Uploader.
Context {Srv : Type} `{!HttpServer Srv}.

Definition folder_request (self : YaUploader) : request :=
  Request PUT resources_url [("path", folder_name self)] (auth_headers self) None.

(** [create_folder(self)]: the status only chooses the message. *)
Definition create_folder (self : YaUploader) : pym Srv unit :=
  response <- http (folder_request self) ;;
  print (folder_message self (folder_status_of response)).

(** The request for the upload URL of one file. *)
Definition upload_link_request (self : YaUploader) (file_name : string) : request :=
  Request GET upload_url
    [("path", folder_name self +:+ "/" +:+ file_name); ("overwrite", "true")]
    (auth_headers self) None.

(** The body of [for photo in tqdm(photos, ...)]. *)
Definition upload_one (self : YaUploader) (photo : json) : pym Srv unit :=
  fn <- lift (subscript photo "file_name") ;;
  let file_path := "images_vk/" +:+ py_str fn in
  data <- open_read file_path ;;
  response <- http (upload_link_request self (py_str fn)) ;;
  body <- lift (resp_json_of response) ;;
  href <- lift (get body "href") ;;
  _ <- http (Request PUT (py_str href) [] [] (Some data)) ;;
  pure tt.

(** [upload_photos(self, photos)]: the loop over [tqdm(photos)], which
    yields the items of the list in order. *)
Fixpoint upload_photos (self : YaUploader) (photos : list json) : pym Srv unit :=
  match photos with
  | [] => pure tt
  | photo :: rest => upload_one self photo ;; upload_photos self rest
  end.
End Uploader.

(** ** The folder *)

Section CreateFolder.
Context {Srv : Type} `{!HttpServer Srv}.
Implicit Types (w : world Srv).

Lemma folder_status_of_spec r :
  (folder_status_of r = FolderCreated <-> status_code r = 201%Z) /\
  (folder_status_of r = FolderExists <-> status_code r = 409%Z) /\
  (folder_status_of r = FolderFailed (content r) <->
     status_code r <> 201%Z /\ status_code r <> 409%Z).
Proof.
  unfold folder_status_of.
  destruct (Z.eqb_spec (status_code r) 201) as [->|H1];
    [|destruct (Z.eqb_spec (status_code r) 409) as [->|H2]];
    repeat split; intros; try congruence; try lia; naive_solver.
Qed.

(** The run of [create_folder] once the service has answered. *)
Lemma create_folder_step self w srv' r :
  http_handle (w_net w) (folder_request self) = (srv', Ok r) ->
  create_folder self w =
    (Ok tt, World (w_dirs w) (w_files w) srv' (w_stdin w)
              (w_trace w ++ [EvRequest (folder_request self);
                             EvPrint (folder_message self (folder_status_of r))])).
Proof.
  intros Hh. unfold create_folder, bind.
  rewrite (http_step _ (folder_request self) _ _ eq_refl Hh).
  unfold print, emit. simpl. by rewrite <-app_assoc.
Qed.

(** The line printed for each status. *)
Lemma folder_message_of self r :
  folder_message self (folder_status_of r) =
    if Z.eqb (status_code r) 201 then
      "Папка " +:+ String (ascii_of_nat 34) (folder_name self)
        +:+ String (ascii_of_nat 34) " успешно создана на Яндекс.Диске"
    else if Z.eqb (status_code r) 409 then
      "Папка " +:+ String (ascii_of_nat 34) (folder_name self)
        +:+ String (ascii_of_nat 34) " уже существует на Яндекс.Диске"
    else "Ошибка при создании папки:" +:+ " " +:+ content r.
Proof. unfold folder_status_of. by destruct (Z.eqb (status_code r) 201), (Z.eqb (status_code r) 409). Qed.

(** C6: [create_folder] sends one [PUT] and, whatever the status of
    the answer, returns normally: the run goes on.  It reports a new
    folder exactly for status 201, an existing one exactly for 409, and
    an error with the body of the answer for any other status; the line
    it prints is, for 201, [Папка "<folder>" успешно создана на
    Яндекс.Диске], for 409 [Папка "<folder>" уже существует на
    Яндекс.Диске], otherwise [Ошибка при создании папки: <body>]. *)
Theorem create_folder_continues self w srv' r :
  http_handle (w_net w) (folder_request self) = (srv', Ok r) ->
  create_folder self w =
    (Ok tt, World (w_dirs w) (w_files w) srv' (w_stdin w)
              (w_trace w ++ [EvRequest (folder_request self);
                             EvPrint (folder_message self (folder_status_of r))])) /\
  (folder_status_of r = FolderCreated <-> status_code r = 201%Z) /\
  (folder_status_of r = FolderExists <-> status_code r = 409%Z) /\
  (folder_status_of r = FolderFailed (content r) <->
     status_code r <> 201%Z /\ status_code r <> 409%Z) /\
  folder_message self (folder_status_of r) =
    if Z.eqb (status_code r) 201 then
      "Папка " +:+ String (ascii_of_nat 34) (folder_name self)
        +:+ String (ascii_of_nat 34) " успешно создана на Яндекс.Диске"
    else if Z.eqb (status_code r) 409 then
      "Папка " +:+ String (ascii_of_nat 34) (folder_name self)
        +:+ String (ascii_of_nat 34) " уже существует на Яндекс.Диске"
    else "Ошибка при создании папки:" +:+ " " +:+ content r.
Proof.
  intros Hh. split; [exact (create_folder_step self w srv' r Hh)|].
  destruct (folder_status_of_spec r) as (H1 & H2 & H3). split_and!; [done..|apply folder_message_of].
Qed.
End CreateFolder.

(** ** The uploads *)

(** The staged file [images_vk/<fn>] can be read: the staging directory
    exists, [fn] is a plain name and the file holds [d]. *)
Lemma open_read_staged {Srv} `{!HttpServer Srv} (w : world Srv) fn d :
  staging_dir ∈ w_dirs w -> plain fn -> w_files w !! ("images_vk/" +:+ fn) = Some d ->
  open_read ("images_vk/" +:+ fn) w = (Ok d, w).
Proof.
  intros Hdir Hfn Hd. apply (open_read_step _ _ [staging_dir; fn]); [|exact Hd].
  change ("images_vk/" +:+ fn) with (staging_dir +:+ "/" +:+ fn).
  apply resolve_join; [apply plain_staging_dir|done|done].
Qed.

(** The two requests of one upload, as they are sent. *)
Lemma upload_one_step {Srv} `{!HttpServer Srv} self (w : world Srv) fn size d srv1 r1 body h srv2 r2 :
  staging_dir ∈ w_dirs w -> plain fn -> w_files w !! ("images_vk/" +:+ fn) = Some d ->
  http_handle (w_net w) (upload_link_request self fn) = (srv1, Ok r1) ->
  resp_json r1 = Some body -> get body "href" = Ok (JStr h) -> url_ok h = true ->
  http_handle srv1 (Request PUT h [] [] (Some d)) = (srv2, Ok r2) ->
  upload_one self (photo_entry fn size) w =
    (Ok tt, World (w_dirs w) (w_files w) srv2 (w_stdin w)
              (w_trace w ++ [EvRequest (upload_link_request self fn);
                             EvRequest (Request PUT h [] [] (Some d))])).
Proof.
  intros Hdir Hfn Hd H1 Hj Hhref Hu H2. unfold upload_one, bind, lift. simpl.
  rewrite (open_read_staged _ _ _ Hdir Hfn Hd).
  rewrite (http_step _ (upload_link_request self fn) _ _ eq_refl H1).
  unfold resp_json_of. rewrite Hj, Hhref. simpl.
  rewrite (http_step (World (w_dirs w) (w_files w) srv1 (w_stdin w)
                       (w_trace w ++ [EvRequest (upload_link_request self fn)]))
             (Request PUT h [] [] (Some d)) _ _ Hu H2).
  simpl. by rewrite <-app_assoc.
Qed.

(** The loop over [l1 ++ l2] is the loop over [l1], then over [l2]. *)
Lemma upload_photos_app {Srv} `{!HttpServer Srv} self l1 l2 (w : world Srv) :
  upload_photos self (l1 ++ l2) w = (upload_photos self l1 ;; upload_photos self l2)%py w.
Proof.
  revert w. induction l1 as [|x l1 IH]; intros w; simpl; [by rewrite bind_pure|].
  rewrite bind_assoc. apply bind_ext. intros _ w'. apply IH.
Qed.

(** The upload of a staged file whose upload-URL request raises. *)
Lemma upload_one_link_fails {Srv} `{!HttpServer Srv} self (w : world Srv) fn size d srv' e :
  staging_dir ∈ w_dirs w -> plain fn -> w_files w !! ("images_vk/" +:+ fn) = Some d ->
  http_handle (w_net w) (upload_link_request self fn) = (srv', Raise e) ->
  upload_one self (photo_entry fn size) w =
    (Raise e, World (w_dirs w) (w_files w) srv' (w_stdin w)
                (w_trace w ++ [EvRequest (upload_link_request self fn)])).
Proof.
  intros Hdir Hfn Hd Hh. unfold upload_one. cbn -[open_read http]. unfold bind at 1, lift. simpl.
  unfold bind at 1. rewrite (open_read_staged _ _ _ Hdir Hfn Hd). unfold bind at 1.
  by rewrite (http_step _ (upload_link_request self fn) _ _ eq_refl Hh).
Qed.

Section Upload.
Context {Srv : Type} `{!HttpServer Srv}.
Implicit Types (w : world Srv).
Context (self : YaUploader).

(** The remote path of a file, [<folder>/<file_name>]. *)
Definition remote_path (fn : string) : string := folder_name self +:+ "/" +:+ fn.

(** What Yandex.Disk promises, through the view [disk] of its state as
    the files it stores: an upload-URL request for a path is answered
    with a JSON body whose [href] is the [http(s)] URL [link path] and
    stores nothing, for every file name [link_ok] accepts; a [PUT] of
    data to [link path] stores the data at [path]. *)
Context (disk : Srv -> gmap string string) (link : string -> string) (link_ok : string -> Prop).
Hypothesis answers_link : forall srv fn, link_ok fn ->
  exists srv' r body,
    http_handle srv (upload_link_request self fn) = (srv', Ok r) /\
    resp_json r = Some body /\ get body "href" = Ok (JStr (link (remote_path fn))) /\
    url_ok (link (remote_path fn)) = true /\ disk srv' = disk srv.
Hypothesis accepts_put : forall srv p data, url_ok (link p) = true ->
  exists srv' r, http_handle srv (Request PUT (link p) [] [] (Some data)) = (srv', Ok r) /\
                 disk srv' = <[p := data]> (disk srv).

(** The file [images_vk/<fn>] is staged and can be opened. *)
Definition staged_file w (fn : string) : Prop :=
  staging_dir ∈ w_dirs w /\ plain fn /\ is_Some (w_files w !! ("images_vk/" +:+ fn)).

Lemma staged_file_same w w' fn :
  w_files w' = w_files w -> w_dirs w' = w_dirs w -> staged_file w fn -> staged_file w' fn.
Proof. unfold staged_file. intros -> ->. done. Qed.

(** The staged bytes of a file. *)
Definition staged_bytes (files : gmap string string) (fn : string) : string :=
  default EmptyString (files !! ("images_vk/" +:+ fn)).

(** The two requests the upload of the staged file [fn] makes. *)
Definition upload_requests (files : gmap string string) (fn : string) : list event :=
  [EvRequest (upload_link_request self fn);
   EvRequest (Request PUT (link (remote_path fn)) [] [] (Some (staged_bytes files fn)))].

(** The disk after the files [fns] are uploaded one after the other. *)
Definition published (files : gmap string string) (fns : list string)
    (d : gmap string string) : gmap string string :=
  foldl (fun d fn => <[remote_path fn := staged_bytes files fn]> d) d fns.

Lemma upload_one_entry w fn size :
  staged_file w fn -> link_ok fn ->
  exists w', upload_one self (photo_entry fn size) w = (Ok tt, w') /\
    w_files w' = w_files w /\ w_dirs w' = w_dirs w /\
    w_trace w' = w_trace w ++ upload_requests (w_files w) fn /\
    disk (w_net w') = <[remote_path fn := staged_bytes (w_files w) fn]> (disk (w_net w)).
Proof.
  intros (Hdir & Hfn & [d Hd]) Hok.
  destruct (answers_link (w_net w) fn Hok) as (srv1 & r1 & body & H1 & Hj & Hhref & Hu & Hk1).
  destruct (accepts_put srv1 _ d Hu) as (srv2 & r2 & H2 & Hk2).
  rewrite (upload_one_step self w fn size d srv1 r1 body _ srv2 r2 Hdir Hfn Hd H1 Hj Hhref Hu H2).
  eexists. split; [reflexivity|]. simpl.
  unfold upload_requests, staged_bytes. rewrite Hd. simpl. by rewrite Hk2, Hk1.
Qed.

(** The run of the upload loop on staged entries. *)
Lemma upload_photos_run (entries : list (string * json)) w :
  Forall (fun e => staged_file w e.1) entries ->
  Forall (fun e => link_ok e.1) entries ->
  exists w', upload_photos self (map (fun e => photo_entry e.1 e.2) entries) w = (Ok tt, w') /\
    w_files w' = w_files w /\ w_dirs w' = w_dirs w /\
    w_trace w' = w_trace w ++ mjoin (map (fun e => upload_requests (w_files w) e.1) entries) /\
    disk (w_net w') = published (w_files w) (map fst entries) (disk (w_net w)).
Proof.
  revert w. induction entries as [|[fn size] entries IH]; intros w Hall Hoks; simpl.
  { exists w. by rewrite app_nil_r. }
  apply Forall_cons in Hall as [Hfn Hall]. apply Forall_cons in Hoks as [Hok Hoks].
  destruct (upload_one_entry w fn size Hfn Hok) as (w1 & H1 & Hf1 & Hd1 & Ht1 & Hk1).
  unfold bind at 1. rewrite H1.
  destruct (IH w1) as (w2 & H2 & Hf2 & Hd2 & Ht2 & Hk2); [|done|].
  { eapply Forall_impl; [exact Hall|]. intros e. by apply staged_file_same. }
  exists w2. rewrite H2. split; [done|]. split; [congruence|]. split; [congruence|].
  split.
  - rewrite Ht2, Ht1, Hf1. by rewrite <-app_assoc.
  - rewrite Hk2, Hf1, Hk1. done.
Qed.

(** C5: [upload_photos] uploads the staged files in the order of the
    list: for each entry it sends the upload-URL request for
    [<folder>/<file_name>] and then a [PUT] of the bytes of
    [images_vk/<file_name>] to the URL the answer gives, two requests
    per entry and nothing else; local files are unchanged, and the disk
    then holds the staged bytes of each entry at its remote path. *)
Theorem upload_photos_trace (entries : list (string * json)) w :
  Forall (fun e => staged_file w e.1) entries ->
  Forall (fun e => link_ok e.1) entries ->
  exists w', upload_photos self (map (fun e => photo_entry e.1 e.2) entries) w = (Ok tt, w') /\
    w_files w' = w_files w /\ w_dirs w' = w_dirs w /\
    w_trace w' = w_trace w ++ mjoin (map (fun e => upload_requests (w_files w) e.1) entries) /\
    disk (w_net w') = published (w_files w) (map fst entries) (disk (w_net w)).
Proof. apply upload_photos_run. Qed.

(** When the upload-URL request for [x] fails, the loop stops there:
    the files before it stay uploaded, nothing is undone, and no request
    is sent for the files after it. *)
Lemma upload_photos_fails entries x rest w e :
  Forall (fun e => staged_file w e.1) entries ->
  Forall (fun e => link_ok e.1) entries ->
  staged_file w x.1 ->
  (forall srv, exists srv', http_handle srv (upload_link_request self x.1) = (srv', Raise e) /\
                            disk srv' = disk srv) ->
  exists w', upload_photos self (map (fun e => photo_entry e.1 e.2) (entries ++ x :: rest)) w =
               (Raise e, w') /\
    w_files w' = w_files w /\ w_dirs w' = w_dirs w /\
    w_trace w' = w_trace w ++ mjoin (map (fun e => upload_requests (w_files w) e.1) entries)
                           ++ [EvRequest (upload_link_request self x.1)] /\
    disk (w_net w') = published (w_files w) (map fst entries) (disk (w_net w)).
Proof.
  intros Hall Hoks (Hdir & Hfn & [d Hx]) Hfail. rewrite map_app, upload_photos_app.
  destruct (upload_photos_run entries w Hall Hoks) as (w1 & H1 & Hf1 & Hd1 & Ht1 & Hk1).
  unfold bind at 1. rewrite H1. destruct (Hfail (w_net w1)) as (srv' & Hh & Hk).
  destruct x as [fn size]. simpl in *. unfold bind at 1.
  rewrite (upload_one_link_fails self w1 fn size d srv' e) by (by rewrite ?Hf1, ?Hd1 || done).
  eexists. split; [reflexivity|]. simpl. rewrite Hf1, Hd1, Ht1, Hk, Hk1. by rewrite <-app_assoc.
Qed.

Lemma remote_path_inj fn fn' : remote_path fn = remote_path fn' -> fn = fn'.
Proof. unfold remote_path. intros H%append_inj_l. by injection H. Qed.

Lemma published_keeps files fns d fn :
  d !! remote_path fn = Some (staged_bytes files fn) ->
  published files fns d !! remote_path fn = Some (staged_bytes files fn).
Proof.
  revert d. induction fns as [|x fns IH]; intros d Hd; simpl; [done|]. apply IH.
  destruct (decide (remote_path x = remote_path fn)) as [Heq|Hne].
  - rewrite Heq, lookup_insert_eq. by rewrite (remote_path_inj _ _ Heq).
  - by rewrite lookup_insert_ne.
Qed.

(** Every uploaded file is on the disk with its staged bytes, whatever
    was uploaded after it (a later upload of the same name sends the
    same bytes). *)
Lemma published_lookup files fns d fn :
  fn ∈ fns -> published files fns d !! remote_path fn = Some (staged_bytes files fn).
Proof.
  revert d. induction fns as [|x fns IH]; intros d Hin; [by apply elem_of_nil in Hin|].
  apply elem_of_cons in Hin as [->|Hin]; simpl; [|by apply IH].
  apply published_keeps. by rewrite lookup_insert_eq.
Qed.
End Upload.

Section UploadErrors.
Context {Srv : Type} `{!HttpServer Srv}.
Implicit Types (w : world Srv).

(** C12: when the answer to the upload-URL request has no [href] (an
    error body of Yandex.Disk), [requests.put(None, ...)] raises
    [MissingSchema]: the exception is not caught, the file is not
    uploaded and the run stops after the one request. *)
Theorem upload_one_no_href self w fn size d srv' r body :
  staging_dir ∈ w_dirs w -> plain fn -> w_files w !! ("images_vk/" +:+ fn) = Some d ->
  http_handle (w_net w) (upload_link_request self fn) = (srv', Ok r) ->
  resp_json r = Some body -> get body "href" = Ok JNull ->
  upload_one self (photo_entry fn size) w =
    (Raise MissingSchema,
     World (w_dirs w) (w_files w) srv' (w_stdin w)
       (w_trace w ++ [EvRequest (upload_link_request self fn)])).
Proof.
  intros Hdir Hfn Hd Hh Hj Hhref. unfold upload_one, bind, lift. simpl.
  rewrite (open_read_staged _ _ _ Hdir Hfn Hd).
  rewrite (http_step _ (upload_link_request self fn) _ _ eq_refl Hh).
  unfold resp_json_of. rewrite Hj, Hhref. reflexivity.
Qed.

(** A staged file that is missing stops the upload before any request. *)
Lemma upload_one_missing_file self w fn size :
  staging_dir ∈ w_dirs w -> plain fn ->
  w_files w !! ("images_vk/" +:+ fn) = None ->
  ("images_vk/" +:+ fn) ∉ w_dirs w ->
  upload_one self (photo_entry fn size) w = (Raise (FileNotFoundError ("images_vk/" +:+ fn)), w).
Proof.
  intros Hdir Hfn Hf Hd. unfold upload_one, bind, lift, open_read. simpl.
  change ("images_vk/" +:+ fn) with (staging_dir +:+ "/" +:+ fn).
  rewrite (resolve_join w staging_dir fn plain_staging_dir Hfn Hdir).
  change (join_path [staging_dir; fn]) with ("images_vk/" +:+ fn).
  rewrite Hf, dir_at_pair by done. by rewrite bool_decide_false.
Qed.
End UploadErrors.

(** ** Concrete runs *)

Definition sample_uploader : YaUploader := MkYaUploader "ya-token" "backup".

Lemma fake_answers_link (srv : fake_srv) (self : YaUploader) (fn : string) :
  exists srv' r body,
    http_handle srv (upload_link_request self fn) = (srv', Ok r) /\
    resp_json r = Some body /\ get body "href" = Ok (JStr (fake_link (remote_path self fn))) /\
    url_ok (fake_link (remote_path self fn)) = true /\ fk_disk srv' = fk_disk srv.
Proof. do 3 eexists. split; [reflexivity|]. split; [reflexivity|]. by split. Qed.

Lemma create_folder_continues_witness :
  exists w', create_folder sample_uploader (fake_world JNull 409 []) = (Ok tt, w') /\
    (folder_status_of (Response 409 EmptyString None) = FolderExists <->
       status_code (Response 409 EmptyString None) = 409%Z).
Proof.
  edestruct (create_folder_continues sample_uploader (fake_world JNull 409 [])
               (FakeSrv JNull 409 ∅) (Response 409 EmptyString None)) as (H1 & _ & H2 & _).
  - reflexivity.
  - eexists. split; [exact H1|exact H2].
Defined.

Definition sample_staged : gmap string string :=
  <["images_vk/42.jpg" := "bytes of x"]> (<["images_vk/5.jpg" := "bytes of s"]> ∅).

Lemma upload_photos_trace_witness :
  exists w', upload_photos sample_uploader
               (map (fun e => photo_entry e.1 e.2) [("42.jpg", JStr "x"); ("5.jpg", JStr "s")])
               (World {[staging_dir]} sample_staged (FakeSrv JNull 201 ∅) [] []) = (Ok tt, w') /\
    w_files w' = sample_staged /\ w_dirs w' = {[staging_dir]} /\
    w_trace w' = [] ++ mjoin (map (fun e => upload_requests sample_uploader fake_link sample_staged e.1)
                                  [("42.jpg", JStr "x"); ("5.jpg", JStr "s")]) /\
    fk_disk (w_net w') = published sample_uploader sample_staged
                           (map fst [("42.jpg", JStr "x"); ("5.jpg", JStr "s")]) ∅.
Proof.
  apply (upload_photos_trace sample_uploader fk_disk fake_link (fun _ => True)
           (fun srv fn _ => fake_answers_link srv sample_uploader fn) fake_accepts_put);
    repeat constructor; try (eexists; reflexivity); try set_solver;
    (repeat constructor; discriminate) || reflexivity.
Defined.

Lemma upload_one_no_href_witness :
  upload_one sample_uploader (photo_entry "42.jpg" (JStr "x"))
    (World {[staging_dir]} sample_staged Refusing [] []) =
  (Raise MissingSchema,
   World {[staging_dir]} sample_staged Refusing []
     ([] ++ [EvRequest (upload_link_request sample_uploader "42.jpg")])).
Proof.
  assert (Hdir : staging_dir ∈ w_dirs (World (Srv:=refusing_srv) {[staging_dir]} sample_staged Refusing [] []))
    by (simpl; set_solver).
  assert (Hfn : plain "42.jpg") by (apply (plain_jpg "42"); repeat constructor; discriminate).
  exact (upload_one_no_href sample_uploader (World {[staging_dir]} sample_staged Refusing [] []) "42.jpg"
           (JStr "x") "bytes of x" Refusing refusal (JObj [("error", JStr "UnauthorizedError")])
           Hdir Hfn eq_refl eq_refl eq_refl eq_refl).
Defined.

(** C14: only the statuses are handled: when the folder request cannot
    be sent (a connection error), [create_folder] raises it and the run
    stops before any upload. *)
Theorem create_folder_unreachable {Srv} `{!HttpServer Srv} self (w : world Srv) srv' e :
  http_handle (w_net w) (folder_request self) = (srv', Raise e) ->
  create_folder self w =
    (Raise e, World (w_dirs w) (w_files w) srv' (w_stdin w)
                (w_trace w ++ [EvRequest (folder_request self)])).
Proof.
  intros Hh. unfold create_folder, bind.
  by rewrite (http_step _ (folder_request self) _ _ eq_refl Hh).
Qed.

Lemma create_folder_unreachable_witness :
  create_folder sample_uploader (World ∅ ∅ Offline [] []) =
    (Raise ConnectionError,
     World ∅ ∅ Offline [] ([] ++ [EvRequest (folder_request sample_uploader)])).
Proof.
  apply (create_folder_unreachable sample_uploader (World ∅ ∅ Offline [] []) Offline ConnectionError).
  reflexivity.
Defined.
