(* ===== verification/Manifest.v ===== *)
(** * The manifest writer: [json.dump(photos, file, indent=4)]

    The last step of [main] (src/program.py, lines 96-97) writes the list
    of entries to [photos.json] with the standard library's encoder:
    [indent=4] puts every item of a non-empty list or dict on a line of
    its own, indented by four spaces per level, with the separators
    [","] and [": "]; [ensure_ascii] (the default) writes every character
    outside printable ASCII (a control character, DEL or non-ASCII) as
    [\uXXXX] unless it has a short escape (a surrogate pair above U+FFFF).  Model
    strings are the UTF-8 bytes of the Python string, decoded here to
    code points. *)

From stdpp Require Import base list strings.
From Stdlib Require Import ZArith NArith Ascii.
From S2P Require Import Prelude PyJson.

(** ** Code points of a UTF-8 string *)

Local Open Scope N_scope.

Definition cont (c : ascii) : option N :=
  let n := N_of_ascii c in if (128 <=? n) && (n <? 192) then Some (n - 128) else None.

(** The code points of a string, from its UTF-8 bytes.  A byte that does
    not start a valid sequence stands for itself (a Python [str] is
    always valid, so this case does not arise for decoded JSON). *)
Fixpoint code_points (cs : list ascii) : list N :=
  match cs with
  | [] => []
  | c :: rest =>
      let n := N_of_ascii c in
      if n <? 128 then n :: code_points rest
      else match rest with
           | c1 :: rest1 =>
               match cont c1 with
               | Some b1 =>
                   if (192 <=? n) && (n <? 224) then ((n - 192) * 64 + b1) :: code_points rest1
                   else match rest1 with
                        | c2 :: rest2 =>
                            match cont c2 with
                            | Some b2 =>
                                if (224 <=? n) && (n <? 240)
                                then ((n - 224) * 4096 + b1 * 64 + b2) :: code_points rest2
                                else match rest2 with
                                     | c3 :: rest3 =>
                                         match cont c3 with
                                         | Some b3 =>
                                             if (240 <=? n) && (n <? 248)
                                             then ((n - 240) * 262144 + b1 * 4096 + b2 * 64 + b3)
                                                    :: code_points rest3
                                             else n :: code_points rest
                                         | None => n :: code_points rest
                                         end
                                     | [] => n :: code_points rest
                                     end
                            | None => n :: code_points rest
                            end
                        | [] => n :: code_points rest
                        end
               | None => n :: code_points rest
               end
           | [] => n :: code_points rest
           end
  end.

(** ** The encoder *)

Definition hexd (n : N) : ascii := hex_digit (N.to_nat (n mod 16)).

Definition hex4 (n : N) : string :=
  String (hexd (n / 4096)) (String (hexd (n / 256))
    (String (hexd (n / 16)) (String (hexd n) EmptyString))).

Definition bslash : ascii := "\"%char.

(** One code point inside a JSON string literal, with [ensure_ascii]. *)
Definition json_escape_cp (n : N) : string :=
  if n =? 34 then String bslash (String (ascii_of_N 34) EmptyString)
  else if n =? 92 then String bslash (String bslash EmptyString)
  else if n =? 10 then String bslash "n"
  else if n =? 13 then String bslash "r"
  else if n =? 9 then String bslash "t"
  else if n =? 8 then String bslash "b"
  else if n =? 12 then String bslash "f"
  else if (n <? 32) || (126 <? n) then
    if n <? 65536 then String bslash (String "u"%char (hex4 n))
    else let m := n - 65536 in
         String bslash (String "u"%char (hex4 (55296 + m / 1024)))
           +:+ String bslash (String "u"%char (hex4 (56320 + m mod 1024)))
  else String (ascii_of_N n) EmptyString.

Local Close Scope N_scope.

Definition json_string (s : string) : string :=
  String (ascii_of_nat 34)
    (String.concat EmptyString (map json_escape_cp (code_points (String.list_ascii_of_string s)))
     +:+ String (ascii_of_nat 34) EmptyString).

Definition newline : string := String (ascii_of_nat 10) EmptyString.

Definition indent_str (n : nat) : string := str_repeat n "    ".

(** [json.dumps(v, indent=4)] at nesting [level]. *)
Fixpoint dumps_at (level : nat) (v : json) : string :=
  match v with
  | JNull => "null"
  | JBool true => "true"
  | JBool false => "false"
  | JInt z => int_str z
  | JStr s => json_string s
  | JList [] => "[]"
  | JList l =>
      "[" +:+ newline +:+ indent_str (S level)
      +:+ String.concat ("," +:+ newline +:+ indent_str (S level)) (map (dumps_at (S level)) l)
      +:+ newline +:+ indent_str level +:+ "]"
  | JObj [] => "{}"
  | JObj fs =>
      "{" +:+ newline +:+ indent_str (S level)
      +:+ String.concat ("," +:+ newline +:+ indent_str (S level))
            (map (fun kv => json_string kv.1 +:+ ": " +:+ dumps_at (S level) kv.2) fs)
      +:+ newline +:+ indent_str level +:+ "}"
  end.

Definition json_dumps (v : json) : string := dumps_at 0 v.
