(* ===== verification/JsonRead.v ===== *)
(** * Reading the manifest back: a JSON reader and the round trip

    [photos.json] is written for external consumers (spec.md calls it a
    write-only artifact of the run), who load it with [json.load].  This
    file gives a JSON reader for
    the values the program writes (null, booleans, integers, strings,
    lists and objects; no fractions or exponents, which the program never
    writes) and proves that it reads back every value that
    [json.dumps(v, indent=4)] writes (Manifest.v), whenever the strings of
    the value are valid UTF-8, as every Python [str] is.  The reader
    decodes [\uXXXX] escapes, surrogate pairs included, to UTF-8 bytes
    and rejects a lone surrogate, which the writer never produces from a
    valid string.  The fuel of [parse_value] is the length of the input;
    [jsize_le_dumps] shows it is enough.  The last theorem shows that the
    writer's text is ASCII for every value, as [ensure_ascii] promises. *)

From stdpp Require Import base list strings.
From Stdlib Require Import ZArith NArith Ascii Lia.
From Stdlib Require DecimalString.
From S2P Require Import Prelude PyJson World Manifest.

(** ** UTF-8 *)

Local Open Scope N_scope.

(** The UTF-8 bytes of one code point. *)
Definition utf8_cp (n : N) : list ascii :=
  if n <? 128 then [ascii_of_N n]
  else if n <? 2048 then [ascii_of_N (192 + n / 64); ascii_of_N (128 + n mod 64)]
  else if n <? 65536 then
    [ascii_of_N (224 + n / 4096); ascii_of_N (128 + (n / 64) mod 64); ascii_of_N (128 + n mod 64)]
  else [ascii_of_N (240 + n / 262144); ascii_of_N (128 + (n / 4096) mod 64);
        ascii_of_N (128 + (n / 64) mod 64); ascii_of_N (128 + n mod 64)].

Definition utf8_encode (cps : list N) : list ascii := mjoin (map utf8_cp cps).

Definition in_range (lo hi n : N) : bool := (lo <=? n) && (n <? hi).

(** A Unicode scalar value: a code point that is not a surrogate. *)
Definition scalarb (n : N) : bool := (n <? 1114112) && negb (in_range 55296 57344 n).

(** A valid string: its bytes are the UTF-8 encoding of scalar values. *)
Definition utf8_validb (s : string) : bool :=
  let cs := String.list_ascii_of_string s in
  bool_decide (utf8_encode (code_points cs) = cs) && forallb scalarb (code_points cs).

(** ** Lexical pieces *)

Definition hex_val (c : ascii) : option N :=
  let n := N_of_ascii c in
  if (48 <=? n) && (n <? 58) then Some (n - 48)
  else if (97 <=? n) && (n <? 103) then Some (n - 87)
  else if (65 <=? n) && (n <? 71) then Some (n - 55)
  else None.

Definition hex4_val (a b c d : ascii) : option N :=
  match hex_val a, hex_val b, hex_val c, hex_val d with
  | Some x, Some y, Some z, Some w => Some (4096 * x + 256 * y + 16 * z + w)
  | _, _, _, _ => None
  end.

(** The one-character escapes of JSON. *)
Definition simple_escape (e : ascii) : option ascii :=
  let n := N_of_ascii e in
  if n =? 34 then Some (ascii_of_N 34)
  else if n =? 92 then Some bslash
  else if n =? 47 then Some (ascii_of_N 47)
  else if n =? 110 then Some (ascii_of_N 10)
  else if n =? 114 then Some (ascii_of_N 13)
  else if n =? 116 then Some (ascii_of_N 9)
  else if n =? 98 then Some (ascii_of_N 8)
  else if n =? 102 then Some (ascii_of_N 12)
  else None.

Definition cons_out {A} (pre : list ascii) (o : option (list ascii * A)) : option (list ascii * A) :=
  match o with
  | Some (out, rest) => Some (pre ++ out, rest)
  | None => None
  end.

(** The body of a string literal after its opening quote: the decoded
    bytes and the input after the closing quote. *)
Fixpoint parse_str (cs : list ascii) : option (list ascii * list ascii) :=
  match cs with
  | [] => None
  | c :: r =>
      if N_of_ascii c =? 34 then Some ([], r)
      else if N_of_ascii c =? 92 then
        match r with
        | [] => None
        | e :: r1 =>
            if N_of_ascii e =? 117 then
              match r1 with
              | a :: b :: c1 :: d :: r2 =>
                  match hex4_val a b c1 d with
                  | None => None
                  | Some h =>
                      if in_range 55296 56320 h then
                        match r2 with
                        | x :: y :: a' :: b' :: c' :: d' :: r3 =>
                            if (N_of_ascii x =? 92) && (N_of_ascii y =? 117) then
                              match hex4_val a' b' c' d' with
                              | Some l =>
                                  if in_range 56320 57344 l
                                  then cons_out (utf8_cp (65536 + (h - 55296) * 1024 + (l - 56320)))
                                         (parse_str r3)
                                  else None
                              | None => None
                              end
                            else None
                        | _ => None
                        end
                      else if in_range 56320 57344 h then None
                      else cons_out (utf8_cp h) (parse_str r2)
                  end
              | _ => None
              end
            else match simple_escape e with
                 | Some b => cons_out [b] (parse_str r1)
                 | None => None
                 end
        end
      else cons_out [c] (parse_str r)
  end.

(** ** Values *)

Definition is_ws (c : ascii) : bool :=
  let n := N_of_ascii c in (n =? 32) || (n =? 10) || (n =? 13) || (n =? 9).

Fixpoint skip_ws (cs : list ascii) : list ascii :=
  match cs with
  | c :: r => if is_ws c then skip_ws r else cs
  | [] => []
  end.

(** The rest of a literal keyword. *)
Fixpoint expect (lit cs : list ascii) : option (list ascii) :=
  match lit with
  | [] => Some cs
  | a :: lit' =>
      match cs with
      | b :: cs' => if Ascii.eqb a b then expect lit' cs' else None
      | [] => None
      end
  end.

Definition is_num_char (c : ascii) : bool :=
  let n := N_of_ascii c in (n =? 45) || in_range 48 58 n.

(** The longest prefix of number characters. *)
Fixpoint span_num (cs : list ascii) : list ascii * list ascii :=
  match cs with
  | c :: r => if is_num_char c then let (t, rest) := span_num r in (c :: t, rest) else ([], cs)
  | [] => ([], [])
  end.

Definition parse_int (tok : list ascii) : option Z :=
  option_map Z.of_int (DecimalString.NilZero.int_of_string (String.string_of_list_ascii tok)).

Local Close Scope N_scope.

Definition lit (s : string) : list ascii := String.list_ascii_of_string s.

(** A value, a list's items after its [\[], an object's fields after its
    [{]; [fuel] bounds the depth of calls and every call consumes input,
    so the length of the input is enough. *)
Fixpoint parse_value (fuel : nat) (cs : list ascii) : option (json * list ascii) :=
  match fuel with
  | O => None
  | S f =>
      match skip_ws cs with
      | [] => None
      | c :: r =>
          let n := N_of_ascii c in
          if (n =? 110)%N then option_map (fun r' => (JNull, r')) (expect (lit "ull") r)
          else if (n =? 116)%N then option_map (fun r' => (JBool true, r')) (expect (lit "rue") r)
          else if (n =? 102)%N then option_map (fun r' => (JBool false, r')) (expect (lit "alse") r)
          else if (n =? 34)%N then
            match parse_str r with
            | Some (s, r') => Some (JStr (String.string_of_list_ascii s), r')
            | None => None
            end
          else if (n =? 91)%N then
            match skip_ws r with
            | c' :: r' =>
                if (N_of_ascii c' =? 93)%N then Some (JList [], r')
                else option_map (fun p => (JList p.1, p.2)) (parse_items f r)
            | [] => None
            end
          else if (n =? 123)%N then
            match skip_ws r with
            | c' :: r' =>
                if (N_of_ascii c' =? 125)%N then Some (JObj [], r')
                else option_map (fun p => (JObj p.1, p.2)) (parse_fields f r)
            | [] => None
            end
          else let (tok, r') := span_num (c :: r) in
               option_map (fun z => (JInt z, r')) (parse_int tok)
      end
  end
with parse_items (fuel : nat) (cs : list ascii) : option (list json * list ascii) :=
  match fuel with
  | O => None
  | S f =>
      match parse_value f cs with
      | Some (v, r) =>
          match skip_ws r with
          | c :: r' =>
              if (N_of_ascii c =? 44)%N then option_map (fun p => (v :: p.1, p.2)) (parse_items f r')
              else if (N_of_ascii c =? 93)%N then Some ([v], r')
              else None
          | [] => None
          end
      | None => None
      end
  end
with parse_fields (fuel : nat) (cs : list ascii) : option (list (string * json) * list ascii) :=
  match fuel with
  | O => None
  | S f =>
      match skip_ws cs with
      | c :: r =>
          if (N_of_ascii c =? 34)%N then
            match parse_str r with
            | Some (k, r1) =>
                match skip_ws r1 with
                | c1 :: r2 =>
                    if (N_of_ascii c1 =? 58)%N then
                      match parse_value f r2 with
                      | Some (v, r3) =>
                          let kv := (String.string_of_list_ascii k, v) in
                          match skip_ws r3 with
                          | c3 :: r4 =>
                              if (N_of_ascii c3 =? 44)%N
                              then option_map (fun p => (kv :: p.1, p.2)) (parse_fields f r4)
                              else if (N_of_ascii c3 =? 125)%N then Some ([kv], r4)
                              else None
                          | [] => None
                          end
                      | None => None
                      end
                    else None
                | [] => None
                end
            | None => None
            end
          else None
      | [] => None
      end
  end.

(** [json.loads]: one value, then only whitespace. *)
Definition json_loads (s : string) : option json :=
  let cs := String.list_ascii_of_string s in
  match parse_value (length cs) cs with
  | Some (v, r) => if bool_decide (skip_ws r = []) then Some v else None
  | None => None
  end.

(** The same reader with the fuel given: what a reader bounded by [fuel]
    nested calls answers. *)
Definition json_loads_at (fuel : nat) (s : string) : option json :=
  let cs := String.list_ascii_of_string s in
  match parse_value fuel cs with
  | Some (v, r) => if bool_decide (skip_ws r = []) then Some v else None
  | None => None
  end.

(** Every byte of the text is below 128. *)
Definition is_ascii (s : string) : bool :=
  forallb (fun c => N_of_ascii c <? 128)%N (String.list_ascii_of_string s).

(** Every string of the value is valid UTF-8. *)
Fixpoint texts_valid (v : json) : bool :=
  match v with
  | JStr s => utf8_validb s
  | JList l => forallb texts_valid l
  | JObj fs => forallb (fun kv => utf8_validb kv.1 && texts_valid kv.2) fs
  | _ => true
  end.

(** The fuel a value needs: one call per value, one per list item or
    object field. *)
Fixpoint jsize (v : json) : nat :=
  match v with
  | JList l => 2 + sum_list (map jsize l)
  | JObj fs => 2 + sum_list (map (fun kv => jsize kv.2) fs)
  | _ => 1
  end.

(** ** The reading-back property *)

Local Abbreviation la := String.list_ascii_of_string.
Abbreviation all_ws cs := (Forall (fun c => is_ws c = true) cs).
Abbreviation ascii_bytes cs := (Forall (fun c => (N_of_ascii c < 128)%N) cs).
Local Abbreviation item_sep lvl := ("," +:+ newline +:+ indent_str (S lvl)).
Local Abbreviation field_dump lvl :=
  (fun kv : string * json => json_string kv.1 +:+ ": " +:+ dumps_at (S lvl) kv.2).

(** What may follow a value: anything that does not extend a number. *)
Definition stops (rest : list ascii) : Prop :=
  match rest with [] => True | c :: _ => is_num_char c = false end.

(** The text of [v] at nesting [lvl], followed by [rest], reads as [v]
    with [rest] left over, given the fuel [v] needs. *)
Definition reads_back (lvl : nat) (v : json) : Prop :=
  forall fuel rest, (jsize v <= fuel)%nat -> stops rest ->
  parse_value fuel (la (dumps_at lvl v) ++ rest) = Some (v, rest).

Definition field_reads_back (lvl : nat) (kv : string * json) : Prop :=
  utf8_validb kv.1 = true /\ reads_back (S lvl) kv.2.

(** A reader [p] that answers with fuel [f] consumes input, and answers
    the same with any fuel at least the length it consumed. *)
Definition fuel_ok {A} (p : nat -> list ascii -> option (A * list ascii)) (f : nat) : Prop :=
  forall cs x r, p f cs = Some (x, r) ->
    length r < length cs /\
    forall f', length cs - length r <= f' -> p f' cs = Some (x, r).

(** ** Lemmas *)

Local Open Scope N_scope.

Lemma hex_val_digit (k : N) : k < 16 -> hex_val (hex_digit (N.to_nat k)) = Some k.
Proof.
  intros Hk. rewrite <- (N2Nat.id k) at 2. assert (Hj : (N.to_nat k < 16)%nat) by lia.
  generalize (N.to_nat k) Hj. clear. intros j Hj.
  do 16 (destruct j as [|j]; [reflexivity|]). lia.
Qed.
Lemma hex_val_hexd n : hex_val (hexd n) = Some (n mod 16).
Proof. apply hex_val_digit. apply N.mod_lt. lia. Qed.
Lemma hex4_val_hex4 n : n < 65536 ->
  hex4_val (hexd (n / 4096)) (hexd (n / 256)) (hexd (n / 16)) (hexd n) = Some n.
Proof.
  intros Hn. unfold hex4_val. rewrite !hex_val_hexd. f_equal.
  pose proof (N.div_mod' n 16) as H1. pose proof (N.div_mod' (n / 16) 16) as H2.
  pose proof (N.div_mod' (n / 256) 16) as H3.
  rewrite N.Div0.div_div in H2, H3. rewrite (N.mod_small (n / 4096)).
  - change (16 * 16) with 256 in H2. change (256 * 16) with 4096 in H3. lia.
  - apply N.Div0.div_lt_upper_bound. lia.
Qed.
Lemma scalarb_spec n : scalarb n = true <-> n < 1114112 /\ ~ (55296 <= n < 57344).
Proof.
  unfold scalarb, in_range.
  rewrite andb_true_iff, negb_true_iff, andb_false_iff, N.ltb_lt, N.leb_gt, N.ltb_ge.
  lia.
Qed.
(** [lia] does not see through sums of [N] divisions; name them first. *)
Ltac nlia :=
  repeat match goal with
  | H : context [?a mod ?b] |- _ => let y := fresh "y" in set (y := a mod b) in *; clearbody y
  | |- context [?a mod ?b] => let y := fresh "y" in set (y := a mod b) in *; clearbody y
  | H : context [?a / ?b] |- _ => let y := fresh "y" in set (y := a / b) in *; clearbody y
  | |- context [?a / ?b] => let y := fresh "y" in set (y := a / b) in *; clearbody y
  end; lia.
Lemma in_range_true lo hi n : lo <= n < hi -> in_range lo hi n = true.
Proof. intros. unfold in_range. apply andb_true_iff. rewrite N.leb_le, N.ltb_lt. lia. Qed.
Lemma in_range_false lo hi n : ~ (lo <= n < hi) -> in_range lo hi n = false.
Proof. intros. unfold in_range. apply andb_false_iff. rewrite N.leb_gt, N.ltb_ge. lia. Qed.

(** Decide the range tests of the goal whose outcome the context fixes. *)
Ltac ranges :=
  repeat match goal with
  | |- context [in_range ?lo ?hi ?t] =>
      first [rewrite (in_range_true lo hi t) by nlia | rewrite (in_range_false lo hi t) by nlia]
  end; cbn iota beta.

Local Arguments hex4_val : simpl never.
Local Arguments utf8_cp : simpl never.
Local Arguments in_range : simpl never.

Lemma parse_escape_cp n tail : scalarb n = true ->
  parse_str (String.list_ascii_of_string (json_escape_cp n) ++ tail)
  = cons_out (utf8_cp n) (parse_str tail).
Proof.
  rewrite scalarb_spec. intros Hn. unfold json_escape_cp.
  destruct (N.eqb_spec n 34) as [->|?]; [reflexivity|].
  destruct (N.eqb_spec n 92) as [->|?]; [reflexivity|].
  destruct (N.eqb_spec n 10) as [->|?]; [reflexivity|].
  destruct (N.eqb_spec n 13) as [->|?]; [reflexivity|].
  destruct (N.eqb_spec n 9) as [->|?]; [reflexivity|].
  destruct (N.eqb_spec n 8) as [->|?]; [reflexivity|].
  destruct (N.eqb_spec n 12) as [->|?]; [reflexivity|].
  destruct ((n <? 32) || (126 <? n)) eqn:Hesc.
  - destruct (N.ltb_spec n 65536).
    + simpl. rewrite hex4_val_hex4 by lia. ranges. reflexivity.
    + assert (Hm : (n - 65536) / 1024 < 1024) by (apply N.Div0.div_lt_upper_bound; lia).
      assert (Hl : (n - 65536) mod 1024 < 1024) by (apply N.mod_lt; lia).
      rewrite list_ascii_of_string_app. simpl. rewrite !hex4_val_hex4 by lia. ranges.
      do 2 f_equal. pose proof (N.div_mod' (n - 65536) 1024). nlia.
  - apply orb_false_iff in Hesc as [H1 H2]. apply N.ltb_ge in H1, H2.
    simpl. rewrite N_ascii_embedding by lia.
    rewrite (proj2 (N.eqb_neq _ _) n0), (proj2 (N.eqb_neq _ _) n1).
    unfold utf8_cp. rewrite (proj2 (N.ltb_lt n 128)) by lia. reflexivity.
Qed.


Lemma la_concat_empty l : la (String.concat EmptyString l) = mjoin (map la l).
Proof.
  induction l as [|x [|y l] IH]; [done|simpl; by rewrite app_nil_r|].
  change (String.concat EmptyString (x :: y :: l)) with (x +:+ String.concat EmptyString (y :: l)).
  rewrite list_ascii_of_string_app, IH. reflexivity.
Qed.

Lemma parse_escapes cps rest : Forall (fun n => scalarb n = true) cps ->
  parse_str (mjoin (map (fun n => la (json_escape_cp n)) cps) ++ dquote :: rest)
  = Some (utf8_encode cps, rest).
Proof.
  induction 1 as [|n cps Hn _ IH]; [reflexivity|].
  simpl. rewrite <-app_assoc, parse_escape_cp, IH by done. reflexivity.
Qed.

Lemma utf8_validb_spec s : utf8_validb s = true ->
  utf8_encode (code_points (la s)) = la s /\ Forall (fun n => scalarb n = true) (code_points (la s)).
Proof.
  unfold utf8_validb. rewrite andb_true_iff, bool_decide_eq_true, forallb_forall, Forall_forall.
  intros [H1 H2]. split; [done|]. intros x Hx. apply H2. by apply list_elem_of_In.
Qed.

(** A valid string written by [json_string] reads back as itself. *)
Lemma parse_json_string s rest : utf8_validb s = true ->
  exists body, la (json_string s) ++ rest = dquote :: body /\ parse_str body = Some (la s, rest).
Proof.
  intros [Henc Hsc]%utf8_validb_spec.
  exists (mjoin (map (fun n => la (json_escape_cp n)) (code_points (la s))) ++ dquote :: rest). split.
  - unfold json_string. simpl. rewrite list_ascii_of_string_app, la_concat_empty, map_map.
    simpl. by rewrite <-app_assoc.
  - by rewrite parse_escapes, Henc.
Qed.

(** ** Whitespace and numbers *)


Lemma skip_ws_app ws t : all_ws ws -> skip_ws (ws ++ t) = skip_ws t.
Proof. induction 1 as [|c ws Hc _ IH]; [done|]. simpl. by rewrite Hc. Qed.

Lemma skip_ws_cons c t : is_ws c = false -> skip_ws (c :: t) = c :: t.
Proof. simpl. by intros ->. Qed.

Lemma indent_ws k : all_ws (la (indent_str k)).
Proof.
  induction k as [|k IH]; [constructor|].
  unfold indent_str. simpl. repeat constructor. exact IH.
Qed.

Lemma newline_indent_ws k : all_ws (la (newline +:+ indent_str k)).
Proof. constructor; [done|apply indent_ws]. Qed.

Lemma parse_value_ws fuel ws cs : all_ws ws -> parse_value fuel (ws ++ cs) = parse_value fuel cs.
Proof. intros Hws. destruct fuel; [done|]. simpl. by rewrite skip_ws_app. Qed.

Lemma num_chars_uint d : Forall (fun c => is_num_char c = true) (la (DecimalString.NilEmpty.string_of_uint d)).
Proof. induction d; simpl; constructor; done. Qed.

(** [str(z)] is a non-empty run of number characters. *)
Lemma int_str_chars z :
  exists c t, la (int_str z) = c :: t /\ Forall (fun c => is_num_char c = true) (c :: t).
Proof.
  unfold int_str, DecimalString.NilZero.string_of_int, DecimalString.NilZero.string_of_uint.
  destruct (Z.to_int z) as [d|d]; destruct d; simpl; do 2 eexists; split; try reflexivity;
    repeat constructor; apply num_chars_uint.
Qed.

Lemma span_num_app tok rest :
  Forall (fun c => is_num_char c = true) tok -> stops rest -> span_num (tok ++ rest) = (tok, rest).
Proof.
  intros Htok Hr. induction Htok as [|c tok Hc _ IH]; simpl.
  - destruct rest as [|c rest]; [done|]. simpl in Hr. simpl. by rewrite Hr.
  - by rewrite Hc, IH.
Qed.

Lemma parse_int_str z : parse_int (la (int_str z)) = Some z.
Proof.
  unfold parse_int. rewrite String.string_of_list_ascii_of_string. unfold int_str.
  destruct (to_int_not_nil z) as [Hp Hn]. rewrite DecimalString.NilZero.isi by done.
  simpl. f_equal. apply DecimalZ.of_to.
Qed.

(** ** Reading back what [dumps_at] writes *)

Lemma in_range_spec lo hi n : in_range lo hi n = true <-> lo <= n < hi.
Proof. unfold in_range. rewrite andb_true_iff, N.leb_le, N.ltb_lt. done. Qed.

Lemma num_char_not_ws c : is_num_char c = true -> is_ws c = false /\ (N_of_ascii c =? 93) = false.
Proof.
  unfold is_num_char, is_ws. rewrite orb_true_iff, N.eqb_eq, in_range_spec.
  rewrite !orb_false_iff, !N.eqb_neq. lia.
Qed.

Lemma jsize_pos v : (1 <= jsize v)%nat.
Proof. destruct v; simpl; lia. Qed.


Lemma dumps_head lvl v :
  exists c t, la (dumps_at lvl v) = c :: t /\ is_ws c = false /\ (N_of_ascii c =? 93) = false.
Proof.
  destruct v as [| [] | z | s | [|x l] | [|kv fs]]; try (simpl; eauto; fail).
  destruct (int_str_chars z) as (c & t & Hz & Hc%Forall_cons_1). simpl. rewrite Hz.
  exists c, t. split; [done|]. apply num_char_not_ws, Hc.
Qed.


Lemma close_bytes lvl (b : ascii) rest :
  la (newline +:+ indent_str lvl +:+ String b EmptyString) ++ rest
  = la (newline +:+ indent_str lvl) ++ b :: rest.
Proof. rewrite !list_ascii_of_string_app, <-!app_assoc. reflexivity. Qed.

Lemma concat_cons_bytes sep x l : l <> [] ->
  la (String.concat sep (x :: l)) = la x ++ la sep ++ la (String.concat sep l).
Proof.
  destruct l as [|y l]; [done|]. intros _.
  change (String.concat sep (x :: y :: l)) with (x +:+ sep +:+ String.concat sep (y :: l)).
  by rewrite !list_ascii_of_string_app.
Qed.

Lemma parse_items_dumps lvl xs : Forall (reads_back (S lvl)) xs -> xs <> [] ->
  forall fuel ws rest, all_ws ws -> (S (sum_list (map jsize xs)) <= fuel)%nat ->
  parse_items fuel (ws ++ la (String.concat (item_sep lvl) (map (dumps_at (S lvl)) xs))
                    ++ la (newline +:+ indent_str lvl +:+ "]") ++ rest) = Some (xs, rest).
Proof.
  induction 1 as [|x xs Hx Hxs IH]; intros Hne fuel ws rest Hws Hf; [done|].
  destruct fuel as [|f]; [lia|]. simpl in Hf.
  destruct xs as [|y ys].
  - cbn [parse_items map String.concat]. rewrite close_bytes, parse_value_ws, Hx by (done || lia).
    rewrite skip_ws_app by apply newline_indent_ws. reflexivity.
  - change (map (dumps_at (S lvl)) (x :: y :: ys))
      with (dumps_at (S lvl) x :: map (dumps_at (S lvl)) (y :: ys)).
    rewrite concat_cons_bytes, <-!app_assoc by done. cbn [parse_items].
    rewrite parse_value_ws, Hx by (done || lia).
    change (la (item_sep lvl)) with (","%char :: la (newline +:+ indent_str (S lvl))).
    rewrite <-app_comm_cons, skip_ws_cons by reflexivity. change (N_of_ascii "," =? 44) with true. cbn iota beta.
    pose proof (jsize_pos x). rewrite IH; [done|done|apply newline_indent_ws|lia].
Qed.


Lemma parse_value_ws_cons fuel c cs : is_ws c = true -> parse_value fuel (c :: cs) = parse_value fuel cs.
Proof. intros Hc. apply (parse_value_ws fuel [c]). by constructor. Qed.

Lemma parse_fields_head lvl kv f ws tail :
  field_reads_back lvl kv -> all_ws ws -> (jsize kv.2 <= f)%nat -> stops tail ->
  parse_fields (S f) (ws ++ la (field_dump lvl kv) ++ tail) =
  match skip_ws tail with
  | c3 :: r4 =>
      if (N_of_ascii c3 =? 44)%N then option_map (fun p => (kv :: p.1, p.2)) (parse_fields f r4)
      else if (N_of_ascii c3 =? 125)%N then Some ([kv], r4) else None
  | [] => None
  end.
Proof.
  destruct kv as [k v]; intros [Hk Hv] Hws Hf Ht. cbn [fst snd] in *.
  rewrite (list_ascii_of_string_app (json_string k)), (list_ascii_of_string_app ": "), <-!app_assoc.
  destruct (parse_json_string k (la ": " ++ la (dumps_at (S lvl) v) ++ tail) Hk) as (body & Hb & Hp).
  cbn [parse_fields]. rewrite skip_ws_app, Hb, skip_ws_cons by done.
  change (N_of_ascii dquote =? 34)%N with true. cbn iota beta. rewrite Hp.
  change (la ": " ++ ?t) with (":"%char :: " "%char :: t).
  rewrite skip_ws_cons by reflexivity. change (N_of_ascii ":" =? 58)%N with true. cbn iota beta.
  rewrite parse_value_ws_cons, Hv by done. by rewrite String.string_of_list_ascii_of_string.
Qed.

Lemma parse_fields_dumps lvl fs : Forall (field_reads_back lvl) fs -> fs <> [] ->
  forall fuel ws rest, all_ws ws -> (S (sum_list (map (fun kv => jsize kv.2) fs)) <= fuel)%nat ->
  parse_fields fuel (ws ++ la (String.concat (item_sep lvl) (map (field_dump lvl) fs))
                     ++ la (newline +:+ indent_str lvl +:+ "}") ++ rest) = Some (fs, rest).
Proof.
  induction 1 as [|kv fs Hkv Hfs IH]; intros Hne fuel ws rest Hws Hf; [done|].
  destruct fuel as [|f]; [lia|]. simpl in Hf.
  destruct fs as [|kv' fs].
  - cbn [map String.concat]. rewrite close_bytes, parse_fields_head by (done || lia).
    rewrite skip_ws_app by apply newline_indent_ws. reflexivity.
  - change (map (field_dump lvl) (kv :: kv' :: fs))
      with (field_dump lvl kv :: map (field_dump lvl) (kv' :: fs)).
    rewrite concat_cons_bytes, <-!app_assoc by done.
    rewrite parse_fields_head by (done || lia).
    change (la (item_sep lvl)) with (","%char :: la (newline +:+ indent_str (S lvl))).
    rewrite <-app_comm_cons, skip_ws_cons by reflexivity. change (N_of_ascii "," =? 44)%N with true.
    cbn iota beta. pose proof (jsize_pos kv.2).
    rewrite IH; [done|done|apply newline_indent_ws|lia].
Qed.

Lemma dumps_list_bytes lvl x xs rest :
  la (dumps_at lvl (JList (x :: xs))) ++ rest
  = "["%char :: la (newline +:+ indent_str (S lvl))
      ++ la (String.concat (item_sep lvl) (map (dumps_at (S lvl)) (x :: xs)))
      ++ la (newline +:+ indent_str lvl +:+ "]") ++ rest.
Proof.
  cbn [dumps_at]. rewrite !list_ascii_of_string_app. by rewrite <-!app_assoc.
Qed.

Lemma dumps_obj_bytes lvl kv fs rest :
  la (dumps_at lvl (JObj (kv :: fs))) ++ rest
  = "{"%char :: la (newline +:+ indent_str (S lvl))
      ++ la (String.concat (item_sep lvl) (map (field_dump lvl) (kv :: fs)))
      ++ la (newline +:+ indent_str lvl +:+ "}") ++ rest.
Proof. cbn [dumps_at]. rewrite !list_ascii_of_string_app. by rewrite <-!app_assoc. Qed.

Lemma concat_head sep x l : exists t, la (String.concat sep (x :: l)) = la x ++ t.
Proof.
  destruct l as [|y l]; [exists []; by rewrite app_nil_r|].
  rewrite concat_cons_bytes by done. by eexists.
Qed.

(** The first character after the [\[] of a non-empty list is not [\]]. *)
Lemma skip_ws_items lvl x xs t : exists c r,
  skip_ws (la (String.concat (item_sep lvl) (map (dumps_at (S lvl)) (x :: xs))) ++ t) = c :: r
  /\ (N_of_ascii c =? 93)%N = false.
Proof.
  destruct (concat_head (item_sep lvl) (dumps_at (S lvl) x) (map (dumps_at (S lvl)) xs)) as [u Hu].
  destruct (dumps_head (S lvl) x) as (c & r & Hx & Hws & H93).
  cbn [map]. rewrite Hu, Hx. simpl. rewrite Hws. eauto.
Qed.

(** The first character after the [{] of a non-empty object is a quote. *)
Lemma skip_ws_fields lvl kv fs t : exists r,
  skip_ws (la (String.concat (item_sep lvl) (map (field_dump lvl) (kv :: fs))) ++ t) = dquote :: r.
Proof.
  destruct (concat_head (item_sep lvl) (field_dump lvl kv) (map (field_dump lvl) fs)) as [u Hu].
  cbn [map]. rewrite Hu. simpl. eauto.
Qed.

Lemma parse_value_list_open f cs : parse_value (S f) ("["%char :: cs) =
  match skip_ws cs with
  | c' :: r' => if (N_of_ascii c' =? 93)%N then Some (JList [], r')
                else option_map (fun p => (JList p.1, p.2)) (parse_items f cs)
  | [] => None
  end.
Proof. reflexivity. Qed.

Lemma parse_value_obj_open f cs : parse_value (S f) ("{"%char :: cs) =
  match skip_ws cs with
  | c' :: r' => if (N_of_ascii c' =? 125)%N then Some (JObj [], r')
                else option_map (fun p => (JObj p.1, p.2)) (parse_fields f cs)
  | [] => None
  end.
Proof. reflexivity. Qed.

Lemma parse_value_str_open f cs : parse_value (S f) (dquote :: cs) =
  match parse_str cs with
  | Some (s, r') => Some (JStr (String.string_of_list_ascii s), r')
  | None => None
  end.
Proof. reflexivity. Qed.

Lemma parse_value_num f c cs : is_num_char c = true ->
  parse_value (S f) (c :: cs) =
  let (tok, r') := span_num (c :: cs) in option_map (fun z => (JInt z, r')) (parse_int tok).
Proof.
  intros Hc. destruct (num_char_not_ws c Hc) as [Hws _].
  unfold is_num_char in Hc. rewrite orb_true_iff, N.eqb_eq, in_range_spec in Hc.
  cbn [parse_value]. rewrite skip_ws_cons by done.
  repeat (rewrite (proj2 (N.eqb_neq (N_of_ascii c) _)) by lia; cbn iota beta).
  reflexivity.
Qed.


(** Every value written by [dumps_at] with valid strings reads back. *)
Lemma reads_back_dumps v : texts_valid v = true -> forall lvl, reads_back lvl v.
Proof.
  induction v as [| b | z | s | l IH | fs IH] using json_nested_ind;
    intros Hv lvl [|f] rest Hf Hr; simpl in Hf; try lia.
  - reflexivity.
  - destruct b; reflexivity.
  - destruct (int_str_chars z) as (c & t & Hz & Hc). cbn [dumps_at]. rewrite Hz, <-app_comm_cons.
    rewrite parse_value_num, app_comm_cons, span_num_app by (by inversion Hc || done).
    rewrite <-Hz, parse_int_str. reflexivity.
  - destruct (parse_json_string s rest) as (body & Hb & Hp); [done|]. cbn [dumps_at].
    rewrite Hb, parse_value_str_open, Hp. by rewrite String.string_of_list_ascii_of_string.
  - destruct l as [|x xs]; [reflexivity|].
    rewrite dumps_list_bytes, parse_value_list_open, skip_ws_app by apply newline_indent_ws.
    destruct (skip_ws_items lvl x xs (la (newline +:+ indent_str lvl +:+ "]") ++ rest))
      as (c & r & Hc & H93).
    rewrite Hc, H93. cbn iota beta.
    rewrite parse_items_dumps; [done| |done|apply newline_indent_ws|lia].
    apply (Forall_forallb_impl _ _ texts_valid _ IH Hv). auto.
  - destruct fs as [|kv fs]; [reflexivity|].
    rewrite dumps_obj_bytes, parse_value_obj_open, skip_ws_app by apply newline_indent_ws.
    destruct (skip_ws_fields lvl kv fs (la (newline +:+ indent_str lvl +:+ "}") ++ rest)) as [r Hc].
    rewrite Hc. change (N_of_ascii dquote =? 125)%N with false. cbn iota beta.
    rewrite parse_fields_dumps; [done| |done|apply newline_indent_ws|lia].
    apply (Forall_forallb_impl _ _ _ _ IH Hv).
    intros [k w] Hw [Hk Hw']%andb_true_iff. split; auto.
Qed.

Lemma length_concat_ge sep l :
  (sum_list (map (fun s => length (la s)) l) <= length (la (String.concat sep l)))%nat.
Proof.
  induction l as [|x [|y l] IH]; [simpl; lia|simpl; lia|].
  rewrite concat_cons_bytes, !length_app by done. cbn [map sum_list id] in *. lia.
Qed.

Lemma length_newline t : (1 <= length (la (newline +:+ t)))%nat.
Proof. simpl. lia. Qed.


(** The text of a value is long enough to pay the reader's fuel. *)
Lemma jsize_le_dumps v : forall lvl, (jsize v <= length (la (dumps_at lvl v)))%nat.
Proof.
  induction v as [| b | z | s | l IH | fs IH] using json_nested_ind; intros lvl.
  - simpl. lia.
  - destruct b; simpl; lia.
  - destruct (int_str_chars z) as (c & t & Hz & _). simpl. rewrite Hz. simpl. lia.
  - simpl. lia.
  - destruct l as [|x xs]; [simpl; lia|].
    pose proof (dumps_list_bytes lvl x xs []) as E. rewrite app_nil_r in E. rewrite E.
    pose proof (length_concat_ge (item_sep lvl) (map (dumps_at (S lvl)) (x :: xs))) as Hc.
    rewrite map_map in Hc.
    assert (Hs := sum_list_le jsize (fun y => length (la (dumps_at (S lvl) y))) (x :: xs)
                    (Forall_impl _ _ _ IH (fun y Hy => Hy (S lvl)))).
    cbn [length jsize]. rewrite !length_app. cbn [length sum_list map id] in *.
    pose proof (length_newline (indent_str lvl +:+ "]")). lia.
  - destruct fs as [|kv fs]; [simpl; lia|].
    pose proof (dumps_obj_bytes lvl kv fs []) as E. rewrite app_nil_r in E. rewrite E.
    pose proof (length_concat_ge (item_sep lvl) (map (field_dump lvl) (kv :: fs))) as Hc.
    rewrite map_map in Hc.
    assert (Hs : (sum_list (map (fun kv => jsize kv.2) (kv :: fs))
                  <= sum_list (map (fun kv => length (la (field_dump lvl kv))) (kv :: fs)))%nat).
    { apply sum_list_le. eapply Forall_impl; [exact IH|]. intros [k w] Hw. cbn [fst snd] in *.
      rewrite !list_ascii_of_string_app, !length_app. specialize (Hw (S lvl)). lia. }
    cbn [length jsize]. rewrite !length_app. cbn [length sum_list map id] in *.
    pose proof (length_newline (indent_str lvl +:+ "}")). lia.
Qed.

Lemma num_char_ascii c : is_num_char c = true -> N_of_ascii c < 128.
Proof. unfold is_num_char. rewrite orb_true_iff, N.eqb_eq, in_range_spec. lia. Qed.

Lemma code_points_ascii cs : Forall (fun c => N_of_ascii c < 128) cs -> code_points cs = map N_of_ascii cs.
Proof. induction 1 as [|c cs Hc _ IH]; [done|]. simpl. by rewrite (proj2 (N.ltb_lt _ _) Hc), IH. Qed.

(** A string of ASCII bytes is valid UTF-8. *)
Lemma ascii_validb s : Forall (fun c => N_of_ascii c < 128) (la s) -> utf8_validb s = true.
Proof.
  intros H. unfold utf8_validb. rewrite code_points_ascii by done. apply andb_true_iff. split.
  - apply bool_decide_eq_true. unfold utf8_encode. induction H as [|c cs Hc _ IH]; [done|].
    simpl. rewrite IH. unfold utf8_cp. rewrite (proj2 (N.ltb_lt _ _) Hc), ascii_N_embedding.
    reflexivity.
  - induction H as [|c cs Hc _ IH]; [done|]. simpl. rewrite IH, andb_true_r.
    apply scalarb_spec. lia.
Qed.

Lemma int_str_ascii z : Forall (fun c => N_of_ascii c < 128) (la (int_str z)).
Proof.
  destruct (int_str_chars z) as (c & t & -> & Hc). eapply Forall_impl; [exact Hc|].
  intros x. apply num_char_ascii.
Qed.

(** ** ASCII output *)

Lemma ascii_app s t : ascii_bytes (la s) -> ascii_bytes (la t) -> ascii_bytes (la (s +:+ t)).
Proof. rewrite list_ascii_of_string_app. apply Forall_app_2. Qed.

Lemma hex_digit_ascii j : N_of_ascii (hex_digit j) < 128.
Proof.
  apply N.ltb_lt. do 16 (destruct j as [|j]; [reflexivity|]). reflexivity.
Qed.

Ltac ascii_solve :=
  repeat (first [apply ascii_app | apply hex_digit_ascii | constructor]); try (simpl; lia).

Lemma escape_ascii n : ascii_bytes (la (json_escape_cp n)).
Proof.
  unfold json_escape_cp.
  repeat match goal with |- context [if ?b then _ else _] => destruct b eqn:? end; ascii_solve.
  apply orb_false_iff in Heqb6 as [_ H]. apply N.ltb_ge in H.
  rewrite N_ascii_embedding; lia.
Qed.

Lemma concat_ascii sep l : ascii_bytes (la sep) -> Forall (fun s => ascii_bytes (la s)) l ->
  ascii_bytes (la (String.concat sep l)).
Proof.
  intros Hsep. induction 1 as [|x l Hx Hl IH]; [constructor|].
  destruct l as [|y l]; [exact Hx|].
  change (String.concat sep (x :: y :: l)) with (x +:+ sep +:+ String.concat sep (y :: l)).
  by repeat apply ascii_app.
Qed.

Lemma json_string_ascii s : ascii_bytes (la (json_string s)).
Proof.
  unfold json_string. constructor; [simpl; lia|]. apply ascii_app; [|ascii_solve].
  apply concat_ascii; [constructor|]. apply Forall_map, Forall_true. intros n. apply escape_ascii.
Qed.

Lemma indent_ascii k : ascii_bytes (la (indent_str k)).
Proof. induction k as [|k IH]; [constructor|]. unfold indent_str. simpl. ascii_solve. exact IH. Qed.

(** The bytes of the writer's text, one by one. *)
Lemma json_dumps_ascii_bytes v : ascii_bytes (la (json_dumps v)).
Proof.
  unfold json_dumps. generalize 0%nat as lvl.
  induction v as [| b | z | s | l IH | fs IH] using json_nested_ind; intros lvl.
  - ascii_solve.
  - destruct b; ascii_solve.
  - apply int_str_ascii.
  - apply json_string_ascii.
  - destruct l as [|x xs]; [ascii_solve|]. cbn [dumps_at].
    repeat apply ascii_app; try apply indent_ascii; try ascii_solve.
    apply concat_ascii; [repeat apply ascii_app; try apply indent_ascii; ascii_solve|].
    apply Forall_map. eapply Forall_impl; [exact IH|]. auto.
  - destruct fs as [|kv fs]; [ascii_solve|]. cbn [dumps_at].
    repeat apply ascii_app; try apply indent_ascii; try ascii_solve.
    apply concat_ascii; [repeat apply ascii_app; try apply indent_ascii; ascii_solve|].
    apply Forall_map. eapply Forall_impl; [exact IH|]. intros [k w] Hw.
    repeat apply ascii_app; [apply json_string_ascii|ascii_solve|apply Hw].
Qed.

(** C19: with [ensure_ascii], every byte [json.dumps] writes is ASCII:
    every code point outside printable ASCII is escaped, even a byte
    that does not belong to a UTF-8 sequence. *)
Theorem json_dumps_ascii v : is_ascii (json_dumps v) = true.
Proof.
  unfold is_ascii. apply forallb_forall. intros c Hc. apply N.ltb_lt.
  apply (proj1 (Forall_forall _ _) (json_dumps_ascii_bytes v) c). by apply list_elem_of_In.
Qed.

(** ** Fuel: every call consumes input *)

Local Close Scope N_scope.

Lemma skip_ws_length cs : length (skip_ws cs) <= length cs.
Proof. induction cs as [|c cs IH]; simpl; [done|]. case_match; simpl; lia. Qed.

Lemma expect_length l cs r : expect l cs = Some r -> length r <= length cs.
Proof.
  revert cs. induction l as [|a l IH]; intros [|b cs] H; simpl in H; try congruence;
    [injection H as <-; simpl; lia..|].
  case_match; [apply IH in H; simpl; lia|done].
Qed.

Lemma cons_out_length pre o out (r : list ascii) n :
  (forall out' (r' : list ascii), o = Some (out', r') -> length r' < n) ->
  cons_out pre o = Some (out, r) -> length r < n.
Proof. destruct o as [[??]|]; simpl; intros Ho H; [injection H as <- <-; eauto|done]. Qed.

Lemma parse_str_length cs out r : parse_str cs = Some (out, r) -> length r < length cs.
Proof.
  revert out r. induction cs as [cs IH] using (induction_ltof1 _ (@length ascii)); unfold ltof in IH.
  intros out r H. destruct cs as [|c cs]; simpl in H; [done|].
  repeat (case_match; simplify_eq/=; try done; try lia);
    (eapply cons_out_length; [|exact H]); intros ?? Hr; apply IH in Hr; simpl in *; lia.
Qed.

Lemma span_num_length cs tok r : span_num cs = (tok, r) -> length r <= length cs.
Proof.
  revert tok r. induction cs as [|c cs IH]; intros tok r H; simpl in H; [by injection H as <- <-|].
  destruct (is_num_char c); [|by injection H as <- <-].
  specialize (IH _ _ (surjective_pairing (span_num cs))).
  destruct (span_num cs) as [t rest]. injection H as <- <-. simpl in *. lia.
Qed.

Ltac rew_known :=
  repeat match goal with
  | H : ?a = _ |- context [?a] => tryif is_var a then fail else rewrite H
  | Hm : forall g, _ <= g -> ?p g ?x = _ |- context [?p ?g ?x] => rewrite (Hm g) by lia
  end.

Ltac fuel_facts :=
  repeat match goal with
  | H : parse_str _ = Some _ |- _ => apply parse_str_length in H as ?; revert H
  | H : skip_ws ?x = ?y |- _ =>
      lazymatch goal with
      | _ : length y <= length x |- _ => fail
      | _ => pose proof (skip_ws_length x) as ?; rewrite H in *
      end
  | H : span_num _ = _ |- _ => apply span_num_length in H as ?; revert H
  | H : expect _ _ = Some _ |- _ => apply expect_length in H as ?; revert H
  | H : parse_items _ _ = Some _, Hi : fuel_ok parse_items _ |- _ =>
      destruct (Hi _ _ _ H) as [? ?]; clear H
  | H : parse_fields _ _ = Some _, Hi : fuel_ok parse_fields _ |- _ =>
      destruct (Hi _ _ _ H) as [? ?]; clear H
  | H : parse_value _ _ = Some _, Hi : fuel_ok parse_value _ |- _ =>
      destruct (Hi _ _ _ H) as [? ?]; clear H
  end; intros; simpl in *.

Lemma parse_fuel f : fuel_ok parse_value f /\ fuel_ok parse_items f /\ fuel_ok parse_fields f.
Proof.
  induction f as [|f (Hv & Hi & Hf)]; [split_and!; intros ??? H; discriminate H|].
  split_and!; intros cs x r H; simpl in H; unfold option_map in H;
    repeat (case_match; simplify_eq/=; try done);
    repeat match goal with p : prod _ _ |- _ => destruct p end;
    fuel_facts; (split; [lia|]); (intros [|f'] Hf'; [lia|]);
    simpl; rew_known; simpl; rew_known; done.
Qed.

(** The fuel of [json_loads], the length of the text, is enough: with
    any fuel the reader finds a value only when [json_loads] finds the
    same one, and with any fuel above the length it answers as
    [json_loads]. *)
Lemma json_loads_at_adequate n s v : json_loads_at n s = Some v -> json_loads s = Some v.
Proof.
  unfold json_loads_at, json_loads.
  destruct (parse_value n _) as [[w r]|] eqn:H; [|done].
  destruct (proj1 (parse_fuel n) _ _ _ H) as [_ Hm]. rewrite (Hm _) by lia. done.
Qed.

Lemma json_loads_at_mono n s v :
  json_loads s = Some v -> (length (la s) <= n)%nat -> json_loads_at n s = Some v.
Proof.
  unfold json_loads_at, json_loads.
  destruct (parse_value (length _) _) as [[w r]|] eqn:H; [|done].
  destruct (proj1 (parse_fuel _) _ _ _ H) as [_ Hm]. intros ? ?. rewrite (Hm n) by lia. done.
Qed.


Local Open Scope N_scope.

(** The reader inverts the writer on valid text. *)
Lemma loads_dumps_valid v : texts_valid v = true -> json_loads (json_dumps v) = Some v.
Proof.
  intros Hv. unfold json_loads, json_dumps.
  pose proof (reads_back_dumps v Hv 0 _ [] (jsize_le_dumps v 0) I) as H.
  rewrite app_nil_r in H. by rewrite H.
Qed.

(** C15: [json.loads(json.dumps(v, indent=4)) == v] for every value whose
    strings are valid UTF-8. *)
Theorem json_loads_dumps v : texts_valid v = true -> json_loads (json_dumps v) = Some v.
Proof. apply loads_dumps_valid. Qed.

Local Close Scope N_scope.

(** A document with a non-ASCII string and a character above U+FFFF. *)
Definition sample_doc : json :=
  JList [JObj [("file_name", JStr "7.jpg"); ("size", JStr "Фz😀")]; JInt (-12); JList []; JObj [];
         JNull; JBool true; JList [JBool false; JInt 0]].

Lemma json_loads_dumps_witness :
  texts_valid sample_doc = true /\ json_loads (json_dumps sample_doc) = Some sample_doc.
Proof. split; [vm_compute; reflexivity|apply json_loads_dumps; vm_compute; reflexivity]. Defined.
