(* ===== verification/Program.v ===== *)
(** * [main()] (src/program.py, lines 79-97): the transfer pipeline

    [main] reads the four answers of the operator, downloads the photos
    with a [VkDownloader], stops with a message when the list is empty,
    and otherwise creates the folder and uploads the files with a
    [YaUploader] before writing the list to [photos.json].  The theorems
    compose those of VkDownloader.v, YaUploader.v and Manifest.v: the
    early exit writes nothing and uploads nothing, a complete run
    uploads exactly the staged files and writes the manifest of the
    spec, a failed upload stops the run without a manifest and without
    undoing the earlier uploads, and the manifest reads back as the
    transfer records. *)

From stdpp Require Import base list strings gmap.
From Stdlib Require Import ZArith Ascii Lia.
From S2P Require Import Prelude PyJson Selector Spec World FakeServices VkDownloader YaUploader Manifest JsonRead Trace.

Local Open Scope py_scope.

Definition prompt_user_id : string := "Введите ID пользователя VK: ".
Definition prompt_vk_token : string := "Введите токен доступа VK: ".
Definition prompt_ya_token : string := "Введите токен Яндекс.Диска: ".
Definition prompt_folder : string :=
  "Введите имя папки на Яндекс.Диске для сохранения фотографий: ".
Definition msg_no_photos : string :=
  "Не удалось загрузить фотографии, завершение программы".
Definition manifest_path : string := "photos.json".

Section Main.
Context {Srv : Type} `{!HttpServer Srv}.

(** [with open("photos.json", "w") as file: json.dump(photos, file, indent=4)] *)
Definition write_manifest (photos : list json) : pym Srv unit :=
  file <- open_write manifest_path ;;
  write_file file (json_dumps (JList photos)).

(** [main()] *)
Definition main : pym Srv unit :=
  user_id <- input prompt_user_id ;;
  vk_token <- input prompt_vk_token ;;
  ya_token <- input prompt_ya_token ;;
  folder_name <- input prompt_folder ;;
  photos <- download_photos (MkVkDownloader user_id vk_token) ;;
  match photos with
  | [] => print msg_no_photos
  | _ :: _ =>
      let ya_uploader := MkYaUploader ya_token folder_name in
      create_folder ya_uploader ;;
      upload_photos ya_uploader photos ;;
      write_manifest photos
  end.

(** [if __name__ == '__main__': main()]: run as a script, the module
    calls [main]; imported under another name, it does nothing. *)
Definition module_run (name : string) : pym Srv unit :=
  if String.eqb name "__main__" then main else pure tt.
End Main.

(** ** Reading [photos.json] back

    A reader of the manifest (a later run, the operator's tools) loads
    the file with [json.load] and takes each entry's two keys. *)

Definition decode_transfer (v : json) : option transfer_record :=
  match v with
  | JObj [(k1, JStr n); (k2, JStr s)] =>
      if String.eqb k1 "file_name" && String.eqb k2 "size" then Some (TransferRecord n s) else None
  | _ => None
  end.

Definition read_manifest (text : string) : option (list transfer_record) :=
  match json_loads text with
  | Some (JList l) => mapM decode_transfer l
  | _ => None
  end.

(** ** Theorems *)

Section MainTheorems.
Context {Srv : Type} `{!HttpServer Srv}.
Implicit Types (w : world Srv).

(** The world after the four answers [u], [t], [y], [f] are read. *)
Definition after_inputs w (u t y f : string) (rest : list string) : world Srv :=
  World (w_dirs w) (w_files w) (w_net w) rest
    (w_trace w ++ [EvInput prompt_user_id u; EvInput prompt_vk_token t;
                   EvInput prompt_ya_token y; EvInput prompt_folder f]).

Lemma main_inputs {A} w u t y f rest (k : string -> string -> string -> string -> pym Srv A) :
  w_stdin w = u :: t :: y :: f :: rest ->
  (a <- input prompt_user_id ;; b <- input prompt_vk_token ;;
   c <- input prompt_ya_token ;; d <- input prompt_folder ;; k a b c d) w =
  k u t y f (after_inputs w u t y f rest).
Proof.
  intros Hin. unfold bind. rewrite (input_step _ _ _ _ Hin). simpl.
  unfold after_inputs. by rewrite <-!app_assoc.
Qed.

Lemma catalog_answers_net self w w' srv data :
  w_net w' = w_net w -> catalog_answers self w srv data -> catalog_answers self w' srv data.
Proof. intros Hn. unfold catalog_answers. by rewrite Hn. Qed.

(** C4: when the catalog's answer has no [response.items], [main] ends
    normally after two messages: it sent the catalog request and no
    other request (no folder, no upload), and left every file and
    directory as it was (no staging directory, no [photos.json]). *)
Theorem main_catalog_error w u t y f rest srv' data k :
  w_stdin w = u :: t :: y :: f :: rest ->
  catalog_answers (MkVkDownloader u t) w srv' data ->
  response_items data = Raise (KeyError k) ->
  main w = (Ok tt,
    World (w_dirs w) (w_files w) srv' rest
      (w_trace w ++ [EvInput prompt_user_id u; EvInput prompt_vk_token t;
                     EvInput prompt_ya_token y; EvInput prompt_folder f;
                     EvRequest (photos_request (MkVkDownloader u t) 0 5);
                     EvPrint (msg_fetch_error data); EvPrint msg_no_photos])).
Proof.
  intros Hin Hc Hk. unfold main. rewrite (main_inputs _ _ _ _ _ _ _ Hin).
  unfold bind at 1.
  rewrite (download_photos_keyerror _ _ _ _ _
             (catalog_answers_net _ w (after_inputs w u t y f rest) _ _ eq_refl Hc) Hk).
  unfold print, emit. simpl. by rewrite <-!app_assoc.
Qed.

(** C22: when no photo of the catalog has a size variant (the catalog
    may be empty), [main] prints one message per photo and the final
    message, and stops: no request goes to Yandex.Disk and no file is
    written, but the staging directory [images_vk] has been created
    (src/program.py, lines 35-36, run before the loop). *)
Theorem main_no_usable_photos w u t y f rest srv1 data ps :
  w_stdin w = u :: t :: y :: f :: rest ->
  catalog_answers (MkVkDownloader u t) w srv1 data ->
  response_items data = Ok (JList (map enc_photo ps)) ->
  Forall (fun p => pr_sizes p = []) ps ->
  w_files w !! staging_dir = None ->
  main w = (Ok tt,
    World ({[staging_dir]} ∪ w_dirs w) (w_files w) srv1 rest
      (w_trace w ++ [EvInput prompt_user_id u; EvInput prompt_vk_token t;
                     EvInput prompt_ya_token y; EvInput prompt_folder f;
                     EvRequest (photos_request (MkVkDownloader u t) 0 5)]
                 ++ mjoin (map download_events ps) ++ [EvPrint msg_no_photos])).
Proof.
  intros Hin Hc Hi Hps Hf. unfold main. rewrite (main_inputs _ _ _ _ _ _ _ Hin).
  unfold bind at 1.
  rewrite (download_photos_nosizes _ _ _ _ _
             (catalog_answers_net _ w (after_inputs w u t y f rest) _ _ eq_refl Hc) Hi Hps Hf).
  unfold print, emit. simpl. by rewrite <-!app_assoc.
Qed.
End MainTheorems.

Lemma enc_transfer_entries (l : list transfer_record) :
  map enc_transfer l =
  map (fun e => photo_entry e.1 e.2) (map (fun t => (tr_file_name t, JStr (tr_size t))) l).
Proof. by rewrite map_map. Qed.

(** The file names the code derives are ASCII, hence valid text. *)
Lemma spec_file_name_valid p : utf8_validb (spec_file_name p) = true.
Proof.
  apply ascii_validb. unfold spec_file_name. rewrite list_ascii_of_string_app.
  apply Forall_app. split; [apply int_str_ascii|repeat constructor].
Qed.

Lemma manifest_texts_valid ps :
  Forall (fun p => Forall (fun v => utf8_validb (sv_type v) = true) (pr_sizes p)) ps ->
  texts_valid (JList (map enc_transfer (manifest_of ps))) = true.
Proof.
  induction 1 as [|p ps Hp _ IH]; [done|]. unfold manifest_of, materialize in *. simpl in *.
  destruct (select_variant (pr_sizes p)) as [v|] eqn:Hv; [|exact IH]. simpl.
  rewrite spec_file_name_valid, (proj1 (Forall_forall _ _) Hp v (select_variant_elem _ _ Hv)).
  exact IH.
Qed.

Lemma decode_enc_transfers ts : mapM decode_transfer (map enc_transfer ts) = Some ts.
Proof. induction ts as [|[n s] ts IH]; [done|]. simpl. by rewrite IH. Qed.

(** The JSON text of a manifest reads back as its transfer records. *)
Lemma manifest_text_reads_back ps :
  Forall (fun p => Forall (fun v => utf8_validb (sv_type v) = true) (pr_sizes p)) ps ->
  read_manifest (json_dumps (JList (map enc_transfer (manifest_of ps)))) = Some (manifest_of ps).
Proof.
  intros Hps. unfold read_manifest.
  rewrite loads_dumps_valid by (by apply manifest_texts_valid). apply decode_enc_transfers.
Qed.

Section MainRun.
Context {Srv : Type} `{!HttpServer Srv}.
Implicit Types (w : world Srv).

(** What the two services promise for the run up to the uploads, with
    [disk] the files Yandex.Disk stores: the photo host serves every
    image URL with [fetch url], and nothing it does changes the disk;
    Yandex.Disk answers the folder request without changing the files. *)
Context (fetch : string -> string) (disk : Srv -> gmap string string).
Hypothesis Hserve : forall D, serves_images (fun s => disk s = D) fetch.
Hypothesis answers_folder : forall srv self,
  exists srv' r, http_handle srv (folder_request self) = (srv', Ok r) /\ disk srv' = disk srv.

Lemma plain_manifest_path : plain manifest_path.
Proof. split; [repeat constructor; discriminate|reflexivity]. Qed.

(** The files of a manifest are staged, once the staging directory
    exists. *)
Lemma manifest_staged w ps files :
  w_files w = staged fetch ps files -> staging_dir ∈ w_dirs w ->
  Forall (fun t => staged_file w (tr_file_name t)) (manifest_of ps).
Proof.
  intros Hf Hd. pose proof (staged_manifest_files fetch ps files) as Hs.
  apply Forall_forall. intros t Ht. split_and!; [done| |].
  - apply list_elem_of_omap in Ht as (p & _ & Hp). unfold materialize in Hp.
    destruct (select_variant _); [|done]. injection Hp as <-. apply plain_spec_file_name.
  - rewrite Hf. by apply (proj1 (Forall_forall _ _) Hs).
Qed.

Lemma write_manifest_step w photos :
  manifest_path ∉ w_dirs w ->
  write_manifest photos w =
    (Ok tt, set_files (<[manifest_path := json_dumps (JList photos)]> (w_files w)) w).
Proof.
  intros Hd. unfold write_manifest, bind.
  rewrite (open_write_step _ _ [manifest_path]).
  - unfold write_file, set_files. simpl. by rewrite insert_insert_eq.
  - apply resolve_plain, plain_manifest_path.
  - rewrite dir_at_single by apply plain_manifest_path. by apply bool_decide_false.
Qed.

(** [open("photos.json", "w")] on a directory raises. *)
Lemma write_manifest_is_dir w photos :
  manifest_path ∈ w_dirs w ->
  write_manifest photos w = (Raise (IsADirectoryError manifest_path), w).
Proof.
  intros Hd. unfold write_manifest. apply bind_raise, (open_write_isdir _ _ [manifest_path]).
  - apply resolve_plain, plain_manifest_path.
  - rewrite dir_at_single by apply plain_manifest_path. by apply bool_decide_true.
Qed.

(** The entries of [photos] for the manifest of [ps]. *)
Abbreviation manifest_entries ps :=
  (map (fun t => (tr_file_name t, JStr (tr_size t))) (manifest_of ps)).

(** A run whose catalog has a usable photo reaches the uploads: the
    files are staged, the folder request is answered, and what is left
    of [main] is the upload loop and the manifest. *)
Lemma main_reaches_uploads w u t y f rest srv1 data ps :
  w_stdin w = u :: t :: y :: f :: rest ->
  catalog_answers (MkVkDownloader u t) w srv1 data -> disk srv1 = disk (w_net w) ->
  response_items data = Ok (JList (map enc_photo ps)) ->
  Forall urls_ok ps -> manifest_of ps <> [] ->
  w_files w !! staging_dir = None ->
  (forall d, d ∈ w_dirs w -> dirname d <> staging_dir) ->
  exists w2, main w =
      (upload_photos (MkYaUploader y f) (map (fun e => photo_entry e.1 e.2) (manifest_entries ps)) ;;
       write_manifest (map enc_transfer (manifest_of ps)))%py w2 /\
    w_files w2 = staged fetch ps (w_files w) /\ w_dirs w2 = {[staging_dir]} ∪ w_dirs w /\
    disk (w_net w2) = disk (w_net w) /\
    exists pre post, w_trace w2 = pre ++ mjoin (map download_events ps) ++ post.
Proof.
  intros Hin Hc HI Hi Hps Hne Hf Hsub. unfold main.
  rewrite (main_inputs _ _ _ _ _ _ _ Hin).
  destruct (download_photos_enc fetch _ (Hserve (disk (w_net w))) (MkVkDownloader u t)
              (after_inputs w u t y f rest) srv1 data ps
              (catalog_answers_net _ w _ _ _ eq_refl Hc) HI Hi Hps Hf Hsub)
    as (w1 & H1 & HI1 & Hd1 & Hf1 & Ht1).
  unfold bind at 1. rewrite H1.
  destruct (manifest_of ps) as [|t0 ts] eqn:HM; [congruence|].
  set (self := MkYaUploader y f).
  destruct (answers_folder (w_net w1) self) as (srv2 & r2 & H2 & Hk2).
  pose proof (create_folder_step self w1 srv2 r2 H2) as Hcf.
  change (map enc_transfer (t0 :: ts)) with (enc_transfer t0 :: map enc_transfer ts) at 1.
  cbv beta iota. unfold bind at 1. rewrite Hcf. rewrite enc_transfer_entries.
  eexists. split; [reflexivity|]. simpl. rewrite Hf1, Hd1, Hk2, HI1.
  split; [done|]. split; [done|]. split; [done|]. rewrite Ht1.
  eexists (w_trace (after_inputs w u t y f rest) ++ [EvRequest (photos_request (MkVkDownloader u t) 0 5)]), _.
  rewrite <-!app_assoc. reflexivity.
Qed.

Section Complete.
(** Yandex.Disk gives the upload URL [link path] for every path and
    stores at [path] what is sent to [link path]. *)
Context (link : string -> string).
Hypothesis answers_link : forall srv self fn,
  exists srv' r body,
    http_handle srv (upload_link_request self fn) = (srv', Ok r) /\
    resp_json r = Some body /\ get body "href" = Ok (JStr (link (remote_path self fn))) /\
    url_ok (link (remote_path self fn)) = true /\ disk srv' = disk srv.
Hypothesis accepts_put : forall srv p data, url_ok (link p) = true ->
  exists srv' r, http_handle srv (Request PUT (link p) [] [] (Some data)) = (srv', Ok r) /\
                 disk srv' = <[p := data]> (disk srv).

(** A complete run up to the manifest: the files are staged and
    uploaded, and what is left of [main] is the writing of
    [photos.json]. *)
Lemma main_uploads_done w u t y f rest srv1 data ps :
  w_stdin w = u :: t :: y :: f :: rest ->
  catalog_answers (MkVkDownloader u t) w srv1 data -> disk srv1 = disk (w_net w) ->
  response_items data = Ok (JList (map enc_photo ps)) ->
  Forall urls_ok ps -> manifest_of ps <> [] ->
  w_files w !! staging_dir = None ->
  (forall d, d ∈ w_dirs w -> dirname d <> staging_dir) ->
  exists w3 pre post, main w = write_manifest (map enc_transfer (manifest_of ps)) w3 /\
    w_files w3 = staged fetch ps (w_files w) /\
    w_dirs w3 = {[staging_dir]} ∪ w_dirs w /\
    w_trace w3 = pre ++ mjoin (map download_events ps) ++ post ++ mjoin (map (fun tr => upload_requests (MkYaUploader y f) link
                                    (staged fetch ps (w_files w)) (tr_file_name tr))
                                 (manifest_of ps)) /\
    (forall tr, tr ∈ manifest_of ps ->
       disk (w_net w3) !! (f +:+ "/" +:+ tr_file_name tr) =
       staged fetch ps (w_files w) !! ("images_vk/" +:+ tr_file_name tr)).
Proof.
  intros Hin Hc HI Hi Hps Hne Hf Hsub.
  destruct (main_reaches_uploads w u t y f rest srv1 data ps Hin Hc HI Hi Hps Hne Hf Hsub)
    as (w2 & -> & Hf2 & Hd2 & Hk2 & pre & post & Ht2).
  set (self := MkYaUploader y f).
  pose proof (staged_manifest_files fetch ps (w_files w)) as Hstaged.
  destruct (upload_photos_run self disk link (fun _ => True) (fun srv fn _ => answers_link srv self fn)
              accepts_put (manifest_entries ps) w2) as (w3 & H3 & Hf3 & Hd3 & Ht3 & Hk3).
  { rewrite Forall_map. eapply Forall_impl; [apply (manifest_staged w2 ps (w_files w) Hf2)|done].
    rewrite Hd2. set_solver. }
  { by apply Forall_true. }
  unfold bind at 1. rewrite H3.
  exists w3, pre, post. split; [reflexivity|].
  rewrite Hf3, Hd3, Hf2, Hd2. split; [done|]. split; [done|]. split.
  - rewrite Ht3, Ht2, map_map, Hf2, <-!app_assoc. done.
  - intros tr Htr. rewrite Hk3.
    change (f +:+ "/" +:+ tr_file_name tr) with (remote_path self (tr_file_name tr)).
    rewrite published_lookup.
    + rewrite Hf2. unfold staged_bytes.
      destruct (proj1 (Forall_forall _ _) Hstaged tr Htr) as [? Hs]. by rewrite Hs.
    + rewrite map_map. apply (list_elem_of_fmap_2 tr_file_name), Htr.
Qed.

(** C1: a complete run transfers what the spec says.  When the catalog
    lists [ps] and at least one photo has a variant, [main] ends
    normally; the staging directory holds the selected variants,
    [photos.json] holds the JSON text of the manifest of [ps]; the last
    requests of the run are, for each manifest entry in order, the
    upload-URL request for [<folder>/<file_name>] and the [PUT] of the
    staged file [images_vk/<file_name>]; and the disk then holds, for
    every manifest entry, the staged bytes at [<folder>/<file_name>]:
    the same [file_name] in the manifest, the local path and the remote
    path. *)
Theorem main_transfers w u t y f rest srv1 data ps :
  w_stdin w = u :: t :: y :: f :: rest ->
  catalog_answers (MkVkDownloader u t) w srv1 data -> disk srv1 = disk (w_net w) ->
  response_items data = Ok (JList (map enc_photo ps)) ->
  Forall urls_ok ps -> manifest_of ps <> [] ->
  w_files w !! staging_dir = None ->
  (forall d, d ∈ w_dirs w -> dirname d <> staging_dir) ->
  manifest_path ∉ w_dirs w ->
  exists w' pre, main w = (Ok tt, w') /\
    w_files w' = <[manifest_path := json_dumps (JList (map enc_transfer (manifest_of ps)))]>
                   (staged fetch ps (w_files w)) /\
    w_dirs w' = {[staging_dir]} ∪ w_dirs w /\
    w_trace w' = pre ++ mjoin (map (fun tr => upload_requests (MkYaUploader y f) link
                                    (staged fetch ps (w_files w)) (tr_file_name tr))
                                 (manifest_of ps)) /\
    (forall tr, tr ∈ manifest_of ps ->
       disk (w_net w') !! (f +:+ "/" +:+ tr_file_name tr) =
       staged fetch ps (w_files w) !! ("images_vk/" +:+ tr_file_name tr)).
Proof.
  intros Hin Hc HI Hi Hps Hne Hf Hsub Hmp.
  destruct (main_uploads_done w u t y f rest srv1 data ps Hin Hc HI Hi Hps Hne Hf Hsub)
    as (w3 & pre & post & -> & Hf3 & Hd3 & Ht3 & Hk3).
  rewrite write_manifest_step.
  2:{ rewrite Hd3. intros [Heq%elem_of_singleton|?]%elem_of_union; [|done]. discriminate. }
  eexists _, (pre ++ mjoin (map download_events ps) ++ post). split; [reflexivity|]. simpl.
  rewrite Hf3, Ht3, <-!app_assoc. done.
Qed.

(** C26: [photos.json] is written last, after every upload.  When a
    directory named [photos.json] is in the working directory, a run
    that would complete raises [IsADirectoryError] at the [open] of the
    manifest: every photo is already on the disk at
    [<folder>/<file_name>] with its staged bytes, the staged files are
    left, and no manifest is written. *)
Theorem main_manifest_is_dir w u t y f rest srv1 data ps :
  w_stdin w = u :: t :: y :: f :: rest ->
  catalog_answers (MkVkDownloader u t) w srv1 data -> disk srv1 = disk (w_net w) ->
  response_items data = Ok (JList (map enc_photo ps)) ->
  Forall urls_ok ps -> manifest_of ps <> [] ->
  w_files w !! staging_dir = None ->
  (forall d, d ∈ w_dirs w -> dirname d <> staging_dir) ->
  manifest_path ∈ w_dirs w ->
  exists w', main w = (Raise (IsADirectoryError manifest_path), w') /\
    w_files w' = staged fetch ps (w_files w) /\
    (forall tr, tr ∈ manifest_of ps ->
       disk (w_net w') !! (f +:+ "/" +:+ tr_file_name tr) =
       staged fetch ps (w_files w) !! ("images_vk/" +:+ tr_file_name tr)).
Proof.
  intros Hin Hc HI Hi Hps Hne Hf Hsub Hmp.
  destruct (main_uploads_done w u t y f rest srv1 data ps Hin Hc HI Hi Hps Hne Hf Hsub)
    as (w3 & pre & post & -> & Hf3 & Hd3 & Ht3 & Hk3).
  exists w3. rewrite write_manifest_is_dir by (rewrite Hd3; set_solver). done.
Qed.
(** C29: every photo that is downloaded is uploaded later in the run.
    In a complete run, for every photo [p] of the catalog with a variant
    [v] selected, the GET of [v]'s URL is followed, later in the trace,
    by the PUT to the upload URL of [<folder>/<likes>.jpg] carrying the
    staged bytes of that file name: the download of each photo leads to
    its upload. *)
Theorem main_download_leads_to_upload w u t y f rest srv1 data ps :
  w_stdin w = u :: t :: y :: f :: rest ->
  catalog_answers (MkVkDownloader u t) w srv1 data -> disk srv1 = disk (w_net w) ->
  response_items data = Ok (JList (map enc_photo ps)) ->
  Forall urls_ok ps -> manifest_of ps <> [] ->
  w_files w !! staging_dir = None ->
  (forall d, d ∈ w_dirs w -> dirname d <> staging_dir) ->
  manifest_path ∉ w_dirs w ->
  exists w', main w = (Ok tt, w') /\
    forall p v, p ∈ ps -> select_variant (pr_sizes p) = Some v ->
      precedes (EvRequest (Request GET (sv_url v) [] [] None))
               (EvRequest (Request PUT (link (f +:+ "/" +:+ spec_file_name p)) [] []
                  (Some (staged_bytes (staged fetch ps (w_files w)) (spec_file_name p)))))
               (w_trace w').
Proof.
  intros Hin Hc HI Hi Hps Hne Hf Hsub Hmp.
  destruct (main_uploads_done w u t y f rest srv1 data ps Hin Hc HI Hi Hps Hne Hf Hsub)
    as (w3 & pre & post & -> & Hf3 & Hd3 & Ht3 & Hk3).
  rewrite write_manifest_step.
  2:{ rewrite Hd3. intros [Heq%elem_of_singleton|?]%elem_of_union; [|done]. discriminate. }
  eexists. split; [reflexivity|]. intros p v Hp Hv. simpl. rewrite Ht3, !app_assoc.
  rewrite <-(app_assoc _ post). apply precedes_app.
  - apply elem_of_app. right. apply list_elem_of_join. exists (download_events p).
    split; [unfold download_events; rewrite Hv; by left|]. by apply list_elem_of_fmap_2.
  - apply elem_of_app. right. apply list_elem_of_join.
    eexists. split; [|apply (list_elem_of_fmap_2 _ _ (TransferRecord (spec_file_name p) (sv_type v)))].
    + simpl. right. by left.
    + apply list_elem_of_omap. exists p. split; [done|]. unfold materialize. by rewrite Hv.
Qed.
(** C16: the manifest a complete run of [main] leaves in
    [photos.json] reads back, with [json.load] and the two keys of each
    entry, as the transfer records of the spec, in order, whenever the
    size labels of the catalog are valid text (every Python [str] is). *)
Theorem main_manifest_reads_back w u t y f rest srv1 data ps :
  w_stdin w = u :: t :: y :: f :: rest ->
  catalog_answers (MkVkDownloader u t) w srv1 data -> disk srv1 = disk (w_net w) ->
  response_items data = Ok (JList (map enc_photo ps)) ->
  Forall urls_ok ps -> manifest_of ps <> [] ->
  w_files w !! staging_dir = None ->
  (forall d, d ∈ w_dirs w -> dirname d <> staging_dir) ->
  manifest_path ∉ w_dirs w ->
  Forall (fun p => Forall (fun v => utf8_validb (sv_type v) = true) (pr_sizes p)) ps ->
  exists w' text, main w = (Ok tt, w') /\ w_files w' !! manifest_path = Some text /\
    read_manifest text = Some (manifest_of ps).
Proof.
  intros Hin Hc HI Hi Hps Hne Hf Hsub Hmp Hval.
  destruct (main_uploads_done w u t y f rest srv1 data ps Hin Hc HI Hi Hps Hne Hf Hsub)
    as (w3 & pre & post & -> & Hf3 & Hd3 & Ht3 & Hk3).
  rewrite write_manifest_step.
  2:{ rewrite Hd3. intros [Heq%elem_of_singleton|?]%elem_of_union; [|done]. discriminate. }
  eexists _, _. split; [reflexivity|]. split; [simpl; by rewrite lookup_insert_eq|].
  by apply manifest_text_reads_back.
Qed.
End Complete.

Section UploadFailure.
(** Yandex.Disk gives the upload URL of the paths of the file names
    [link_ok] accepts, and stores what is sent to it. *)
Context (link : string -> string) (link_ok : string -> Prop).
Hypothesis answers_link : forall srv self fn, link_ok fn ->
  exists srv' r body,
    http_handle srv (upload_link_request self fn) = (srv', Ok r) /\
    resp_json r = Some body /\ get body "href" = Ok (JStr (link (remote_path self fn))) /\
    url_ok (link (remote_path self fn)) = true /\ disk srv' = disk srv.
Hypothesis accepts_put : forall srv p data, url_ok (link p) = true ->
  exists srv' r, http_handle srv (Request PUT (link p) [] [] (Some data)) = (srv', Ok r) /\
                 disk srv' = <[p := data]> (disk srv).

(** C23: there is no rollback and no skipping.  When the manifest is
    [ts1 ++ tr :: ts2] and the upload-URL request for [tr] raises, [main]
    raises the same exception: the files of [ts1] stay uploaded with
    their staged bytes, the staged files stay on the local disk,
    [photos.json] is not written, and the failed request is the last one
    sent (nothing for [ts2]). *)
Theorem main_upload_fails w u t y f rest srv1 data ps ts1 tr ts2 e :
  w_stdin w = u :: t :: y :: f :: rest ->
  catalog_answers (MkVkDownloader u t) w srv1 data -> disk srv1 = disk (w_net w) ->
  response_items data = Ok (JList (map enc_photo ps)) ->
  Forall urls_ok ps -> manifest_of ps = ts1 ++ tr :: ts2 ->
  w_files w !! staging_dir = None ->
  (forall d, d ∈ w_dirs w -> dirname d <> staging_dir) ->
  Forall (fun t => link_ok (tr_file_name t)) ts1 ->
  (forall srv, exists srv', http_handle srv (upload_link_request (MkYaUploader y f) (tr_file_name tr))
                            = (srv', Raise e) /\ disk srv' = disk srv) ->
  exists w' pre, main w = (Raise e, w') /\
    w_files w' = staged fetch ps (w_files w) /\
    w_trace w' = pre ++ [EvRequest (upload_link_request (MkYaUploader y f) (tr_file_name tr))] /\
    (forall t, t ∈ ts1 ->
       disk (w_net w') !! (f +:+ "/" +:+ tr_file_name t) =
       staged fetch ps (w_files w) !! ("images_vk/" +:+ tr_file_name t)).
Proof.
  intros Hin Hc HI Hi Hps HM Hf Hsub Hok Hfail.
  destruct (main_reaches_uploads w u t y f rest srv1 data ps Hin Hc HI Hi Hps) as (w2 & -> & Hf2 & Hd2 & Hk2);
    [rewrite HM; by destruct ts1|done|done|].
  set (self := MkYaUploader y f).
  pose proof (staged_manifest_files fetch ps (w_files w)) as Hstaged. rewrite HM in Hstaged |- *.
  rewrite map_app. cbn [map].
  destruct (upload_photos_fails self disk link link_ok (fun srv fn H => answers_link srv self fn H)
              accepts_put (map (fun t => (tr_file_name t, JStr (tr_size t))) ts1)
              (tr_file_name tr, JStr (tr_size tr)) (map (fun t => (tr_file_name t, JStr (tr_size t))) ts2)
              w2 e) as (w3 & H3 & Hf3 & Hd3 & Ht3 & Hk3).
  { assert (Hst : Forall (fun t => staged_file w2 (tr_file_name t)) (ts1 ++ tr :: ts2)).
    { rewrite <-HM. apply (manifest_staged w2 ps (w_files w) Hf2). rewrite Hd2. set_solver. }
    rewrite Forall_map. apply Forall_app in Hst as [H _]. eapply Forall_impl; [exact H|done]. }
  { by rewrite Forall_map. }
  { assert (Hst : Forall (fun t => staged_file w2 (tr_file_name t)) (ts1 ++ tr :: ts2)).
    { rewrite <-HM. apply (manifest_staged w2 ps (w_files w) Hf2). rewrite Hd2. set_solver. }
    apply Forall_app in Hst as [_ H]. by inversion H. }
  { exact Hfail. }
  unfold bind at 1. rewrite H3.
  eexists _, _. split; [reflexivity|]. rewrite Hf3, Hf2. split; [done|]. split.
  - rewrite Ht3, app_assoc. reflexivity.
  - intros t' Ht'. rewrite Hk3.
    change (f +:+ "/" +:+ tr_file_name t') with (remote_path self (tr_file_name t')).
    rewrite published_lookup.
    + rewrite Hf2. unfold staged_bytes.
      destruct (proj1 (Forall_forall _ _) Hstaged t') as [? Hs]; [set_solver|]. by rewrite Hs.
    + rewrite map_map. apply (list_elem_of_fmap_2 tr_file_name), Ht'.
Qed.
End UploadFailure.
End MainRun.

(** ** Standard input ends early *)

(** C27: [main] reads its four answers with [input] and does not guard
    against the end of standard input.  With fewer than four lines,
    [main] raises [EOFError] at the first prompt left unanswered: the
    answers given are recorded, and no request is sent, no file and no
    directory is touched. *)
Theorem main_eof {Srv} `{!HttpServer Srv} (w : world Srv) :
  length (w_stdin w) < 4 ->
  main w = (Raise EOFError,
            World (w_dirs w) (w_files w) (w_net w) []
              (w_trace w ++ zip_with EvInput
                 [prompt_user_id; prompt_vk_token; prompt_ya_token; prompt_folder] (w_stdin w))).
Proof.
  destruct w as [D F N I T]; simpl.
  destruct I as [|a [|b [|c [|d r]]]]; simpl; intros Hl; try lia;
    unfold main, bind, input; simpl; rewrite ?app_nil_r; repeat rewrite <-app_assoc; reflexivity.
Qed.

(** ** Concrete runs *)

Definition sample_stdin : list string := ["1"; "vk-token"; "ya-token"; "backup"].

Lemma fake_answers_folder (srv : fake_srv) (self : YaUploader) :
  exists srv' r, http_handle srv (folder_request self) = (srv', Ok r) /\ fk_disk srv' = fk_disk srv.
Proof. do 2 eexists. split; reflexivity. Qed.

Lemma main_catalog_error_witness :
  main (fake_world error_catalog 201 sample_stdin) =
    (Ok tt, World ∅ ∅ (FakeSrv error_catalog 201 ∅) []
      ([] ++ [EvInput prompt_user_id "1"; EvInput prompt_vk_token "vk-token";
              EvInput prompt_ya_token "ya-token"; EvInput prompt_folder "backup";
              EvRequest (photos_request (MkVkDownloader "1" "vk-token") 0 5);
              EvPrint (msg_fetch_error error_catalog); EvPrint msg_no_photos])).
Proof.
  apply (main_catalog_error (fake_world error_catalog 201 sample_stdin) "1" "vk-token"
           "ya-token" "backup" [] (FakeSrv error_catalog 201 ∅) error_catalog "response").
  - reflexivity.
  - eexists. split; reflexivity.
  - reflexivity.
Defined.

Lemma main_transfers_witness :
  exists w' pre, main (fake_world sample_catalog 201 sample_stdin) = (Ok tt, w') /\
    w_files w' = <[manifest_path := json_dumps (JList (map enc_transfer (manifest_of sample_photos)))]>
                   (staged fake_fetch sample_photos ∅) /\
    w_dirs w' = {[staging_dir]} ∪ ∅ /\
    w_trace w' = pre ++ mjoin (map (fun tr => upload_requests (MkYaUploader "ya-token" "backup")
                                     fake_link (staged fake_fetch sample_photos ∅) (tr_file_name tr))
                                  (manifest_of sample_photos)) /\
    (forall tr, tr ∈ manifest_of sample_photos ->
       fk_disk (w_net w') !! ("backup" +:+ "/" +:+ tr_file_name tr) =
       staged fake_fetch sample_photos ∅ !! ("images_vk/" +:+ tr_file_name tr)).
Proof.
  apply (main_transfers fake_fetch fk_disk (fun D => fake_serves_images _) fake_answers_folder
           fake_link fake_answers_link fake_accepts_put (fake_world sample_catalog 201 sample_stdin)
           "1" "vk-token" "ya-token" "backup" [] (FakeSrv sample_catalog 201 ∅) sample_catalog
           sample_photos).
  - reflexivity.
  - eexists. split; reflexivity.
  - reflexivity.
  - reflexivity.
  - vm_compute. repeat constructor.
  - vm_compute. discriminate.
  - reflexivity.
  - intros d Hd. by apply elem_of_empty in Hd.
  - apply not_elem_of_empty.
Defined.

Lemma main_manifest_is_dir_witness :
  exists w', main (World {[manifest_path]} ∅ (FakeSrv sample_catalog 201 ∅) sample_stdin [])
             = (Raise (IsADirectoryError manifest_path), w') /\
    w_files w' = staged fake_fetch sample_photos ∅ /\
    (forall tr, tr ∈ manifest_of sample_photos ->
       fk_disk (w_net w') !! ("backup" +:+ "/" +:+ tr_file_name tr) =
       staged fake_fetch sample_photos ∅ !! ("images_vk/" +:+ tr_file_name tr)).
Proof.
  apply (main_manifest_is_dir fake_fetch fk_disk (fun D => fake_serves_images _) fake_answers_folder
           fake_link fake_answers_link fake_accepts_put
           (World {[manifest_path]} ∅ (FakeSrv sample_catalog 201 ∅) sample_stdin [])
           "1" "vk-token" "ya-token" "backup" [] (FakeSrv sample_catalog 201 ∅) sample_catalog
           sample_photos).
  - reflexivity.
  - eexists. split; reflexivity.
  - reflexivity.
  - reflexivity.
  - vm_compute. repeat constructor.
  - vm_compute. discriminate.
  - reflexivity.
  - intros d Hd. simpl in Hd. apply elem_of_singleton in Hd as ->. vm_compute. discriminate.
  - simpl. set_solver.
Defined.

Lemma main_eof_witness :
  length ["1"; "vk-token"] < 4 /\
  main (fake_world sample_catalog 201 ["1"; "vk-token"]) =
    (Raise EOFError, World ∅ ∅ (FakeSrv sample_catalog 201 ∅) []
       ([] ++ [EvInput prompt_user_id "1"; EvInput prompt_vk_token "vk-token"])).
Proof.
  split; [simpl; lia|].
  apply (main_eof (fake_world sample_catalog 201 ["1"; "vk-token"])). simpl. lia.
Defined.

Lemma main_download_leads_to_upload_witness :
  exists w', main (fake_world sample_catalog 201 sample_stdin) = (Ok tt, w') /\
    forall p v, p ∈ sample_photos -> select_variant (pr_sizes p) = Some v ->
      precedes (EvRequest (Request GET (sv_url v) [] [] None))
               (EvRequest (Request PUT (fake_link ("backup" +:+ "/" +:+ spec_file_name p)) [] []
                  (Some (staged_bytes (staged fake_fetch sample_photos ∅) (spec_file_name p)))))
               (w_trace w').
Proof.
  apply (main_download_leads_to_upload fake_fetch fk_disk (fun D => fake_serves_images _)
           fake_answers_folder fake_link fake_answers_link fake_accepts_put
           (fake_world sample_catalog 201 sample_stdin) "1" "vk-token" "ya-token" "backup" []
           (FakeSrv sample_catalog 201 ∅) sample_catalog sample_photos).
  - reflexivity.
  - eexists. split; reflexivity.
  - reflexivity.
  - reflexivity.
  - vm_compute. repeat constructor.
  - vm_compute. discriminate.
  - reflexivity.
  - intros d Hd. by apply elem_of_empty in Hd.
  - apply not_elem_of_empty.
Defined.

Lemma main_manifest_reads_back_witness :
  exists w' text, main (fake_world sample_catalog 201 sample_stdin) = (Ok tt, w') /\
    w_files w' !! manifest_path = Some text /\ read_manifest text = Some (manifest_of sample_photos).
Proof.
  assert (H : Forall (fun p => Forall (fun v => utf8_validb (sv_type v) = true) (pr_sizes p))
                sample_photos).
  { eapply Forall_impl.
    - apply (forallb_Forall (fun p => forallb (fun v => utf8_validb (sv_type v)) (pr_sizes p))).
      vm_compute. reflexivity.
    - intros p Hp. by apply forallb_Forall. }
  apply (main_manifest_reads_back fake_fetch fk_disk (fun D => fake_serves_images _) fake_answers_folder
           fake_link fake_answers_link fake_accepts_put (fake_world sample_catalog 201 sample_stdin)
           "1" "vk-token" "ya-token" "backup" [] (FakeSrv sample_catalog 201 ∅) sample_catalog
           sample_photos).
  - reflexivity.
  - eexists. split; reflexivity.
  - reflexivity.
  - reflexivity.
  - vm_compute. repeat constructor.
  - vm_compute. discriminate.
  - reflexivity.
  - intros d Hd. by apply elem_of_empty in Hd.
  - apply not_elem_of_empty.
  - exact H.
Defined.

(** A catalog of two photos without sizes. *)
Definition sizeless_photos : list photo_record := [PhotoRecord 3 []; PhotoRecord 8 []].

Definition sizeless_catalog : json :=
  JObj [("response", JObj [("count", JInt 2); ("items", JList (map enc_photo sizeless_photos))])].

Lemma main_no_usable_photos_witness :
  main (fake_world sizeless_catalog 201 sample_stdin) =
    (Ok tt, World ({[staging_dir]} ∪ ∅) ∅ (FakeSrv sizeless_catalog 201 ∅) []
      ([] ++ [EvInput prompt_user_id "1"; EvInput prompt_vk_token "vk-token";
              EvInput prompt_ya_token "ya-token"; EvInput prompt_folder "backup";
              EvRequest (photos_request (MkVkDownloader "1" "vk-token") 0 5)]
          ++ mjoin (map download_events sizeless_photos) ++ [EvPrint msg_no_photos])).
Proof.
  apply (main_no_usable_photos (fake_world sizeless_catalog 201 sample_stdin) "1" "vk-token"
           "ya-token" "backup" [] (FakeSrv sizeless_catalog 201 ∅) sizeless_catalog sizeless_photos).
  - reflexivity.
  - eexists. split; reflexivity.
  - reflexivity.
  - repeat constructor.
  - reflexivity.
Defined.


(** A run on [flaky_srv]: the second upload fails. *)
Definition flaky_world : world flaky_srv :=
  World ∅ ∅ (Flaky (FakeSrv sample_catalog 201 ∅)) sample_stdin [].

Abbreviation flaky_disk := (fun s : flaky_srv => fk_disk (fl_inner s)).

(** The file names whose upload URL [flaky_srv] gives, in every folder. *)
Definition flaky_ok (fn : string) : Prop := forall folder, folder +:+ "/" +:+ fn <> broken_path.

Lemma flaky_serves D : serves_images (fun s => flaky_disk s = D) fake_fetch.
Proof.
  intros srv u HI _. unfold http_handle, flaky_http, flaky_handle. simpl.
  unfold fake_handle. simpl.
  destruct (String.eqb _ _); [eauto|]. destruct (String.eqb _ _); eauto.
Qed.

Lemma flaky_answers_folder (srv : flaky_srv) (self : YaUploader) :
  exists srv' r, http_handle srv (folder_request self) = (srv', Ok r) /\ flaky_disk srv' = flaky_disk srv.
Proof. do 2 eexists. split; reflexivity. Qed.

Lemma flaky_answers_link (srv : flaky_srv) (self : YaUploader) (fn : string) :
  flaky_ok fn ->
  exists srv' r body,
    http_handle srv (upload_link_request self fn) = (srv', Ok r) /\
    resp_json r = Some body /\ get body "href" = Ok (JStr (fake_link (remote_path self fn))) /\
    url_ok (fake_link (remote_path self fn)) = true /\ flaky_disk srv' = flaky_disk srv.
Proof.
  intros Hok. unfold http_handle, flaky_http, flaky_handle. simpl.
  destruct (String.eqb_spec (folder_name self +:+ "/" +:+ fn) broken_path) as [E|_];
    [by destruct (Hok (folder_name self))|].
  do 3 eexists. split; [reflexivity|]. split; [reflexivity|]. by split.
Qed.

Lemma flaky_accepts_put (srv : flaky_srv) (p data : string) :
  url_ok (fake_link p) = true ->
  exists srv' r, http_handle srv (Request PUT (fake_link p) [] [] (Some data)) = (srv', Ok r) /\
                 flaky_disk srv' = <[p := data]> (flaky_disk srv).
Proof. intros _. do 2 eexists. split; reflexivity. Qed.

Lemma flaky_ok_42 : flaky_ok "42.jpg".
Proof.
  intros folder H. apply (f_equal (fun s => reverse (String.list_ascii_of_string s))) in H.
  rewrite !list_ascii_of_string_app, reverse_app in H. discriminate H.
Qed.

Lemma main_upload_fails_witness :
  exists w' pre, main flaky_world = (Raise ConnectionError, w') /\
    w_files w' = staged fake_fetch sample_photos ∅ /\
    w_trace w' = pre ++ [EvRequest (upload_link_request (MkYaUploader "ya-token" "backup") "5.jpg")] /\
    (forall t, t ∈ [TransferRecord "42.jpg" "x"] ->
       flaky_disk (w_net w') !! ("backup" +:+ "/" +:+ tr_file_name t) =
       staged fake_fetch sample_photos ∅ !! ("images_vk/" +:+ tr_file_name t)).
Proof.
  apply (main_upload_fails fake_fetch flaky_disk flaky_serves flaky_answers_folder fake_link flaky_ok
           flaky_answers_link flaky_accepts_put flaky_world "1" "vk-token" "ya-token" "backup" []
           (Flaky (FakeSrv sample_catalog 201 ∅)) sample_catalog sample_photos
           [TransferRecord "42.jpg" "x"] (TransferRecord "5.jpg" "s") [] ConnectionError).
  - reflexivity.
  - eexists. split; reflexivity.
  - reflexivity.
  - reflexivity.
  - vm_compute. repeat constructor.
  - reflexivity.
  - reflexivity.
  - intros d Hd. by apply elem_of_empty in Hd.
  - repeat constructor. apply flaky_ok_42.
  - intros srv. eexists. split; reflexivity.
Defined.
