(* ===== verification/Confinement.v ===== *)
(** * Where the credentials go, and the order of the two phases

    [main] reads two secrets: the VK access token, sent as the
    [access_token] query parameter, and the Yandex.Disk token, sent in an
    [Authorization] header.  Whatever the services answer, and whatever
    the catalog lists, the run sends the VK parameter only to the
    [photos.get] endpoint and the header only to the two
    cloud-api.yandex.net endpoints: the image URLs taken from the
    catalog and the upload [href] of Yandex.Disk are requested without
    them (src/program.py, lines 46 and 77).  And every request of the
    upload phase (authenticated, or a [PUT]) comes after every request of
    the download phase (an unauthenticated [GET]), as the pipeline of
    spec.md, section 5, orders FETCH_CATALOG and MATERIALIZE_ALL before
    ENSURE_FOLDER and PUBLISH_ALL. *)

From stdpp Require Import base list strings gmap.
From S2P Require Import Prelude PyJson World Trace VkDownloader YaUploader Manifest Program.

Local Open Scope py_scope.

(** ** The two properties of a request *)

(** A request is confined when the VK token parameter goes only to
    [photos.get] and the authorization header only to Yandex.Disk's API. *)
Definition confined (r : request) : Prop :=
  (forall v, ("access_token", v) ∈ req_params r -> req_url r = photos_get_url) /\
  (forall h, ("Authorization", h) ∈ req_headers r -> req_url r = resources_url \/ req_url r = upload_url).

Definition confinedb (r : request) : bool :=
  forallb (fun kv => negb (String.eqb kv.1 "access_token") || String.eqb (req_url r) photos_get_url)
    (req_params r) &&
  forallb (fun kv => negb (String.eqb kv.1 "Authorization") || String.eqb (req_url r) resources_url
                     || String.eqb (req_url r) upload_url) (req_headers r).

Definition confined_event (e : event) : Prop :=
  match e with EvRequest r => confined r | _ => True end.

(** The download phase: prompts, prints and unauthenticated GETs. *)
Definition download_event (e : event) : Prop :=
  match e with EvRequest r => req_method r = GET /\ req_headers r = [] | _ => True end.

(** The upload phase: prints and requests that are authenticated or PUTs. *)
Definition upload_event (e : event) : Prop :=
  match e with
  | EvRequest r => req_headers r <> [] \/ req_method r = PUT
  | EvPrint _ => True
  | EvInput _ _ => False
  end.

(** ** Lemmas *)

Lemma confinedb_spec r : confinedb r = true -> confined r.
Proof.
  unfold confinedb. intros [Hp Hh]%andb_true_iff.
  apply forallb_Forall in Hp, Hh. rewrite Forall_forall in Hp, Hh. split.
  - intros v Hv. specialize (Hp _ Hv). simpl in Hp. apply String.eqb_eq, Hp.
  - intros h Hv. specialize (Hh _ Hv). simpl in Hh.
    apply orb_true_iff in Hh as [H|H]; [left|right]; by apply String.eqb_eq.
Qed.

Section Phases.
Context {Srv : Type} `{!HttpServer Srv}.
Implicit Types (E : event -> Prop).

Lemma emits_get_photos E self o c :
  E (EvRequest (photos_request self o c)) -> emits E (get_photos (Srv:=Srv) self o c).
Proof. intros H. unfold get_photos. emits_steps; auto. Qed.

(** What the download loop sends: image GETs without credentials, and
    the message for a photo without sizes. *)
Section DownloadPhase.
Variable E : event -> Prop.
Hypothesis HE_image : forall u, E (EvRequest (Request GET u [] [] None)).
Hypothesis HE_print : forall l, E (EvPrint l).

Lemma emits_download_one photo : emits E (download_one (Srv:=Srv) photo).
Proof. unfold download_one. emits_steps; auto. destruct (negb (truthy _)); emits_steps; auto. Qed.

Lemma emits_download_loop acc items : emits E (download_loop (Srv:=Srv) acc items).
Proof.
  revert acc. induction items as [|p items IH]; intros acc; simpl; [auto with emits|].
  apply emits_bind; [apply emits_download_one|]. intros [e|]; apply IH.
Qed.

Lemma emits_download_photos self :
  E (EvRequest (photos_request self 0 5)) -> emits E (download_photos (Srv:=Srv) self).
Proof.
  intros Hreq. unfold download_photos. apply emits_bind; [by apply emits_get_photos|]. intros data.
  destruct (response_items data) as [items|[]]; emits_steps; auto.
  - destruct (negb _); emits_steps; auto.
  - apply emits_download_loop.
Qed.
End DownloadPhase.

(** What the upload phase sends: the folder request, the upload-link
    requests and the PUTs of the file bytes. *)
Section UploadPhase.
Variable E : event -> Prop.
Variable self : YaUploader.
Hypothesis HE_folder : E (EvRequest (folder_request self)).
Hypothesis HE_link : forall fn, E (EvRequest (upload_link_request self fn)).
Hypothesis HE_put : forall u d, E (EvRequest (Request PUT u [] [] (Some d))).
Hypothesis HE_print : forall l, E (EvPrint l).

Lemma emits_create_folder : emits E (create_folder (Srv:=Srv) self).
Proof. unfold create_folder. emits_steps; auto. Qed.

Lemma emits_upload_photos photos : emits E (upload_photos (Srv:=Srv) self photos).
Proof.
  induction photos as [|p photos IH]; simpl; [auto with emits|].
  apply emits_bind; [|intros _; exact IH]. unfold upload_one. emits_steps; auto.
Qed.

Lemma emits_write_manifest photos : emits E (write_manifest (Srv:=Srv) photos).
Proof. unfold write_manifest. emits_steps; auto. Qed.
End UploadPhase.
End Phases.

(** ** The run *)

Section Main.
Context {Srv : Type} `{!HttpServer Srv}.

Ltac confined_by_computation := intros; first [exact I | apply confinedb_spec; reflexivity].

(** C17: whatever the services answer and whatever the catalog lists, a
    run of [main] sends the [access_token] parameter only to the
    [photos.get] endpoint and the [Authorization] header only to the two
    Yandex.Disk API endpoints; every other request (the image URLs of the
    catalog, the upload [href]) carries neither. *)
Theorem main_confined : emits confined_event (main (Srv:=Srv)).
Proof.
  unfold main. emits_steps; try done.
  - apply emits_download_photos; confined_by_computation.
  - match goal with |- emits _ (match ?l with _ => _ end) => destruct l end; emits_steps; try done.
    + apply emits_create_folder; confined_by_computation.
    + apply emits_upload_photos; confined_by_computation.
    + apply emits_write_manifest.
Qed.

(** C18: a run of [main] sends all the requests of the download phase
    (the catalog request and the image GETs, unauthenticated) before all
    the requests of the upload phase (authenticated, or PUTs), and reads
    the four answers of the operator before either; this holds for every
    behaviour of the services, a failure included, which ends the trace
    early. *)
Theorem main_phases : emits_then download_event upload_event (main (Srv:=Srv)).
Proof.
  unfold main.
  do 4 (apply emits_then_bind; [apply emits_input; done|intros ?]).
  apply emits_then_bind; [apply emits_download_photos; done|intros photos].
  destruct photos as [|p ps].
  - apply emits_then_first, emits_print. done.
  - apply emits_then_second. emits_steps.
    + apply emits_create_folder; simpl; auto; discriminate.
    + apply emits_upload_photos; simpl; auto; discriminate.
    + apply emits_write_manifest.
Qed.
End Main.
